(** * Copilot dashboard: ingestion, extraction and aggregation

    A shallow embedding of the data-shaping code of the repository:
    - [main.py]: [load_json_files], [process_data];
    - [dashboard.py]: [extract_language_metrics], [extract_chat_metrics],
      [calculate_acceptance_rate], the engagement rate of [render_overview]
      and the period filter and top-10 ranking of [render_language_analysis].

    Python values are a small inductive type, exceptions are an error
    monad, pandas tables are lists of rows.  What pandas itself computes
    ([pd.to_datetime], the algorithm behind [sort_values]) is an argument
    of the function that calls it, with the contract the library
    documents stated in [Pandas]. *)

From Stdlib Require Import List String Ascii ZArith QArith Bool Lia.
From Stdlib Require Import Permutation Sorted Mergesort Orders OrdersEx.
Import ListNotations.

Set Warnings "-register-all".

Local Open Scope string_scope.
Local Open Scope list_scope.
Local Open Scope Z_scope.

(** ** Python values and exceptions *)

Module Py.

(** The objects that [json.load] and a parquet read hand to the code:
    [None], booleans, integers, strings, lists and dicts, plus the two
    values pandas adds, the missing marker [float('nan')] and a
    [datetime64] cell ([None] inside is [NaT], otherwise days).  A list
    is a Python list in what [json.load] returns and a numpy array in a
    table read from Parquet; the two differ in their truth value
    ([truthy] and [truth] below). *)
Inductive pyval : Type :=
| PNone
| PNaN
| PBool (b : bool)
| PInt (z : Z)
| PStr (s : string)
| PDatetime (t : option Z)
| PList (l : list pyval)
| PDict (d : list (string * pyval)).

Inductive exn : Type :=
| KeyError
| TypeError
| AttributeError
| IndexError
| ValueError
| ZeroDivisionError.

Inductive result (A : Type) : Type :=
| Ok (a : A)
| Raise (e : exn).
Arguments Ok {A} a.
Arguments Raise {A} e.

Definition bind {A B} (m : result A) (k : A -> result B) : result B :=
  match m with
  | Ok a => k a
  | Raise e => Raise e
  end.

Definition is_ok {A} (m : result A) : bool :=
  match m with Ok _ => true | Raise _ => false end.

(** [for x in xs: body] where the body appends rows: the rows of every
    iteration in order, or the first exception. *)
Fixpoint for_each {A B} (body : A -> result (list B)) (xs : list A)
  : result (list B) :=
  match xs with
  | [] => Ok []
  | x :: rest =>
      bind (body x) (fun rows =>
      bind (for_each body rest) (fun more => Ok (rows ++ more)))
  end.

(** A dict keeps its keys in insertion order; lookup finds the binding
    of a key. *)
Fixpoint lookup (k : string) (d : list (string * pyval)) : option pyval :=
  match d with
  | [] => None
  | (k', v) :: rest => if String.eqb k k' then Some v else lookup k rest
  end.

Definition has_key (k : string) (d : list (string * pyval)) : bool :=
  match lookup k d with Some _ => true | None => false end.

(** [d[k] = v]: overwrite in place, or append a new key. *)
Fixpoint set_key (k : string) (v : pyval) (d : list (string * pyval))
  : list (string * pyval) :=
  match d with
  | [] => [(k, v)]
  | (k', v') :: rest =>
      if String.eqb k k' then (k', v) :: rest else (k', v') :: set_key k v rest
  end.

(** [bool(v)] *)
Definition truthy (v : pyval) : bool :=
  match v with
  | PNone => false
  | PNaN => true
  | PBool b => b
  | PInt z => negb (z =? 0)
  | PStr s => negb (String.eqb s "")
  | PDatetime _ => true
  | PList l => match l with [] => false | _ => true end
  | PDict d => match d with [] => false | _ => true end
  end.

(** [bool(v)] on a value of a table read from Parquet, where a list is
    a numpy array: the truth value of an array is that of its only
    element, and [ValueError] when it has none or several. *)
Fixpoint truth (v : pyval) : result bool :=
  match v with
  | PList [x] => truth x
  | PList _ => Raise ValueError
  | _ => Ok (truthy v)
  end.

(** [isinstance(v, dict)] *)
Definition is_dict (v : pyval) : bool :=
  match v with PDict _ => true | _ => false end.

Definition is_str (k : string) (v : pyval) : bool :=
  match v with PStr s => String.eqb s k | _ => false end.

Definition is_substring (k s : string) : bool :=
  match String.index 0 k s with Some _ => true | None => false end.

(** [k in v] for a string [k] *)
Definition contains (k : string) (v : pyval) : result bool :=
  match v with
  | PDict d => Ok (has_key k d)
  | PList l => Ok (existsb (is_str k) l)
  | PStr s => Ok (is_substring k s)
  | _ => Raise TypeError
  end.

(** [v[k]] for a string [k] *)
Definition getitem (v : pyval) (k : string) : result pyval :=
  match v with
  | PDict d => match lookup k d with Some x => Ok x | None => Raise KeyError end
  | _ => Raise TypeError
  end.

(** [v.get(k, default)] *)
Definition get (v : pyval) (k : string) (default : pyval) : result pyval :=
  match v with
  | PDict d => match lookup k d with Some x => Ok x | None => Ok default end
  | _ => Raise AttributeError
  end.

Fixpoint chars (s : string) : list pyval :=
  match s with
  | EmptyString => []
  | String c rest => PStr (String c EmptyString) :: chars rest
  end.

(** [for x in v] *)
Definition iter (v : pyval) : result (list pyval) :=
  match v with
  | PList l => Ok l
  | PDict d => Ok (map (fun kv => PStr (fst kv)) d)
  | PStr s => Ok (chars s)
  | _ => Raise TypeError
  end.

(** [len(v)] *)
Definition len (v : pyval) : result Z :=
  match v with
  | PList l => Ok (Z.of_nat (List.length l))
  | PDict d => Ok (Z.of_nat (List.length d))
  | PStr s => Ok (Z.of_nat (String.length s))
  | _ => Raise TypeError
  end.

(** [v[0]] *)
Definition getitem0 (v : pyval) : result pyval :=
  match v with
  | PList l => match l with x :: _ => Ok x | [] => Raise IndexError end
  | PStr s => match chars s with x :: _ => Ok x | [] => Raise IndexError end
  | PDict _ => Raise KeyError
  | _ => Raise TypeError
  end.

End Py.

Import Py.

Declare Scope py_scope.
Delimit Scope py_scope with py.
Notation "x <- m ;; k" := (bind m (fun x => k))
  (at level 61, m at next level, right associativity) : py_scope.
Local Open Scope py_scope.

(** ** Extraction layer ([dashboard.py]) *)

(** A row of the wide table as [df.iterrows()] yields it: the column
    labels with the cell of each.  A table is the list of its rows. *)
Definition Series : Type := list (string * pyval).
Definition DataFrame : Type := list Series.

(** [row[k]] on a Series *)
Definition row_get (row : Series) (k : string) : result pyval :=
  match lookup k row with Some x => Ok x | None => Raise KeyError end.

(** One dict appended to [language_data]. *)
Record LanguageMetricRow : Type := mkLanguageMetricRow {
  lm_date : pyval;
  lm_organization : pyval;
  lm_editor : pyval;
  lm_language : pyval;
  lm_total_engaged_users : pyval;
  lm_total_code_acceptances : pyval;
  lm_total_code_suggestions : pyval;
  lm_total_code_lines_accepted : pyval;
  lm_total_code_lines_suggested : pyval;
  lm_feature_type : string
}.

(** One dict appended to [chat_data]. *)
Record ChatMetricRow : Type := mkChatMetricRow {
  cm_date : pyval;
  cm_organization : pyval;
  cm_editor : pyval;
  cm_feature_type : string;
  cm_total_engaged_users : pyval;
  cm_total_chats : pyval;
  cm_total_chat_copy_events : pyval;
  cm_total_chat_insertion_events : pyval
}.

Module Extract.

(** Body of [for lang in model['languages']]. *)
Definition language_row (date org editor_name lang : pyval)
  : result (list LanguageMetricRow) :=
  name <- get lang "name" (PStr "unknown") ;;
  engaged <- get lang "total_engaged_users" (PInt 0) ;;
  acceptances <- get lang "total_code_acceptances" (PInt 0) ;;
  suggestions <- get lang "total_code_suggestions" (PInt 0) ;;
  lines_accepted <- get lang "total_code_lines_accepted" (PInt 0) ;;
  lines_suggested <- get lang "total_code_lines_suggested" (PInt 0) ;;
  Ok [mkLanguageMetricRow date org editor_name name engaged acceptances
        suggestions lines_accepted lines_suggested "code_completions"].

(** Body of [for model in editor['models']]. *)
Definition model_language_rows (date org editor_name model : pyval)
  : result (list LanguageMetricRow) :=
  has_languages <- contains "languages" model ;;
  if (has_languages : bool) then
    languages <- getitem model "languages" ;;
    langs <- iter languages ;;
    for_each (language_row date org editor_name) langs
  else Ok [].

(** Body of [for editor in completions['editors']]. *)
Definition editor_language_rows (date org editor : pyval)
  : result (list LanguageMetricRow) :=
  editor_name <- get editor "name" (PStr "unknown") ;;
  has_models <- contains "models" editor ;;
  if (has_models : bool) then
    models <- getitem editor "models" ;;
    ms <- iter models ;;
    for_each (model_language_rows date org editor_name) ms
  else Ok [].

(** The block under [completions = row['copilot_ide_code_completions']]. *)
Definition completions_rows (date org completions : pyval)
  : result (list LanguageMetricRow) :=
  has_editors <- contains "editors" completions ;;
  if (has_editors : bool) then
    editors <- getitem completions "editors" ;;
    es <- iter editors ;;
    for_each (editor_language_rows date org) es
  else Ok [].

(** Body of [for _, row in df.iterrows()] in [extract_language_metrics]. *)
Definition language_rows_of_record (row : Series)
  : result (list LanguageMetricRow) :=
  date <- row_get row "date" ;;
  org <- row_get row "organization" ;;
  if has_key "copilot_ide_code_completions" row then
    completions <- row_get row "copilot_ide_code_completions" ;;
    used <- truth completions ;;
    if (used : bool) then completions_rows date org completions
    else Ok []
  else Ok [].

Definition extract_language_metrics (df : DataFrame)
  : result (list LanguageMetricRow) :=
  for_each language_rows_of_record df.

(** Body of [for model in editor['models']] in the IDE chat block. *)
Definition ide_chat_row (date org editor_name model : pyval)
  : result (list ChatMetricRow) :=
  engaged <- get model "total_engaged_users" (PInt 0) ;;
  chats <- get model "total_chats" (PInt 0) ;;
  copies <- get model "total_chat_copy_events" (PInt 0) ;;
  insertions <- get model "total_chat_insertion_events" (PInt 0) ;;
  Ok [mkChatMetricRow date org editor_name "ide_chat" engaged chats copies
        insertions].

(** Body of [for editor in chat['editors']]. *)
Definition editor_chat_rows (date org editor : pyval)
  : result (list ChatMetricRow) :=
  editor_name <- get editor "name" (PStr "unknown") ;;
  has_models <- contains "models" editor ;;
  if (has_models : bool) then
    models <- getitem editor "models" ;;
    ms <- iter models ;;
    for_each (ide_chat_row date org editor_name) ms
  else Ok [].

(** The block under [chat = row['copilot_ide_chat']]. *)
Definition ide_chat_rows (date org chat : pyval)
  : result (list ChatMetricRow) :=
  has_editors <- contains "editors" chat ;;
  if (has_editors : bool) then
    editors <- getitem chat "editors" ;;
    es <- iter editors ;;
    for_each (editor_chat_rows date org) es
  else Ok [].

(** [total_chats] of the github.com row: the first model's count when
    ['models' in dotcom_chat and dotcom_chat['models'] and
    len(dotcom_chat['models']) > 0], else the initial [0].  The middle
    operand takes the truth value of the array of models, which raises
    unless the array has exactly one model. *)
Definition dotcom_total_chats (dotcom_chat : pyval) : result pyval :=
  has_models <- contains "models" dotcom_chat ;;
  if (has_models : bool) then
    models <- getitem dotcom_chat "models" ;;
    some_models <- truth models ;;
    if (some_models : bool) then
      n <- len models ;;
      if 0 <? n then
        first <- getitem0 models ;;
        get first "total_chats" (PInt 0)
      else Ok (PInt 0)
    else Ok (PInt 0)
  else Ok (PInt 0).

(** The block under [dotcom_chat = row['copilot_dotcom_chat']]: once
    [total_chats] is computed the row is appended, whatever [models]
    holds. *)
Definition dotcom_chat_rows (date org dotcom_chat : pyval)
  : result (list ChatMetricRow) :=
  total_chats <- dotcom_total_chats dotcom_chat ;;
  engaged <- get dotcom_chat "total_engaged_users" (PInt 0) ;;
  Ok [mkChatMetricRow date org (PStr "github.com") "dotcom_chat" engaged
        total_chats (PInt 0) (PInt 0)].

(** Body of [for _, row in df.iterrows()] in [extract_chat_metrics]. *)
Definition chat_rows_of_record (row : Series) : result (list ChatMetricRow) :=
  date <- row_get row "date" ;;
  org <- row_get row "organization" ;;
  ide <-
    (if has_key "copilot_ide_chat" row then
       chat <- row_get row "copilot_ide_chat" ;;
       used <- truth chat ;;
       if (used : bool) then ide_chat_rows date org chat else Ok []
     else Ok []) ;;
  dotcom <-
    (if has_key "copilot_dotcom_chat" row then
       dotcom_chat <- row_get row "copilot_dotcom_chat" ;;
       used <- truth dotcom_chat ;;
       if (used : bool) then dotcom_chat_rows date org dotcom_chat
       else Ok []
     else Ok []) ;;
  Ok (ide ++ dotcom).

Definition extract_chat_metrics (df : DataFrame) : result (list ChatMetricRow) :=
  for_each chat_rows_of_record df.

End Extract.

(** ** Metric and aggregation layer ([dashboard.py]) *)

Module Metrics.

(** A row of [lang_df] with its columns at their dtypes: [date] is a
    [datetime64] day number, the counts are integers. *)
Record LangRow : Type := mkLangRow {
  date : Z;
  organization : string;
  editor : string;
  language : string;
  total_engaged_users : Z;
  total_code_acceptances : Z;
  total_code_suggestions : Z;
  total_code_lines_accepted : Z;
  total_code_lines_suggested : Z
}.

(** The sum of a column, exact: what [lang_df[col].sum()] returns as
    long as it fits in a 64-bit integer ([Int64.sum] below is the sum
    as numpy computes it). *)
Definition col_sum (col : LangRow -> Z) (lang_df : list LangRow) : Z :=
  fold_right Z.add 0 (map col lang_df).

(** [calculate_acceptance_rate] on exact sums; Python's true division
    is taken over the rationals.  [Int64.calculate_acceptance_rate]
    below takes the sums with numpy's wrap-around. *)
Definition calculate_acceptance_rate (lang_df : list LangRow) : Q :=
  match lang_df with
  | [] => 0%Q
  | _ :: _ =>
      let total_suggestions := col_sum total_code_suggestions lang_df in
      let total_acceptances := col_sum total_code_acceptances lang_df in
      if 0 <? total_suggestions
      then (inject_Z total_acceptances / inject_Z total_suggestions * 100)%Q
      else 0%Q
  end.

(** The value of a division: a rational, or one of the floats [inf] and
    [nan]. *)
Inductive number : Type :=
| Finite (q : Q)
| NotFinite.

(** [latest_data.get(k, default)] on a Series *)
Definition series_get (row : Series) (k : string) (default : pyval) : pyval :=
  match lookup k row with Some v => v | None => default end.

Definition as_int (v : pyval) : option Z :=
  match v with
  | PInt z => Some z
  | PBool b => Some (if b then 1 else 0)
  | _ => None
  end.

(** [a / b] on the cells of a row.  The cells of a table are numpy
    scalars: a zero divisor gives [inf] or [nan] with a warning, where
    plain Python integers would raise [ZeroDivisionError]; a [nan]
    operand gives [nan]. *)
Definition truediv (a b : pyval) : result number :=
  match a, b with
  | PNaN, PNaN => Ok NotFinite
  | PNaN, _ => match as_int b with Some _ => Ok NotFinite | None => Raise TypeError end
  | _, PNaN => match as_int a with Some _ => Ok NotFinite | None => Raise TypeError end
  | _, _ =>
      match as_int a, as_int b with
      | Some x, Some y =>
          if y =? 0 then Ok NotFinite
          else Ok (Finite (inject_Z x / inject_Z y)%Q)
      | _, _ => Raise TypeError
      end
  end.

Definition times100 (n : number) : number :=
  match n with
  | Finite q => Finite (q * 100)%Q
  | NotFinite => NotFinite
  end.

(** [engagement_rate] of [render_overview]:
    [(latest_data.get('total_engaged_users', 0) /
      latest_data.get('total_active_users', 1)) * 100]. *)
Definition engagement_rate (latest_data : Series) : result number :=
  ratio <- truediv (series_get latest_data "total_engaged_users" (PInt 0))
                   (series_get latest_data "total_active_users" (PInt 1)) ;;
  Ok (times100 ratio).

(** The entries of the period select box. *)
Inductive period_option : Type :=
| Last_7_days
| Last_14_days
| Last_30_days
| All_time.

Definition days_of (p : period_option) : option Z :=
  match p with
  | Last_7_days => Some 7
  | Last_14_days => Some 14
  | Last_30_days => Some 30
  | All_time => None
  end.

(** [lang_df['date'].max()] of a table whose first row is [r]. *)
Definition max_date (r : LangRow) (rest : list LangRow) : Z :=
  fold_left Z.max (map date rest) (date r).

(** The period filter of [render_language_analysis]: the pair
    [(filtered_lang_df, previous_lang_df)], or [None] when the function
    returns early on an empty table. *)
Definition period_filter (period : period_option) (compare_previous : bool)
    (lang_df : list LangRow) : option (list LangRow * list LangRow) :=
  match lang_df with
  | [] => None
  | r :: rest =>
      match days_of period with
      | None => Some (lang_df, [])
      | Some days =>
          let start_date := max_date r rest - (days - 1) in
          let filtered_lang_df :=
            filter (fun x => start_date <=? date x) lang_df in
          let previous_lang_df :=
            if compare_previous then
              let prev_start := start_date - days in
              let prev_end := start_date - 1 in
              filter (fun x => (prev_start <=? date x) && (date x <=? prev_end))
                     lang_df
            else [] in
          Some (filtered_lang_df, previous_lang_df)
      end
  end.

(** [groupby(...).sum()]: one entry per key, keys ascending, the values
    of a key added up. *)
Fixpoint group_add {K V : Type} (cmp : K -> K -> comparison)
    (plus : V -> V -> V) (k : K) (v : V) (acc : list (K * V))
  : list (K * V) :=
  match acc with
  | [] => [(k, v)]
  | (k', v') :: rest =>
      match cmp k k' with
      | Eq => (k', plus v' v) :: rest
      | Lt => (k, v) :: acc
      | Gt => (k', v') :: group_add cmp plus k v rest
      end
  end.

Definition groupby_sum {R K V : Type} (cmp : K -> K -> comparison)
    (plus : V -> V -> V) (key : R -> K) (val : R -> V) (rows : list R)
  : list (K * V) :=
  fold_left (fun acc r => group_add cmp plus (key r) (val r) acc) rows [].

(** Order of the [(date, language)] group keys. *)
Definition date_language_cmp (a b : Z * string) : comparison :=
  match Z.compare (fst a) (fst b) with
  | Eq => String_as_OT.compare (snd a) (snd b)
  | c => c
  end.

Definition plus3 (a b : Z * Z * Z) : Z * Z * Z :=
  let '(e1, a1, s1) := a in
  let '(e2, a2, s2) := b in
  (e1 + e2, a1 + a2, s1 + s2).

(** [lang_summary]: per [(date, language)] the sums of engaged users,
    acceptances and suggestions. *)
Definition lang_summary (filtered_lang_df : list LangRow)
  : list ((Z * string) * (Z * Z * Z)) :=
  groupby_sum date_language_cmp plus3
    (fun r => (date r, language r))
    (fun r => (total_engaged_users r, total_code_acceptances r,
               total_code_suggestions r))
    filtered_lang_df.




(** The total, through [proj], of the groups whose key satisfies [p]. *)
Definition sum_where {K V : Type} (p : K -> bool) (proj : V -> Z)
    (groups : list (K * V)) : Z :=
  fold_right (fun kv s => if p (fst kv) then proj (snd kv) + s else s)
    0 groups.

Definition is_eq (c : comparison) : bool :=
  match c with Eq => true | _ => false end.

End Metrics.

(** ** Integer columns as numpy holds them *)

Module Int64.

Import Metrics.

(** What numpy keeps of an integer result in an [int64]: the value
    congruent to it modulo [2^64] in [[-2^63, 2^63)]. *)
Definition wrap (z : Z) : Z := (z + 2 ^ 63) mod 2 ^ 64 - 2 ^ 63.


(** [lang_df[col].sum()] on an [int64] column: every addition wraps. *)
Definition sum (col : LangRow -> Z) (lang_df : list LangRow) : Z :=
  fold_left (fun acc r => wrap (acc + col r)) lang_df 0.

(** [calculate_acceptance_rate], the sums as numpy computes them; the
    true division is taken over the rationals. *)
Definition calculate_acceptance_rate (lang_df : list LangRow) : Q :=
  match lang_df with
  | [] => 0%Q
  | _ :: _ =>
      let total_suggestions := sum total_code_suggestions lang_df in
      let total_acceptances := sum total_code_acceptances lang_df in
      if 0 <? total_suggestions
      then (inject_Z total_acceptances / inject_Z total_suggestions * 100)%Q
      else 0%Q
  end.

End Int64.

(** ** Ingestion and normalization ([main.py]) *)

Module Ingest.

(** A file found by [month_dir.glob("*.json")]: its name and what
    [json.load] returns for it, [None] when opening or parsing raises. *)
Record json_file : Type := mkFile {
  file_name : string;
  content : option pyval
}.

(** The directory tree: [None] when [data_path.exists()] is false,
    otherwise the [year=*] directories, each with its [month=*]
    directories, each with its files, in the order [glob] yields them. *)
Definition data_dir : Type := option (list (list (list json_file))).

(** [name.rfind('.')] *)
Fixpoint rfind_dot (name : string) : option nat :=
  match name with
  | EmptyString => None
  | String c rest =>
      match rfind_dot rest with
      | Some i => Some (S i)
      | None => if Ascii.eqb c "." then Some O else None
      end
  end.

(** [Path.stem] as pathlib defines it: the name up to its last dot,
    when that dot is neither the first nor the last character. *)
Definition stem (name : string) : string :=
  match rfind_dot name with
  | Some i =>
      if (Nat.ltb 0 i && Nat.ltb i (String.length name - 1))%bool
      then String.substring 0 i name
      else name
  | None => name
  end.

(** ['-' in filename] *)
Fixpoint has_dash (filename : string) : bool :=
  match filename with
  | EmptyString => false
  | String c rest => if Ascii.eqb c "-" then true else has_dash rest
  end.

(** [filename.split('-', 1)] *)
Fixpoint split_dash_once (filename : string) : list string :=
  match filename with
  | EmptyString => [EmptyString]
  | String c rest =>
      if Ascii.eqb c "-" then [EmptyString; rest]
      else
        match split_dash_once rest with
        | head :: tail => String c head :: tail
        | [] => [String c EmptyString]
        end
  end.

(** [data[k] = v] *)
Definition setitem (data : pyval) (k : string) (v : pyval) : result pyval :=
  match data with
  | PDict d => Ok (PDict (set_key k v d))
  | _ => Raise TypeError
  end.

(** The body of the [try] block up to [all_data.append(data)]: the
    record that is appended, or the exception the [except] catches. *)
Definition load_one (f : json_file) : result pyval :=
  match content f with
  | None => Raise ValueError
  | Some data =>
      has_org <- contains "organization" data ;;
      if negb has_org then
        let filename := stem (file_name f) in
        if has_dash filename then
          match nth_error (split_dash_once filename) 1 with
          | Some org_from_filename =>
              setitem data "organization" (PStr org_from_filename)
          | None => Raise IndexError
          end
        else Ok data
      else Ok data
  end.

(** One pass of the innermost loop: append on success, report and go on
    when the body raised. *)
Definition load_step (all_data : list pyval) (f : json_file) : list pyval :=
  match load_one f with
  | Ok data => all_data ++ [data]
  | Raise _ => all_data
  end.

(** The three loops of [load_json_files]: [all_data] when they end. *)
Definition all_data (year_dirs : list (list (list json_file))) : list pyval :=
  fold_left (fun acc year_dir =>
    fold_left (fun acc month_dir =>
      fold_left load_step month_dir acc) year_dir acc) year_dirs [].

(** [load_json_files].  The empty table is [pd.DataFrame()];
    [pd_DataFrame] is the constructor on the records collected, which
    is called after the loops, outside the [try]. *)
Definition load_json_files
    (pd_DataFrame : list pyval -> result DataFrame)
    (dir : data_dir) : result DataFrame :=
  match dir with
  | None => Ok []
  | Some year_dirs =>
      match all_data year_dirs with
      | [] => Ok []
      | first :: rest => pd_DataFrame (first :: rest)
      end
  end.

(** [df.empty]: no rows, or no columns. *)
Definition empty (df : DataFrame) : bool :=
  match df with
  | [] => true
  | [] :: _ => true
  | _ => false
  end.

(** [k in df.columns] *)
Definition has_column (k : string) (df : DataFrame) : bool :=
  match df with
  | [] => false
  | row :: _ => has_key k row
  end.

(** [df[k]] *)
Definition column (k : string) (df : DataFrame) : list pyval :=
  map (fun row => match lookup k row with Some v => v | None => PNaN end) df.

(** [df[k] = values]; pandas raises [ValueError] when the lengths
    differ. *)
Fixpoint set_column (k : string) (values : list pyval) (df : DataFrame)
  : result DataFrame :=
  match df, values with
  | [], [] => Ok []
  | row :: rows, v :: vs =>
      rest <- set_column k vs rows ;;
      Ok (set_key k v row :: rest)
  | _, _ => Raise ValueError
  end.

(** [df[k] = pd.to_datetime(df[k])] *)
Definition coerce_column
    (to_datetime : list pyval -> result (list (option Z)))
    (k : string) (df : DataFrame) : result DataFrame :=
  if has_column k df then
    stamps <- to_datetime (column k df) ;;
    set_column k (map PDatetime stamps) df
  else Ok df.

(** [process_data].  [to_datetime] is [pd.to_datetime] on a column and
    [sort_values] is [df.sort_values('date')] with pandas' default sort
    kind. *)
Definition process_data
    (to_datetime : list pyval -> result (list (option Z)))
    (sort_values : DataFrame -> DataFrame)
    (df : DataFrame) : result DataFrame :=
  if empty df then Ok df
  else
    df1 <- coerce_column to_datetime "date" df ;;
    df2 <- coerce_column to_datetime "download_timestamp" df1 ;;
    if has_column "date" df2 then Ok (sort_values df2) else Ok df2.

(** The sort key of a row: its [date] cell as a [datetime64], [NaT]
    when it is missing. *)
Definition date_key (row : Series) : option Z :=
  match lookup "date" row with
  | Some (PDatetime t) => t
  | _ => None
  end.

(** Ascending order of the keys, [NaT] last. *)
Definition key_leb (a b : option Z) : bool :=
  match a, b with
  | Some x, Some y => x <=? y
  | _, None => true
  | None, Some _ => false
  end.

(** The files of a tree in the order the three loops visit them. *)
Definition files_of (year_dirs : list (list (list json_file)))
  : list json_file :=
  List.concat (List.concat year_dirs).

(** The record a file adds to [all_data], if any. *)
Definition loaded (f : json_file) : list pyval :=
  match load_one f with
  | Ok data => [data]
  | Raise _ => []
  end.

End Ingest.

(** ** What pandas is relied on for *)

Module Pandas.

Import Ingest.

(** [a] may come before [b] in a table sorted by date. *)
Definition date_le (a b : Series) : Prop :=
  key_leb (date_key a) (date_key b) = true.

(** [df.sort_values('date')] with the default [kind='quicksort']: the
    rows of [df], reordered so that the dates ascend.  The order among
    rows of equal date is not part of what pandas promises for that
    kind. *)
Definition sorts_by_date (sort_values : DataFrame -> DataFrame) : Prop :=
  forall df,
    Permutation df (sort_values df)
    /\ StronglySorted date_le (sort_values df).



(** Every row of a table has the labels of the first. *)
Fixpoint labels_eqb (a b : list string) : bool :=
  match a, b with
  | [], [] => true
  | x :: a', y :: b' => String.eqb x y && labels_eqb a' b'
  | _, _ => false
  end.

Definition same_columns (df : DataFrame) : bool :=
  match df with
  | [] => true
  | row :: rest =>
      forallb (fun r => labels_eqb (map fst r) (map fst row)) rest
  end.

(** [pd.to_datetime] accepts column [k] of [df], when there is one. *)
Definition converts (to_datetime : list pyval -> result (list (option Z)))
    (k : string) (df : DataFrame) : Prop :=
  has_column k df = true ->
  exists stamps,
    to_datetime (column k df) = Ok stamps
    /\ List.length stamps = List.length df.

(** [record[k]] when the record is a JSON object that has the key. *)
Definition item (k : string) (record : pyval) : option pyval :=
  match record with
  | PDict d => lookup k d
  | _ => None
  end.

(** A row holds a record: under each key of the record it has the
    value the record has there, unless that value is null (pandas may
    keep [None] or turn it into [nan]). *)
Definition holds_record (record : pyval) (row : Series) : Prop :=
  forall k v, item k record = Some v -> v <> PNone -> lookup k row = Some v.

(** [pd.DataFrame(records)] on a non-empty list of JSON objects: a
    table with one row per record, in order, that holds it. *)
Definition builds_frame (pd_DataFrame : list pyval -> result DataFrame)
  : Prop :=
  forall records,
    records <> [] -> forallb is_dict records = true ->
    exists df,
      pd_DataFrame records = Ok df
      /\ same_columns df = true
      /\ Forall2 holds_record records df.

(** A constructor that meets the contract.  The columns are the keys
    of the records in order of first appearance, and a cell is [nan]
    where its record lacks the key.  When the first record is a JSON
    object and another is not, reading the keys of that one raises
    [AttributeError]; what the constructor makes of a list that starts
    with something else is left to [sequences]. *)
Fixpoint add_labels (labels keys : list string) : list string :=
  match keys with
  | [] => labels
  | k :: rest =>
      add_labels (if existsb (String.eqb k) labels then labels
                  else labels ++ [k]) rest
  end.

Definition record_keys (record : pyval) : list string :=
  match record with
  | PDict d => map fst d
  | _ => []
  end.

Definition columns_of (records : list pyval) : list string :=
  fold_left (fun labels record => add_labels labels (record_keys record))
            records [].

Definition row_of (columns : list string) (record : pyval) : Series :=
  map (fun c => (c, match item c record with
                    | Some v => v
                    | None => PNaN
                    end)) columns.

Definition frame_of_records (sequences : list pyval -> result DataFrame)
    (records : list pyval) : result DataFrame :=
  match records with
  | PDict _ :: _ =>
      if forallb is_dict records
      then Ok (map (row_of (columns_of records)) records)
      else Raise AttributeError
  | _ => sequences records
  end.

(** A sort that meets the contracts above: insertion sort, which is
    stable. *)
Section InsertionSort.

Context {A : Type} (leb : A -> A -> bool).

Fixpoint insert (x : A) (l : list A) : list A :=
  match l with
  | [] => [x]
  | y :: rest => if leb x y then x :: l else y :: insert x rest
  end.

Fixpoint insertion_sort (l : list A) : list A :=
  match l with
  | [] => []
  | x :: rest => insert x (insertion_sort rest)
  end.

End InsertionSort.

Definition date_leb (a b : Series) : bool :=
  key_leb (date_key a) (date_key b).

Definition stable_sort_by_date : DataFrame -> DataFrame :=
  insertion_sort date_leb.



(** A stand-in for [pd.to_datetime]: an integer is a day number, a
    [datetime64] cell is kept, anything else becomes [NaT]. *)
Definition day_number (v : pyval) : option Z :=
  match v with
  | PInt z => Some z
  | PDatetime t => t
  | _ => None
  end.

Definition to_datetime_days (col : list pyval) : result (list (option Z)) :=
  Ok (map day_number col).

End Pandas.

(** The frame of [process_data]: a row keeps its labels and every cell
    outside [date] and [download_timestamp]. *)
Definition unchanged_elsewhere (before after : Series) : Prop :=
  map fst after = map fst before
  /\ forall k, k <> "date" -> k <> "download_timestamp" ->
                lookup k after = lookup k before.

(** The cell under [k] holds a [datetime64]. *)
Definition typed_cell (k : string) (row : Series) : Prop :=
  exists t, lookup k row = Some (PDatetime t).

(** What one coercion does to a row: labels and the other cells stay,
    and the cell under [k] is a [datetime64] when the column exists. *)
Definition coerced (k : string) (present : bool) (r r' : Series) : Prop :=
  map fst r' = map fst r
  /\ (forall k', k' <> k -> lookup k' r' = lookup k' r)
  /\ (present = true -> typed_cell k r')
  /\ (present = false -> r' = r).

(** The two coercions together. *)
Definition coerced_row (df : DataFrame) (r r' : Series) : Prop :=
  unchanged_elsewhere r r'
  /\ (Ingest.has_column "date" df = true -> typed_cell "date" r')
  /\ (Ingest.has_column "download_timestamp" df = true ->
      typed_cell "download_timestamp" r').

(** * Shapes, contracts and sample data *)

(** ** Shapes of nested records *)

Module Shape.

(** The list under key [k], empty when the key is absent. *)
Definition items (k : string) (v : pyval) : list pyval :=
  match v with
  | PDict d => match lookup k d with Some (PList l) => l | _ => [] end
  | _ => []
  end.

(** Key [k] is absent, or holds a list whose elements satisfy [ok]. *)
Definition list_or_absent (ok : pyval -> bool) (k : string) (v : pyval)
  : bool :=
  match v with
  | PDict d =>
      match lookup k d with
      | None => true
      | Some (PList l) => forallb ok l
      | Some _ => false
      end
  | _ => false
  end.

Definition model_ok : pyval -> bool := list_or_absent is_dict "languages".
Definition editor_ok : pyval -> bool := list_or_absent model_ok "models".
Definition chat_editor_ok : pyval -> bool := list_or_absent is_dict "models".

(** A top-level feature cell: null, or a dict whose [editors] are well
    shaped. *)
Definition feature_ok (ok : pyval -> bool) (v : pyval) : bool :=
  match v with
  | PNone => true
  | _ => list_or_absent ok "editors" v
  end.

(** The [copilot_dotcom_chat] cell: null, or a dict whose [models] is
    absent, null, or an array of exactly one dict. *)
Definition dotcom_ok (v : pyval) : bool :=
  match v with
  | PNone => true
  | PDict d =>
      match lookup "models" d with
      | None | Some PNone => true
      | Some (PList [m]) => is_dict m
      | Some _ => false
      end
  | _ => false
  end.

(** A dotcom structure without a [models] list. *)
Definition no_models (d : list (string * pyval)) : bool :=
  match lookup "models" d with
  | None | Some PNone => true
  | Some _ => false
  end.

Definition cell_ok (ok : pyval -> bool) (k : string) (row : Series) : bool :=
  match lookup k row with
  | None => true
  | Some v => ok v
  end.

Definition language_record_ok (row : Series) : bool :=
  has_key "date" row && has_key "organization" row
  && cell_ok (feature_ok editor_ok) "copilot_ide_code_completions" row.

Definition chat_record_ok (row : Series) : bool :=
  has_key "date" row && has_key "organization" row
  && cell_ok (feature_ok chat_editor_ok) "copilot_ide_chat" row
  && cell_ok dotcom_ok "copilot_dotcom_chat" row.

(** Rows a record is due: one per listed language, one per listed IDE
    chat model, one for a non-empty dotcom structure. *)
Definition count_model (m : pyval) : nat := List.length (items "languages" m).
Definition count_editor (e : pyval) : nat :=
  list_sum (map count_model (items "models" e)).
Definition count_completions (c : pyval) : nat :=
  list_sum (map count_editor (items "editors" c)).
Definition count_chat_editor (e : pyval) : nat := List.length (items "models" e).
Definition count_ide_chat (c : pyval) : nat :=
  list_sum (map count_chat_editor (items "editors" c)).

Definition count_cell (count : pyval -> nat) (k : string) (row : Series) : nat :=
  match lookup k row with
  | Some v => if truthy v then count v else O
  | None => O
  end.

Definition count_language_record (row : Series) : nat :=
  count_cell count_completions "copilot_ide_code_completions" row.

Definition count_chat_record (row : Series) : nat :=
  (count_cell count_ide_chat "copilot_ide_chat" row
   + count_cell (fun _ => 1%nat) "copilot_dotcom_chat" row)%nat.

End Shape.

(** ** Sample records, tables and files *)

Module Samples.

Definition day1 : pyval := PDatetime (Some 20240).

(** A record whose completions structure carries [editors: null]. *)
Definition null_editors_row : Series :=
  [("date", day1); ("organization", PStr "acme");
   ("copilot_ide_code_completions", PDict [("editors", PNone)]);
   ("copilot_ide_chat", PDict [("editors", PNone)])].


Definition python_lang : pyval :=
  PDict [("name", PStr "python"); ("total_engaged_users", PInt 3);
         ("total_code_acceptances", PInt 4);
         ("total_code_suggestions", PInt 9)].



(** Records with [models: null] under an editor and [languages: null]
    under a model. *)
Definition null_models_row : Series :=
  [("date", day1); ("organization", PStr "acme");
   ("copilot_ide_code_completions",
    PDict [("editors", PList [PDict [("name", PStr "vscode");
                                     ("models", PNone)]])]);
   ("copilot_ide_chat",
    PDict [("editors", PList [PDict [("name", PStr "vscode");
                                     ("models", PNone)]])])].

Definition null_languages_row : Series :=
  [("date", day1); ("organization", PStr "acme");
   ("copilot_ide_code_completions",
    PDict [("editors",
      PList [PDict [("name", PStr "vscode");
                    ("models", PList [PDict [("languages", PNone)]])]])])].

(** A long-format table over two weeks. *)
Definition lang_row (d : Z) (lang : string) (engaged acc sug : Z)
  : Metrics.LangRow :=
  Metrics.mkLangRow d "acme" "vscode" lang engaged acc sug 0 0.

Definition sample_lang_df : list Metrics.LangRow :=
  [lang_row 20230 "python" 3 4 9; lang_row 20236 "go" 2 1 5;
   lang_row 20237 "python" 5 6 10; lang_row 20240 "rust" 1 0 0].



(** The latest record of an organization without licensed users, and a
    record without the [total_active_users] column. *)
Definition no_active_users_row : Series :=
  [("date", day1); ("organization", PStr "acme");
   ("total_active_users", PInt 0); ("total_engaged_users", PInt 5)].

Definition no_active_column_row : Series :=
  [("date", day1); ("organization", PStr "acme");
   ("total_engaged_users", PInt 5)].

(** Files of one month directory: a record without organization, one
    that does not parse, one with its own organization, one whose name
    has no dash. *)
Definition acme_body : list (string * pyval) :=
  [("date", PStr "2025-06-15"); ("total_active_users", PInt 100)].

Definition acme_file : Ingest.json_file :=
  Ingest.mkFile "15-acme.json" (Some (PDict acme_body)).

Definition broken_file : Ingest.json_file :=
  Ingest.mkFile "16-acme.json" None.

Definition named_file : Ingest.json_file :=
  Ingest.mkFile "17-acme.json"
    (Some (PDict [("date", PStr "2025-06-17");
                  ("organization", PStr "initech")])).

(** The raw response of the metrics API, an array of daily records,
    saved under a name without a dash, and under one with a dash. *)
Definition array_file : Ingest.json_file :=
  Ingest.mkFile "18.json" (Some (PList [PDict acme_body])).

Definition dashed_array_file : Ingest.json_file :=
  Ingest.mkFile "18-acme.json" (Some (PList [PDict acme_body])).

Definition nodash_file : Ingest.json_file :=
  Ingest.mkFile "18.json" (Some (PDict [("date", PStr "2025-06-18")])).

(** A wide table out of date order, with two records on the same day. *)
Definition wide_row (d : Z) (org : string) (active : Z) : Series :=
  [("date", PInt d); ("organization", PStr org);
   ("download_timestamp", PInt (d + 1)); ("total_active_users", PInt active)].

Definition wide_df : DataFrame :=
  [wide_row 20240 "acme" 100; wide_row 20238 "acme" 90;
   wide_row 20240 "initech" 7].


(** [wide_row] after [process_data]. *)
Definition processed_row (d : Z) (org : string) (active : Z) : Series :=
  [("date", PDatetime (Some d)); ("organization", PStr org);
   ("download_timestamp", PDatetime (Some (d + 1)));
   ("total_active_users", PInt active)].

(** A processed table of two organizations, and one in which a record
    has no organization. *)
Definition processed_df : DataFrame :=
  [processed_row 20238 "acme" 90; processed_row 20240 "acme" 100;
   processed_row 20240 "initech" 7].

Definition unnamed_df : DataFrame :=
  [processed_row 20238 "acme" 90;
   [("date", PDatetime (Some 20239)); ("organization", PNaN);
    ("download_timestamp", PDatetime (Some 20240));
    ("total_active_users", PInt 4)]].

(** A record of a snapshot with every feature present: one language
    under one editor, one IDE chat model, one web chat model and the
    pull request summary. *)
Definition usage_row (d : Z) (org : string) : Series :=
  [("date", PDatetime (Some d)); ("organization", PStr org);
   ("download_timestamp", PDatetime (Some (d + 1)));
   ("total_active_users", PInt 10); ("total_engaged_users", PInt 5);
   ("copilot_ide_code_completions",
    PDict [("editors",
      PList [PDict [("name", PStr "vscode");
                    ("models",
                     PList [PDict [("name", PStr "default");
                                   ("languages", PList [python_lang])]])]])]);
   ("copilot_ide_chat",
    PDict [("editors",
      PList [PDict [("name", PStr "vscode");
                    ("models",
                     PList [PDict [("name", PStr "default");
                                   ("total_chats", PInt 6);
                                   ("total_chat_copy_events", PInt 2);
                                   ("total_chat_insertion_events", PInt 1);
                                   ("total_engaged_users", PInt 4)]])]])]);
   ("copilot_dotcom_chat",
    PDict [("total_engaged_users", PInt 2);
           ("models", PList [PDict [("name", PStr "default");
                                    ("total_chats", PInt 3);
                                    ("total_engaged_users", PInt 2)]])]);
   ("copilot_dotcom_pull_requests", PDict [("total_engaged_users", PInt 1)])].

Definition usage_df : DataFrame :=
  [usage_row 20238 "acme"; usage_row 20240 "acme"; usage_row 20240 "initech"].

(** A record whose second IDE chat model has no name, and a table of
    records with pull request data and no [copilot_dotcom_chat]
    column. *)
Definition nameless_model_row : Series :=
  [("date", day1); ("organization", PStr "acme");
   ("copilot_ide_chat",
    PDict [("editors",
      PList [PDict [("name", PStr "vscode");
                    ("models",
                     PList [PDict [("name", PStr "default");
                                   ("total_chats", PInt 6)];
                            PDict [("total_chats", PInt 2)];
                            PDict [("name", PStr "custom");
                                   ("total_chats", PInt 1)]])];
             PDict [("name", PStr "vim");
                    ("models",
                     PList [PDict [("name", PStr "default");
                                   ("total_chats", PInt 4)]])]])])].

Definition pull_requests_only_df : DataFrame :=
  [[("date", day1); ("organization", PStr "acme");
    ("copilot_dotcom_pull_requests",
     PDict [("total_engaged_users", PInt 3)])]].

(** Widgets: a date input in which a range has been picked, and a
    select box left at its first option. *)
Definition picked_range (start_date end_date : Z)
  : option Z -> option Z -> result (list Z) :=
  fun _ _ => Ok [start_date; end_date].

Definition first_option (options : list pyval) : pyval := hd PNone options.

End Samples.

(** * The rest of the code *)

(** ** pandas operations on object columns *)

Module Frames.

(** Cells pandas can hash: everything but lists and dicts. *)
Definition hashable (v : pyval) : bool :=
  match v with
  | PList _ | PDict _ => false
  | _ => true
  end.

(** Equality of two hashable cells as [unique] sees it: Python's [==],
    with [nan] equal to itself. *)
Definition same_cell (a b : pyval) : bool :=
  match a, b with
  | PNone, PNone => true
  | PNaN, PNaN => true
  | PStr x, PStr y => String.eqb x y
  | PDatetime x, PDatetime y =>
      match x, y with
      | Some s, Some t => s =? t
      | None, None => true
      | _, _ => false
      end
  | _, _ =>
      match Metrics.as_int a, Metrics.as_int b with
      | Some x, Some y => x =? y
      | _, _ => false
      end
  end.

(** [column.unique()]: the distinct cells in order of first appearance;
    [TypeError] on an unhashable cell. *)
Fixpoint unique (cells : list pyval) : result (list pyval) :=
  match cells with
  | [] => Ok []
  | c :: rest =>
      if hashable c then
        later <- unique rest ;;
        Ok (c :: filter (fun x => negb (same_cell c x)) later)
      else Raise TypeError
  end.

(** [', '.join(cells)]: [TypeError] unless every cell is a string. *)
Fixpoint join (cells : list pyval) : result string :=
  match cells with
  | [] => Ok EmptyString
  | PStr s :: rest =>
      tail <- join rest ;;
      Ok (match rest with
          | [] => s
          | _ :: _ => (s ++ ", " ++ tail)%string
          end)
  | _ :: _ => Raise TypeError
  end.

(** [column == value], one cell: a missing cell or a missing value
    ([None], [nan], [NaT]) compares unequal. *)
Definition cell_equals (value cell : pyval) : bool :=
  match value, cell with
  | PNaN, _ | PNone, _ | _, PNaN | _, PNone => false
  | PDatetime None, _ | _, PDatetime None => false
  | _, _ => same_cell value cell
  end.

(** [df[df[k] == value]] *)
Definition rows_where (k : string) (value : pyval) (df : DataFrame)
  : DataFrame :=
  filter (fun row =>
            match lookup k row with
            | Some cell => cell_equals value cell
            | None => false
            end) df.

Definition not_a_string (v : pyval) : bool :=
  match v with PStr _ => false | _ => true end.

(** The cell of a row under [k], [nan] when there is none. *)
Definition cell (k : string) (row : Series) : pyval :=
  match lookup k row with Some v => v | None => PNaN end.

End Frames.

(** ** Saving and summarizing ([main.py]) *)

Module Report.

Import Frames.

(** What [save_reports] leaves behind: the table written to
    [data.parquet], if one was written, and the organizations listed
    with their record counts, or the exception that ended the call. *)
Record saved : Type := mkSaved {
  snapshot : option DataFrame;
  listed : result (list (pyval * Z))
}.

(** [len(df[df['organization'] == org])] *)
Definition org_count (org : pyval) (df : DataFrame) : Z :=
  Z.of_nat (List.length (rows_where "organization" org df)).

(** [save_reports]; creating the directory and writing the file are
    taken to succeed. *)
Definition save_reports (df : DataFrame) : saved :=
  if Ingest.empty df then mkSaved None (Ok [])
  else
    mkSaved (Some df)
      (if Ingest.has_column "organization" df then
         organizations <- unique (Ingest.column "organization" df) ;;
         _ <- join organizations ;;
         Ok (map (fun org => (org, org_count org df)) organizations)
       else Ok []).

(** [org_df[k].iloc[-1] if len(org_df) > 0 else 'N/A'] *)
Definition latest_cell (k : string) (org_df : DataFrame) : pyval :=
  match org_df with
  | [] => PStr "N/A"
  | first :: rest =>
      match lookup k (last rest first) with
      | Some v => v
      | None => PNaN
      end
  end.

(** One organization of the summary: its name, its number of records
    and the latest active and engaged users, when the table has these
    columns. *)
Record org_summary : Type := mkOrgSummary {
  org_name : pyval;
  org_records : Z;
  latest_active : option pyval;
  latest_engaged : option pyval
}.

Definition summarize_org (df : DataFrame) (org : pyval) : org_summary :=
  let org_df := rows_where "organization" org df in
  mkOrgSummary org (Z.of_nat (List.length org_df))
    (if Ingest.has_column "total_active_users" df
     then Some (latest_cell "total_active_users" org_df) else None)
    (if Ingest.has_column "total_engaged_users" df
     then Some (latest_cell "total_engaged_users" org_df) else None).

(** The block of [print_summary] under
    [if 'organization' in df.columns]: one summary per organization. *)
Definition organization_summaries (df : DataFrame)
  : result (list org_summary) :=
  orgs <- unique (Ingest.column "organization" df) ;;
  _ <- join orgs ;;
  Ok (map (summarize_org df) orgs).

(** [print_summary] on a processed table, whose [date] column is
    [datetime64]: the summaries of the organization block; none when
    the table is empty or has no [organization] column. *)
Definition print_summary (df : DataFrame) : result (list org_summary) :=
  if Ingest.empty df then Ok []
  else if Ingest.has_column "organization" df
       then organization_summaries df
       else Ok [].

(** What a run of [main] leaves: the table in [data.parquet], if it
    got that far, and what it printed, the listing of [save_reports]
    and the summaries of [print_summary], or the exception that ended
    it. *)
Record run : Type := mkRun {
  written : option DataFrame;
  printed : result (list (pyval * Z) * list org_summary)
}.

(** [main] from the table that [load_json_files] returned: [None] when
    it stops on an empty table. *)
Definition main
    (to_datetime : list pyval -> result (list (option Z)))
    (sort_values : DataFrame -> DataFrame)
    (df : DataFrame) : option run :=
  if Ingest.empty df then None
  else
    Some (match Ingest.process_data to_datetime sort_values df with
          | Raise e => mkRun None (Raise e)
          | Ok df' =>
              let s := save_reports df' in
              mkRun (snapshot s)
                (orgs <- listed s ;;
                 sums <- print_summary df' ;;
                 Ok (orgs, sums))
          end).

(** The distinct names of a list in order of first appearance. *)
Fixpoint first_occurrences (names : list string) : list string :=
  match names with
  | [] => []
  | n :: rest =>
      n :: filter (fun x => negb (String.eqb n x)) (first_occurrences rest)
  end.

(** The organization cell of a row holds a string. *)
Definition named (row : Series) : bool :=
  match lookup "organization" row with
  | Some (PStr _) => true
  | _ => false
  end.

(** The organization names of a table whose cells are all strings. *)
Definition org_names (df : DataFrame) : list string :=
  map (fun row => match lookup "organization" row with
                  | Some (PStr s) => s
                  | _ => EmptyString
                  end) df.

End Report.

(** ** The tables of the dashboard ([main] of [dashboard.py]) *)

Module Dashboard.

Import Frames.

(** A long table: [pd.DataFrame(data)] has the columns of its records,
    and none when the list is empty, so that a column of a table built
    from no record cannot be read. *)
Record frame (R : Type) : Type := mkFrame {
  has_columns : bool;
  records : list R
}.
Arguments mkFrame {R} has_columns records.
Arguments has_columns {R} f.
Arguments records {R} f.

Definition pd_DataFrame {R} (data : list R) : frame R :=
  mkFrame (match data with [] => false | _ :: _ => true end) data.

Definition is_datetime (v : pyval) : bool :=
  match v with PDatetime _ => true | _ => false end.

Definition stamp (v : pyval) : option Z :=
  match v with PDatetime t => t | _ => None end.

(** [df['date']] as a column of dates: [KeyError] without the column,
    [AttributeError] (no [.date()], no [.dt]) when the column of a
    typed snapshot is not [datetime64]. *)
Definition date_column (df : DataFrame) : result (list (option Z)) :=
  if Ingest.has_column "date" df then
    if forallb (fun row => is_datetime (cell "date" row)) df
    then Ok (map (fun row => stamp (cell "date" row)) df)
    else Raise AttributeError
  else Raise KeyError.

Definition pick (choose : Z -> Z -> Z) (a b : option Z) : option Z :=
  match a, b with
  | Some x, Some y => Some (choose x y)
  | Some x, None => Some x
  | None, _ => b
  end.

(** [column.max()] and [column.min()]: [NaT] is skipped, and is the
    answer when nothing else is there. *)
Definition column_max (dates : list (option Z)) : option Z :=
  fold_left (pick Z.max) dates None.

Definition column_min (dates : list (option Z)) : option Z :=
  fold_left (pick Z.min) dates None.

(** [(column.dt.date >= start_date) & (column.dt.date <= end_date)],
    one cell: [NaT] is in no range. *)
Definition in_date_range (start_date end_date : Z) (v : pyval) : bool :=
  match v with
  | PDatetime (Some d) => (start_date <=? d) && (d <=? end_date)
  | _ => false
  end.

(** [table[(table['date'].dt.date >= start_date) & ...]] on a long
    table. *)
Definition select_dates {R} (date : R -> pyval) (start_date end_date : Z)
    (table : frame R) : result (frame R) :=
  if has_columns table then
    if forallb (fun r => is_datetime (date r)) (records table)
    then Ok (mkFrame true
               (filter (fun r => in_date_range start_date end_date (date r))
                       (records table)))
    else Raise AttributeError
  else Raise KeyError.

(** [table[table['organization'] == selected_org]] on a long table. *)
Definition select_organization {R} (organization : R -> pyval)
    (selected_org : pyval) (table : frame R) : result (frame R) :=
  if has_columns table then
    Ok (mkFrame true
          (filter (fun r => cell_equals selected_org (organization r))
                  (records table)))
  else Raise KeyError.

(** The three tables the sections are rendered from. *)
Record tables : Type := mkTables {
  wide : DataFrame;
  lang_df : frame LanguageMetricRow;
  chat_df : frame ChatMetricRow
}.

(** The date range filter of the sidebar; [date_range] is what the
    date input returns. *)
Definition filter_date_range (date_range : list Z) (t : tables)
  : result tables :=
  match date_range with
  | [start_date; end_date] =>
      let df :=
        filter (fun row => in_date_range start_date end_date
                             (cell "date" row)) (wide t) in
      lang <- select_dates lm_date start_date end_date (lang_df t) ;;
      chat <- select_dates cm_date start_date end_date (chat_df t) ;;
      Ok (mkTables df lang chat)
  | _ => Ok t
  end.

(** The organization filter of the sidebar; [selectbox] is the choice
    the select box returns for its options. *)
Definition filter_organization (selectbox : list pyval -> pyval) (t : tables)
  : result tables :=
  if Ingest.has_column "organization" (wide t) then
    orgs <- unique (Ingest.column "organization" (wide t)) ;;
    if (1 <? Z.of_nat (List.length orgs)) then
      let selected_org := selectbox orgs in
      let df := rows_where "organization" selected_org (wide t) in
      lang <- select_organization lm_organization selected_org (lang_df t) ;;
      chat <- select_organization cm_organization selected_org (chat_df t) ;;
      Ok (mkTables df lang chat)
    else Ok t
  else Ok t.

(** The data path of [main]: [None] when the script stops on missing
    or empty data, otherwise the filtered tables.  [date_input] is the
    date widget, called with the least and greatest date of the table;
    it returns the dates picked so far, or raises. *)
Definition main_tables
    (date_input : option Z -> option Z -> result (list Z))
    (selectbox : list pyval -> pyval)
    (loaded : option DataFrame) : result (option tables) :=
  match loaded with
  | None => Ok None
  | Some df =>
      if Ingest.empty df then Ok None
      else
        language_data <- Extract.extract_language_metrics df ;;
        chat_data <- Extract.extract_chat_metrics df ;;
        let t := mkTables df (pd_DataFrame language_data)
                   (pd_DataFrame chat_data) in
        dates <- date_column df ;;
        date_range <- date_input (column_min dates) (column_max dates) ;;
        t1 <- filter_date_range date_range t ;;
        t2 <- filter_organization selectbox t1 ;;
        Ok (Some t2)
  end.

End Dashboard.

(** ** Loops whose body runs under [try] *)

Module Attempt.

(** A block that appends to a list and may raise: what it has appended
    when it ends, and how it ends. *)
Definition appending (B A : Type) : Type := (list B * result A)%type.

Definition done {B} : appending B unit := ([], Ok tt).

Definition lift {B A} (m : result A) : appending B A := ([], m).

Definition append {B} (b : B) : appending B unit := ([b], Ok tt).

Definition and_then {B A C} (m : appending B A) (k : A -> appending B C)
  : appending B C :=
  match m with
  | (out, Ok a) => let (more, r) := k a in (out ++ more, r)
  | (out, Raise e) => (out, Raise e)
  end.

(** [for x in xs: body] inside the block: an exception ends the loop. *)
Fixpoint for_in {B A} (body : A -> appending B unit) (xs : list A)
  : appending B unit :=
  match xs with
  | [] => done
  | x :: rest => and_then (body x) (fun _ => for_in body rest)
  end.

(** [for x in xs: try: body  except Exception: continue]: what a pass
    appended before it raised stays in the list. *)
Definition for_in_try {B A} (body : A -> appending B unit) (xs : list A)
  : list B :=
  List.concat (map (fun x => fst (body x)) xs).

End Attempt.

Notation "x <~ m ;; k" := (Attempt.and_then m (fun x => k))
  (at level 61, m at next level, right associativity) : py_scope.

(** ** Chat events and GitHub.com entries ([render_chat_interactions],
    [render_github_dotcom_usage]) *)

Module Interactions.

Import Attempt Shape.

(** One dict appended to [chat_events]. *)
Record ChatEvent : Type := mkChatEvent {
  ce_date : pyval;
  ce_organization : pyval;
  ce_editor : pyval;
  ce_model : pyval;
  ce_copy_events : pyval;
  ce_insertion_events : pyval;
  ce_total_chats : pyval;
  ce_engaged_users : pyval
}.

(** The dict built for one model, its values evaluated in order. *)
Definition chat_event (row : Series) (editor model : pyval)
  : result ChatEvent :=
  date <- row_get row "date" ;;
  org <- row_get row "organization" ;;
  editor_name <- getitem editor "name" ;;
  model_name <- getitem model "name" ;;
  copy_events <- get model "total_chat_copy_events" (PInt 0) ;;
  insertion_events <- get model "total_chat_insertion_events" (PInt 0) ;;
  total_chats <- get model "total_chats" (PInt 0) ;;
  engaged_users <- get model "total_engaged_users" (PInt 0) ;;
  Ok (mkChatEvent date org editor_name model_name copy_events
        insertion_events total_chats engaged_users).

(** ['models' in editor and len(editor['models']) > 0] *)
Definition has_some_models (editor : pyval) : result bool :=
  has_models <- contains "models" editor ;;
  if (has_models : bool) then
    models <- getitem editor "models" ;;
    n <- len models ;;
    Ok (0 <? n)
  else Ok false.

(** Body of [for editor in ide_chat['editors']]. *)
Definition editor_events (row : Series) (editor : pyval)
  : appending ChatEvent unit :=
  some_models <~ lift (has_some_models editor) ;;
  if (some_models : bool) then
    models <~ lift (getitem editor "models") ;;
    ms <~ lift (iter models) ;;
    for_in (fun model =>
              event <~ lift (chat_event row editor model) ;;
              append event) ms
  else done.

(** The [try] block of one record. *)
Definition row_events (row : Series) : appending ChatEvent unit :=
  ide_chat <~ lift (row_get row "copilot_ide_chat") ;;
  if is_dict ide_chat then
    has_editors <~ lift (contains "editors" ide_chat) ;;
    if (has_editors : bool) then
      editors <~ lift (getitem ide_chat "editors") ;;
      es <~ lift (iter editors) ;;
      for_in (editor_events row) es
    else done
  else done.

(** [chat_events] after the loop of [render_chat_interactions]. *)
Definition chat_events (df : DataFrame) : list ChatEvent :=
  for_in_try row_events df.

(** The row of [chat_df] that holds the counts of an event. *)
Definition as_chat_row (e : ChatEvent) : ChatMetricRow :=
  mkChatMetricRow (ce_date e) (ce_organization e) (ce_editor e) "ide_chat"
    (ce_engaged_users e) (ce_total_chats e) (ce_copy_events e)
    (ce_insertion_events e).

Definition is_ide_chat (r : ChatMetricRow) : bool :=
  String.eqb (cm_feature_type r) "ide_chat".

(** One dict appended to [dotcom_data]. *)
Record DotcomEntry : Type := mkDotcomEntry {
  de_date : pyval;
  de_organization : pyval;
  de_feature : string;
  de_model : pyval;
  de_is_custom : pyval;
  de_total_chats : pyval;
  de_engaged_users : pyval
}.

Definition web_chat_entry (row : Series) (model : pyval)
  : result DotcomEntry :=
  date <- row_get row "date" ;;
  org <- row_get row "organization" ;;
  model_name <- getitem model "name" ;;
  is_custom <- get model "is_custom_model" (PBool false) ;;
  total_chats <- get model "total_chats" (PInt 0) ;;
  engaged_users <- get model "total_engaged_users" (PInt 0) ;;
  Ok (mkDotcomEntry date org "Web Chat" model_name is_custom total_chats
        engaged_users).

Definition pull_request_entry (row : Series) (dotcom_pr : pyval)
  : result DotcomEntry :=
  date <- row_get row "date" ;;
  org <- row_get row "organization" ;;
  engaged_users <- get dotcom_pr "total_engaged_users" (PInt 0) ;;
  Ok (mkDotcomEntry date org "Pull Requests" (PStr "default") (PBool false)
        (PInt 0) engaged_users).

(** The block under [# Dotcom Chat]. *)
Definition web_chat_entries (row : Series) : appending DotcomEntry unit :=
  dotcom_chat <~ lift (row_get row "copilot_dotcom_chat") ;;
  if is_dict dotcom_chat then
    has_models <~ lift (contains "models" dotcom_chat) ;;
    if (has_models : bool) then
      models <~ lift (getitem dotcom_chat "models") ;;
      ms <~ lift (iter models) ;;
      for_in (fun model =>
                entry <~ lift (web_chat_entry row model) ;;
                append entry) ms
    else done
  else done.

(** The block under [# Dotcom Pull Requests]. *)
Definition pull_request_entries (row : Series)
  : appending DotcomEntry unit :=
  dotcom_pr <~ lift (row_get row "copilot_dotcom_pull_requests") ;;
  if is_dict dotcom_pr then
    entry <~ lift (pull_request_entry row dotcom_pr) ;;
    append entry
  else done.

(** The [try] block of one record. *)
Definition dotcom_row_entries (row : Series) : appending DotcomEntry unit :=
  _ <~ web_chat_entries row ;;
  pull_request_entries row.

(** [dotcom_data] after the loop of [render_github_dotcom_usage]. *)
Definition dotcom_data (df : DataFrame) : list DotcomEntry :=
  for_in_try dotcom_row_entries df.

End Interactions.

(** ** The overview ([render_overview], [render_data_insights]) *)

Module Overview.

Import Frames Dashboard.

(** [latest_data]: [df[df['date'] == latest_date].iloc[0]] with
    [latest_date = df['date'].max()], on a table whose [date] column is
    [datetime64] (otherwise [strftime] raises before anything is
    shown).  [NaT] equals no cell, and [iloc[0]] on no row is an
    [IndexError]. *)
Definition latest_data (df : DataFrame) : result Series :=
  dates <- date_column df ;;
  match rows_where "date" (PDatetime (column_max dates)) df with
  | [] => Raise IndexError
  | first :: _ => Ok first
  end.

(** [(max - min).days + 1] on a date column; [None] is the [nan] that
    [NaT] gives. *)
Definition span_days (dates : list (option Z)) : option Z :=
  match column_max dates, column_min dates with
  | Some latest, Some earliest => Some (latest - earliest + 1)
  | _, _ => None
  end.

(** [date_range] of [render_overview]:
    [(df['date'].max() - df['date'].min()).days + 1 if len(df) > 1
     else 1]. *)
Definition overview_date_range (dates : list (option Z)) : option Z :=
  if 1 <? Z.of_nat (List.length dates) then span_days dates else Some 1.

(** [date_range] of [render_data_insights], without the guard. *)
Definition insights_date_range (dates : list (option Z)) : option Z :=
  span_days dates.

End Overview.

(** ** Rates by language and by editor ([render_language_analysis],
    [render_editor_analysis]) *)

Module Rates.

Import Metrics.

Definition plus2 (a b : Z * Z) : Z * Z :=
  (fst a + fst b, snd a + snd b).

(** The lambda applied to a language group, on the sums of its
    acceptances and suggestions. *)
Definition group_rate (sums : Z * Z) : Q :=
  let (acceptances, suggestions) := sums in
  if 0 <? suggestions
  then (inject_Z acceptances / inject_Z suggestions * 100)%Q
  else 0%Q.

(** [lang_summary.groupby('language').apply(...)]: one rate per
    language, languages ascending. *)
Definition rates_by_language (filtered_lang_df : list LangRow)
  : list (string * Q) :=
  map (fun g => (fst g, group_rate (snd g)))
      (groupby_sum String_as_OT.compare plus2
         (fun s => snd (fst s))
         (fun s => (snd (fst (snd s)), snd (snd s)))
         (lang_summary filtered_lang_df)).

(** [lang_rates]; [sort_values] is pandas'
    [Series.sort_values(ascending=False)]. *)
Definition lang_rates
    (sort_values : list (string * Q) -> list (string * Q))
    (filtered_lang_df : list LangRow) : list (string * Q) :=
  firstn 10 (sort_values (rates_by_language filtered_lang_df)).





(** A sort of the rates that meets what [sort_values] promises:
    descending values. *)
Definition rate_geb (a b : string * Q) : bool := Qle_bool (snd b) (snd a).

Definition sort_rates_descending : list (string * Q) -> list (string * Q) :=
  Pandas.insertion_sort rate_geb.

(** The rows of one language, and of one editor. *)
Definition rows_of_language (lang : string) (lang_df : list LangRow)
  : list LangRow :=
  filter (fun r => String.eqb (language r) lang) lang_df.


End Rates.

(** * Properties *)

(** A sequence of two steps returns only when both do. *)
Lemma bind_ok {A B} (m : result A) (k : A -> result B) b :
  bind m k = Ok b -> exists a, m = Ok a /\ k a = Ok b.
Proof. destruct m as [a|e]; simpl; [now exists a | discriminate]. Qed.

(** ** Extraction: totality and row counts *)

Section ExtractionFacts.

Import Shape Extract.

Lemma list_sum_ones {A} (l : list A) :
  list_sum (map (fun _ => 1%nat) l) = List.length l.
Proof.
  induction l as [|x l IH]; simpl; [reflexivity | now rewrite IH].
Qed.

(** A loop whose body succeeds on every element succeeds, and yields
    as many rows as the bodies together. *)
Lemma for_each_count {A B} (body : A -> result (list B)) (cnt : A -> nat) xs :
  (forall x, In x xs ->
     exists rows, body x = Ok rows /\ List.length rows = cnt x) ->
  exists rows,
    for_each body xs = Ok rows /\ List.length rows = list_sum (map cnt xs).
Proof.
  induction xs as [|x xs IH]; intros Hbody; simpl.
  - exists []. split; reflexivity.
  - destruct (Hbody x (or_introl eq_refl)) as (r1 & E1 & L1).
    destruct IH as (r2 & E2 & L2).
    { intros y Hy. apply Hbody. now right. }
    exists (r1 ++ r2). rewrite E1, E2. simpl. split; [reflexivity|].
    rewrite length_app. congruence.
Qed.

Lemma forallb_In {A} (f : A -> bool) l x :
  forallb f l = true -> In x l -> f x = true.
Proof. intros H Hin. rewrite forallb_forall in H. now apply H. Qed.

Lemma language_row_ok date org editor_name lang :
  is_dict lang = true ->
  exists rows,
    language_row date org editor_name lang = Ok rows
    /\ List.length rows = 1%nat.
Proof.
  destruct lang; try discriminate. intros _.
  unfold language_row, get.
  repeat match goal with
         | |- context [lookup ?k d] => destruct (lookup k d)
         end; simpl; eexists; split; reflexivity.
Qed.

Lemma ide_chat_row_ok date org editor_name model :
  is_dict model = true ->
  exists rows,
    ide_chat_row date org editor_name model = Ok rows
    /\ List.length rows = 1%nat.
Proof.
  destruct model; try discriminate. intros _.
  unfold ide_chat_row, get.
  repeat match goal with
         | |- context [lookup ?k d] => destruct (lookup k d)
         end; simpl; eexists; split; reflexivity.
Qed.

(** The shape of a well-formed level: a dict whose key [k] is absent or
    holds a list of well-formed elements. *)
Lemma list_or_absent_inv ok k v :
  list_or_absent ok k v = true ->
  exists d, v = PDict d /\
    (lookup k d = None /\ items k v = []
     \/ exists l, lookup k d = Some (PList l) /\ items k v = l
                  /\ forallb ok l = true).
Proof.
  destruct v; try discriminate. simpl. intros H. exists d. split; [reflexivity|].
  destruct (lookup k d) as [x|]; [|left; split; reflexivity].
  destruct x; try discriminate. right. exists l. repeat split; assumption.
Qed.

Lemma model_language_rows_ok date org editor_name model :
  model_ok model = true ->
  exists rows,
    model_language_rows date org editor_name model = Ok rows
    /\ List.length rows = count_model model.
Proof.
  intros H. unfold count_model.
  destruct (list_or_absent_inv _ _ _ H) as (d & -> & [[E I] | (l & E & I & F)]);
    rewrite I; unfold model_language_rows, contains, has_key, getitem;
    rewrite E; simpl.
  - exists []. split; reflexivity.
  - rewrite <- list_sum_ones. apply for_each_count.
    intros x Hx. apply language_row_ok. exact (forallb_In _ _ _ F Hx).
Qed.

Lemma editor_language_rows_ok date org editor :
  editor_ok editor = true ->
  exists rows,
    editor_language_rows date org editor = Ok rows
    /\ List.length rows = count_editor editor.
Proof.
  intros H. unfold count_editor.
  destruct (list_or_absent_inv _ _ _ H) as (d & -> & [[E I] | (l & E & I & F)]);
    rewrite I; unfold editor_language_rows, get, contains, has_key, getitem;
    rewrite E; destruct (lookup "name" d); simpl;
    try (exists []; split; reflexivity);
    apply for_each_count; intros x Hx; apply model_language_rows_ok;
    exact (forallb_In _ _ _ F Hx).
Qed.

Lemma editor_chat_rows_ok date org editor :
  chat_editor_ok editor = true ->
  exists rows,
    editor_chat_rows date org editor = Ok rows
    /\ List.length rows = count_chat_editor editor.
Proof.
  intros H. unfold count_chat_editor.
  destruct (list_or_absent_inv _ _ _ H) as (d & -> & [[E I] | (l & E & I & F)]);
    rewrite I; unfold editor_chat_rows, get, contains, has_key, getitem;
    rewrite E; destruct (lookup "name" d); simpl;
    try (exists []; split; reflexivity);
    rewrite <- list_sum_ones; apply for_each_count; intros x Hx;
    apply ide_chat_row_ok; exact (forallb_In _ _ _ F Hx).
Qed.

Lemma completions_rows_ok date org completions :
  list_or_absent editor_ok "editors" completions = true ->
  exists rows,
    completions_rows date org completions = Ok rows
    /\ List.length rows = count_completions completions.
Proof.
  intros H. unfold count_completions.
  destruct (list_or_absent_inv _ _ _ H) as (d & -> & [[E I] | (l & E & I & F)]);
    rewrite I; unfold completions_rows, contains, has_key, getitem;
    rewrite E; simpl.
  - exists []. split; reflexivity.
  - apply for_each_count. intros x Hx. apply editor_language_rows_ok.
    exact (forallb_In _ _ _ F Hx).
Qed.

Lemma ide_chat_rows_ok date org chat :
  list_or_absent chat_editor_ok "editors" chat = true ->
  exists rows,
    ide_chat_rows date org chat = Ok rows
    /\ List.length rows = count_ide_chat chat.
Proof.
  intros H. unfold count_ide_chat.
  destruct (list_or_absent_inv _ _ _ H) as (d & -> & [[E I] | (l & E & I & F)]);
    rewrite I; unfold ide_chat_rows, contains, has_key, getitem;
    rewrite E; simpl.
  - exists []. split; reflexivity.
  - apply for_each_count. intros x Hx. apply editor_chat_rows_ok.
    exact (forallb_In _ _ _ F Hx).
Qed.

End ExtractionFacts.

Section ExtractionClaims.

Import Pandas Shape Extract Samples.

(** On a cell that is null or a dict, the truth value is Python's. *)
Lemma truth_cell c :
  match c with PNone | PDict _ => True | _ => False end ->
  truth c = Ok (truthy c).
Proof. now destruct c. Qed.

Lemma language_rows_of_record_ok row :
  language_record_ok row = true ->
  exists rows,
    language_rows_of_record row = Ok rows
    /\ List.length rows = count_language_record row.
Proof.
  unfold language_record_ok, language_rows_of_record, count_language_record,
    count_cell, cell_ok, row_get, has_key.
  intros H. apply andb_true_iff in H as [H Hc]. apply andb_true_iff in H as [Hd Ho].
  destruct (lookup "date" row) as [date|]; [|discriminate].
  destruct (lookup "organization" row) as [org|]; [|discriminate].
  simpl. destruct (lookup "copilot_ide_code_completions" row) as [c|]; simpl.
  - rewrite (truth_cell c) by (now destruct c). simpl.
    destruct (truthy c) eqn:T.
    + apply completions_rows_ok. destruct c; try discriminate; exact Hc.
    + exists []. split; reflexivity.
  - exists []. split; reflexivity.
Qed.

Lemma dotcom_chat_rows_no_models date org d :
  no_models d = true ->
  dotcom_chat_rows date org (PDict d) =
  Ok [mkChatMetricRow date org (PStr "github.com") "dotcom_chat"
        (match lookup "total_engaged_users" d with
         | Some v => v | None => PInt 0 end)
        (PInt 0) (PInt 0) (PInt 0)].
Proof.
  unfold no_models, dotcom_chat_rows, dotcom_total_chats, contains, has_key,
    getitem, get.
  destruct (lookup "models" d) as [m|]; simpl.
  - destruct m; try discriminate; simpl.
    intros _. now destruct (lookup "total_engaged_users" d).
  - intros _. now destruct (lookup "total_engaged_users" d).
Qed.

Lemma dotcom_chat_rows_ok date org v :
  dotcom_ok v = true -> truthy v = true ->
  exists rows,
    dotcom_chat_rows date org v = Ok rows /\ List.length rows = 1%nat.
Proof.
  destruct v; try discriminate. simpl. intros H _.
  destruct (no_models d) eqn:N.
  - rewrite (dotcom_chat_rows_no_models _ _ _ N). eexists. split; reflexivity.
  - unfold no_models in N.
    unfold dotcom_chat_rows, dotcom_total_chats, contains, has_key, getitem.
    destruct (lookup "models" d) as [m|]; [|discriminate].
    destruct m; try discriminate. destruct l as [|m [|m' l]]; try discriminate.
    destruct m as [| | | | | | |d0]; try discriminate.
    cbn [bind truth len getitem0 List.length].
    destruct (truthy (PDict d0)); cbn [bind Z.ltb Z.of_nat Z.compare
      Pos.of_succ_nat]; unfold get;
      try destruct (lookup "total_chats" d0);
      destruct (lookup "total_engaged_users" d);
      cbn [bind]; eexists; split; reflexivity.
Qed.

Lemma chat_rows_of_record_ok row :
  chat_record_ok row = true ->
  exists rows,
    chat_rows_of_record row = Ok rows
    /\ List.length rows = count_chat_record row.
Proof.
  unfold chat_record_ok, chat_rows_of_record, count_chat_record,
    count_cell, cell_ok, row_get, has_key.
  intros H. apply andb_true_iff in H as [H Hdot].
  apply andb_true_iff in H as [H Hide].
  apply andb_true_iff in H as [Hd Ho].
  destruct (lookup "date" row) as [date|]; [|discriminate].
  destruct (lookup "organization" row) as [org|]; [|discriminate].
  simpl.
  assert (Iide : exists rows,
    (if match lookup "copilot_ide_chat" row with
        | Some _ => true | None => false end
     then chat <- match lookup "copilot_ide_chat" row with
                  | Some x => Ok x | None => Raise KeyError end ;;
          used <- truth chat ;;
          if (used : bool) then ide_chat_rows date org chat else Ok []
     else Ok []) = Ok rows
    /\ List.length rows =
       match lookup "copilot_ide_chat" row with
       | Some v => if truthy v then count_ide_chat v else O
       | None => O end).
  { destruct (lookup "copilot_ide_chat" row) as [c|]; simpl.
    - rewrite (truth_cell c) by (now destruct c). simpl.
      destruct (truthy c) eqn:T.
      + apply ide_chat_rows_ok. destruct c; try discriminate; exact Hide.
      + exists []. split; reflexivity.
    - exists []. split; reflexivity. }
  assert (Idot : exists rows,
    (if match lookup "copilot_dotcom_chat" row with
        | Some _ => true | None => false end
     then dotcom_chat <- match lookup "copilot_dotcom_chat" row with
                         | Some x => Ok x | None => Raise KeyError end ;;
          used <- truth dotcom_chat ;;
          if (used : bool) then dotcom_chat_rows date org dotcom_chat
          else Ok []
     else Ok []) = Ok rows
    /\ List.length rows =
       match lookup "copilot_dotcom_chat" row with
       | Some v => if truthy v then 1%nat else O
       | None => O end).
  { destruct (lookup "copilot_dotcom_chat" row) as [c|]; simpl.
    - rewrite (truth_cell c) by (now destruct c). simpl.
      destruct (truthy c) eqn:T.
      + now apply dotcom_chat_rows_ok.
      + exists []. split; reflexivity.
    - exists []. split; reflexivity. }
  destruct Iide as (r1 & E1 & L1). destruct Idot as (r2 & E2 & L2).
  rewrite E1. simpl. rewrite E2. simpl.
  exists (r1 ++ r2). split; [reflexivity|]. rewrite length_app. congruence.
Qed.

(** C1 (the code departs from the claim): a nested key that is present
    and null makes both extraction functions raise.  [editors: null],
    [models: null] and [languages: null] each end the loop over them
    with a [TypeError], although the top-level structure and the dotcom
    [models] list are guarded against null. *)
Theorem extraction_raises_on_null_nested_key :
  extract_language_metrics [null_editors_row] = Raise TypeError
  /\ extract_chat_metrics [null_editors_row] = Raise TypeError
  /\ extract_language_metrics [null_models_row] = Raise TypeError
  /\ extract_chat_metrics [null_models_row] = Raise TypeError
  /\ extract_language_metrics [null_languages_row] = Raise TypeError.
Proof. repeat split; reflexivity. Qed.




End ExtractionClaims.

(** ** Period windows *)

Section Windows.

Import Metrics.

Lemma max_date_fold rest : forall m,
  m <= fold_left Z.max (map date rest) m
  /\ (forall r, In r rest -> date r <= fold_left Z.max (map date rest) m)
  /\ (fold_left Z.max (map date rest) m = m
      \/ In (fold_left Z.max (map date rest) m) (map date rest)).
Proof.
  induction rest as [|x rest IH]; intros m; simpl.
  - split; [lia|]. split; [intros r []|now left].
  - destruct (IH (Z.max m (date x))) as (H1 & H2 & H3).
    split; [|split].
    + lia.
    + intros r [<- | Hr]; [lia | now apply H2].
    + destruct H3 as [H3 | H3]; [|now right; right].
      destruct (Z.max_spec m (date x)) as [[_ E] | [_ E]].
      * right; left. rewrite H3. now rewrite E.
      * left. rewrite H3. exact E.
Qed.

(** [max_date] is the greatest date of the table itself. *)
Lemma max_date_spec r rest :
  In (max_date r rest) (map date (r :: rest))
  /\ forall x, In x (r :: rest) -> date x <= max_date r rest.
Proof.
  unfold max_date. destruct (max_date_fold rest (date r)) as (H1 & H2 & H3).
  split.
  - destruct H3 as [-> | H3]; [now left | now right].
  - intros x [<- | Hx]; [exact H1 | now apply H2].
Qed.

(** C3: on a non-empty table the selector "Last 7 days" has [N = 7],
    "Last 14 days" [N = 14] and "Last 30 days" [N = 30]; the current
    window is the rows dated from [max_date - (N-1)] on, where
    [max_date] is the greatest date of the table itself; with the
    comparison enabled the previous window is the rows dated in
    [[max_date - (2N-1), max_date - N]], an interval of N days, every
    row of which is strictly earlier than every row of the current
    window, so that no row is in both; without it the previous window
    is empty.  The all-time selector keeps the whole table and has no
    previous window. *)
Theorem period_windows (period : period_option) (N : Z)
    (compare_previous : bool) (lang_df : list LangRow) :
  lang_df <> [] ->
  (period = Last_7_days /\ N = 7) \/ (period = Last_14_days /\ N = 14)
  \/ (period = Last_30_days /\ N = 30) ->
  period_filter All_time compare_previous lang_df = Some (lang_df, [])
  /\ exists max_d,
       In max_d (map date lang_df)
       /\ (forall x, In x lang_df -> date x <= max_d)
       /\ exists current previous,
            period_filter period compare_previous lang_df
            = Some (current, previous)
            /\ current = filter (fun x => max_d - (N - 1) <=? date x) lang_df
            /\ previous =
               (if compare_previous then
                  filter (fun x => (max_d - (2 * N - 1) <=? date x)
                                   && (date x <=? max_d - N)) lang_df
                else [])
            /\ (max_d - N) - (max_d - (2 * N - 1)) + 1 = N
            /\ (forall p c, In p previous -> In c current ->
                  date p < date c)
            /\ (forall x, In x previous -> ~ In x current).
Proof.
  intros Hne HN. destruct lang_df as [|r rest]; [contradiction|].
  split; [reflexivity|].
  destruct (max_date_spec r rest) as (Hin & Hmax).
  exists (max_date r rest). split; [exact Hin|]. split; [exact Hmax|].
  set (df := r :: rest) in *. set (M := max_date r rest) in *.
  exists (filter (fun x => M - (N - 1) <=? date x) df).
  exists (if compare_previous then
            filter (fun x => (M - (2 * N - 1) <=? date x)
                             && (date x <=? M - N)) df
          else []).
  assert (Hprev : forall p,
    In p (if compare_previous then
            filter (fun x => (M - (2 * N - 1) <=? date x)
                             && (date x <=? M - N)) df
          else []) -> date p <= M - N).
  { destruct compare_previous; [|intros p []].
    intros p Hp. apply filter_In in Hp as [_ Hp].
    apply andb_true_iff in Hp as [_ Hp]. lia. }
  assert (Hcur : forall c,
    In c (filter (fun x => M - (N - 1) <=? date x) df) ->
    M - (N - 1) <= date c).
  { intros c Hc. apply filter_In in Hc as [_ Hc]. lia. }
  split; [|split; [reflexivity|split; [reflexivity|split; [lia|split]]]].
  - assert (Hfilter :
      filter (fun x => (M - (N - 1) - N <=? date x)
                       && (date x <=? M - (N - 1) - 1)) df
      = filter (fun x => (M - (2 * N - 1) <=? date x)
                         && (date x <=? M - N)) df).
    { apply filter_ext. intros x.
      replace (M - (N - 1) - N) with (M - (2 * N - 1)) by lia.
      replace (M - (N - 1) - 1) with (M - N) by lia. reflexivity. }
    unfold period_filter. subst df. fold M.
    destruct HN as [[-> ->] | [[-> ->] | [-> ->]]]; cbv zeta;
      cbn [days_of]; fold M; rewrite <- Hfilter; reflexivity.
  - intros p c Hp Hc. specialize (Hprev p Hp). specialize (Hcur c Hc). lia.
  - intros x Hp Hc. specialize (Hprev x Hp). specialize (Hcur x Hc). lia.
Qed.

End Windows.

Section WindowsWitness.

Import Metrics Samples.

Lemma period_windows_witness :
  sample_lang_df <> []
  /\ period_filter Last_7_days true sample_lang_df
     = Some ([lang_row 20236 "go" 2 1 5; lang_row 20237 "python" 5 6 10;
              lang_row 20240 "rust" 1 0 0],
             [lang_row 20230 "python" 3 4 9]).
Proof.
  split; [discriminate|].
  destruct (period_windows Last_7_days 7 true sample_lang_df)
    as (_ & M & HM & Hmax & cur & prev & E & -> & -> & _);
    [discriminate | now left |].
  rewrite E.
  assert (HM' : M = 20240).
  { assert (Hle : 20240 <= M).
    { apply (Hmax (lang_row 20240 "rust" 1 0 0)). simpl. tauto. }
    simpl in HM. destruct HM as [<- | [<- | [<- | [<- | []]]]];
      try lia; reflexivity. }
  subst M. reflexivity.
Defined.

End WindowsWitness.

(** ** Rates *)

Section Rates.

Import Metrics Samples.

Local Open Scope Q_scope.












(** C5 (the code departs from the claim): the default [1] only stands
    in for a missing [total_active_users] column.  A record whose
    [total_active_users] is [0] divides by zero and the rate is not a
    finite number. *)
Theorem engagement_rate_not_finite_on_zero_active (row : Series) (e : Z) :
  lookup "total_engaged_users" row = Some (PInt e) ->
  lookup "total_active_users" row = Some (PInt 0) ->
  engagement_rate row = Ok NotFinite.
Proof.
  intros He Ha. unfold engagement_rate, series_get. rewrite He, Ha.
  reflexivity.
Qed.

Lemma engagement_rate_not_finite_on_zero_active_witness :
  lookup "total_engaged_users" no_active_users_row = Some (PInt 5)
  /\ lookup "total_active_users" no_active_users_row = Some (PInt 0)
  /\ engagement_rate no_active_users_row = Ok NotFinite.
Proof.
  split; [reflexivity|]. split; [reflexivity|].
  apply (engagement_rate_not_finite_on_zero_active no_active_users_row 5);
    reflexivity.
Defined.

(** The guard that is there: without the column the divisor is [1]. *)
Lemma engagement_rate_default_divisor :
  engagement_rate no_active_column_row
  = Ok (Finite (inject_Z 5 / inject_Z 1 * 100)).
Proof. reflexivity. Qed.

End Rates.

(** ** Ingestion: organization from the file name, skipped files *)

Section Ingestion.

Import Ingest.

Lemma has_dash_app pre post :
  has_dash (pre ++ String "-" post)%string = true.
Proof.
  induction pre as [|c pre IH]; simpl; [reflexivity|].
  now destruct (Ascii.eqb c "-").
Qed.

(** [split('-', 1)] cuts at the first dash. *)
Lemma split_dash_once_app pre post :
  has_dash pre = false ->
  split_dash_once (pre ++ String "-" post)%string = [pre; post].
Proof.
  induction pre as [|c pre IH]; simpl; [reflexivity|].
  destruct (Ascii.eqb c "-"); [discriminate|].
  intros H. now rewrite (IH H).
Qed.

(** A name with a dash has a first dash. *)
Lemma has_dash_split s :
  has_dash s = true ->
  exists pre post,
    s = (pre ++ String "-" post)%string /\ has_dash pre = false.
Proof.
  induction s as [|c s IH]; simpl; [discriminate|].
  destruct (Ascii.eqb c "-") eqn:E.
  - intros _. apply Ascii.eqb_eq in E. subst c.
    exists EmptyString, s. split; reflexivity.
  - intros H. destruct (IH H) as (pre & post & -> & Hpre).
    exists (String c pre), post. split; [reflexivity|].
    simpl. now rewrite E.
Qed.

Lemma set_key_fresh k v d :
  has_key k d = false -> set_key k v d = d ++ [(k, v)].
Proof.
  unfold has_key. induction d as [|[k' v'] d IH]; simpl; [reflexivity|].
  destruct (String.eqb k k'); [discriminate|].
  intros H. now rewrite (IH H).
Qed.

(** A file holding a JSON object is always loaded. *)
Lemma load_one_object f d :
  content f = Some (PDict d) ->
  exists d', load_one f = Ok (PDict d').
Proof.
  intros E. unfold load_one. rewrite E. simpl.
  destruct (has_key "organization" d); simpl; [now exists d|].
  destruct (has_dash (stem (file_name f))) eqn:H; [|now exists d].
  destruct (has_dash_split _ H) as (pre & post & -> & Hpre).
  rewrite (split_dash_once_app _ _ Hpre). simpl. eauto.
Qed.

(** C6: a record without an [organization] key gets what follows the
    first dash of the file stem; without a dash in the stem it is
    loaded as it is, without an organization; a record that has the key
    is loaded unchanged. *)
Theorem organization_from_filename (f : json_file)
    (d : list (string * pyval)) :
  content f = Some (PDict d) ->
  (has_key "organization" d = true -> load_one f = Ok (PDict d))
  /\ (has_key "organization" d = false ->
      (forall pre post,
         stem (file_name f) = (pre ++ String "-" post)%string ->
         has_dash pre = false ->
         load_one f = Ok (PDict (d ++ [("organization", PStr post)])))
      /\ (has_dash (stem (file_name f)) = false ->
          load_one f = Ok (PDict d)
          /\ lookup "organization" d = None)).
Proof.
  intros E. unfold load_one. rewrite E. simpl. split.
  - intros ->. reflexivity.
  - intros H. rewrite H. simpl. split.
    + intros pre post Hs Hpre. rewrite Hs, has_dash_app.
      rewrite (split_dash_once_app _ _ Hpre). simpl.
      now rewrite (set_key_fresh _ _ _ H).
    + intros ->. split; [reflexivity|].
      unfold has_key in H. now destruct (lookup "organization" d).
Qed.

End Ingestion.

Section IngestionBatch.

Import Ingest Pandas Samples.

Lemma labels_eqb_refl a : labels_eqb a a = true.
Proof.
  induction a as [|x a IH]; simpl; [reflexivity|].
  now rewrite String.eqb_refl, IH.
Qed.

Lemma organization_from_filename_witness :
  content acme_file = Some (PDict acme_body)
  /\ has_key "organization" acme_body = false
  /\ stem (file_name acme_file) = "15-acme"
  /\ load_one acme_file
     = Ok (PDict (acme_body ++ [("organization", PStr "acme")])).
Proof.
  split; [reflexivity|]. split; [reflexivity|]. split; [reflexivity|].
  destruct (organization_from_filename acme_file acme_body eq_refl) as (_ & H).
  destruct (H eq_refl) as (H1 & _).
  apply (H1 "15" "acme"); reflexivity.
Defined.

Lemma load_step_fold fs : forall acc,
  fold_left load_step fs acc = acc ++ flat_map loaded fs.
Proof.
  induction fs as [|f fs IH]; intros acc; simpl.
  - now rewrite app_nil_r.
  - rewrite IH. unfold load_step, loaded.
    destruct (load_one f); simpl; [now rewrite <- app_assoc | reflexivity].
Qed.

Lemma month_fold months : forall acc,
  fold_left (fun acc month_dir => fold_left load_step month_dir acc) months acc
  = acc ++ flat_map loaded (List.concat months).
Proof.
  induction months as [|m months IH]; intros acc; simpl.
  - now rewrite app_nil_r.
  - rewrite IH, load_step_fold, flat_map_app. now rewrite <- app_assoc.
Qed.

(** The loops collect the records of the files that load, in the
    order the files are visited. *)
Lemma all_data_loaded year_dirs :
  all_data year_dirs = flat_map loaded (files_of year_dirs).
Proof.
  unfold all_data, files_of.
  change (flat_map loaded (List.concat (List.concat year_dirs)))
    with ([] ++ flat_map loaded (List.concat (List.concat year_dirs))).
  generalize (@nil pyval) as acc.
  induction year_dirs as [|y years IH]; intros acc; simpl.
  - now rewrite app_nil_r.
  - rewrite IH, month_fold, concat_app, flat_map_app.
    now rewrite <- app_assoc.
Qed.

(** A file whose loading raises adds nothing to [all_data]. *)
Lemma all_data_without years1 years2 months1 months2 files1 files2 bad e :
  load_one bad = Raise e ->
  all_data
    (years1 ++ (months1 ++ (files1 ++ bad :: files2) :: months2) :: years2)
  = all_data
      (years1 ++ (months1 ++ (files1 ++ files2) :: months2) :: years2).
Proof.
  intros Hbad. rewrite !all_data_loaded. unfold files_of.
  repeat (rewrite ?concat_app, ?flat_map_app; simpl).
  assert (Hskip : loaded bad = []) by (unfold loaded; now rewrite Hbad).
  rewrite Hskip. reflexivity.
Qed.

Lemma all_data_none dirs :
  (forall f, In f (files_of dirs) -> is_ok (load_one f) = false) ->
  all_data dirs = [].
Proof.
  intros Hall. rewrite all_data_loaded.
  induction (files_of dirs) as [|f fs IH]; simpl; [reflexivity|].
  rewrite IH by (intros g Hg; apply Hall; now right).
  specialize (Hall f (or_introl eq_refl)). unfold loaded.
  now destruct (load_one f).
Qed.

(** The table of the records collected, under the contract of the
    constructor. *)
Lemma load_json_files_frame pd_DataFrame dirs :
  builds_frame pd_DataFrame ->
  forallb is_dict (all_data dirs) = true ->
  exists df,
    load_json_files pd_DataFrame (Some dirs) = Ok df
    /\ same_columns df = true
    /\ Forall2 holds_record (all_data dirs) df.
Proof.
  intros Hpd Hall. unfold load_json_files.
  destruct (all_data dirs) as [|first rest] eqn:E.
  - exists []. repeat split. constructor.
  - apply Hpd; [discriminate | exact Hall].
Qed.

(** *** A constructor that meets the contract *)

Lemma add_labels_keeps keys : forall labels k,
  In k labels -> In k (add_labels labels keys).
Proof.
  induction keys as [|x keys IH]; simpl; intros labels k H; [exact H|].
  apply IH. destruct (existsb (String.eqb x) labels); [exact H|].
  apply in_or_app. now left.
Qed.

Lemma add_labels_adds keys : forall labels k,
  In k keys -> In k (add_labels labels keys).
Proof.
  induction keys as [|x keys IH]; simpl; intros labels k Hin;
    [contradiction|].
  destruct Hin as [->|H].
  - apply add_labels_keeps.
    destruct (existsb (String.eqb k) labels) eqn:E.
    + apply existsb_exists in E as (y & Hy & Heq).
      apply String.eqb_eq in Heq. now subst y.
    + apply in_or_app. right. now left.
  - now apply IH.
Qed.

Lemma columns_fold_keeps records : forall labels k,
  In k labels ->
  In k (fold_left (fun labels record =>
                     add_labels labels (record_keys record)) records labels).
Proof.
  induction records as [|r records IH]; simpl; intros labels k H; [exact H|].
  apply IH. now apply add_labels_keeps.
Qed.

Lemma columns_of_keys records record k :
  In record records -> In k (record_keys record) ->
  In k (columns_of records).
Proof.
  unfold columns_of. generalize (@nil string) as labels.
  induction records as [|r records IH]; simpl; intros labels Hin Hk;
    [contradiction|].
  destruct Hin as [->|H].
  - apply columns_fold_keeps. now apply add_labels_adds.
  - now apply IH.
Qed.

Lemma lookup_In_keys k d : forall v,
  lookup k d = Some v -> In k (map fst d).
Proof.
  induction d as [|[k' v'] d IH]; simpl; intros v H; [discriminate|].
  destruct (String.eqb k k') eqn:E.
  - apply String.eqb_eq in E. now left.
  - right. now apply (IH v).
Qed.

Lemma lookup_row_of columns record k :
  In k columns ->
  lookup k (row_of columns record)
  = Some (match item k record with Some v => v | None => PNaN end).
Proof.
  induction columns as [|c columns IH]; simpl; intros Hin;
    [contradiction|].
  destruct Hin as [->|H].
  - now rewrite String.eqb_refl.
  - destruct (String.eqb k c) eqn:E; [|now apply IH].
    apply String.eqb_eq in E. now subst c.
Qed.

Lemma row_of_holds columns record :
  (forall k, In k (record_keys record) -> In k columns) ->
  holds_record record (row_of columns record).
Proof.
  intros Hkeys k v Hv _.
  rewrite lookup_row_of.
  - now rewrite Hv.
  - apply Hkeys. destruct record; try discriminate.
    simpl in *. now apply (lookup_In_keys _ _ v).
Qed.

Lemma frame_of_records_builds sequences :
  builds_frame (frame_of_records sequences).
Proof.
  intros records Hne Hall.
  destruct records as [|first rest]; [contradiction|].
  unfold frame_of_records.
  destruct first as [| | | | | | |d]; try discriminate.
  rewrite Hall. eexists. split; [reflexivity|].
  set (records := PDict d :: rest). split.
  - simpl. apply forallb_forall. intros r Hr.
    apply in_map_iff in Hr as (x & <- & _).
    unfold row_of. rewrite !map_map. simpl. apply labels_eqb_refl.
  - assert (H : forall r, In r records ->
                 holds_record r (row_of (columns_of records) r)).
    { intros r Hr. apply row_of_holds. intros k Hk.
      now apply (columns_of_keys records r). }
    revert H. generalize (columns_of records) as columns.
    intros columns. induction records as [|r rs IH]; intros H; simpl.
    + constructor.
    + constructor; [apply H; now left|].
      apply IH. intros x Hx. apply H. now right.
Qed.

(** C9: a file that holds a JSON array (the raw response of the API)
    under a name without a dash loads: the array is appended to
    [all_data] and handed to the constructor along with the records of
    the other files.  With the constructor above the call raises
    [AttributeError], after the loops and outside the [try], so no
    table is returned and the record of the other file is lost.  Under
    a name with a dash the same file raises [TypeError] inside the
    [try] and is skipped. *)
Theorem array_file_aborts_the_batch
    (pd_DataFrame sequences : list pyval -> result DataFrame) :
  load_one array_file = Ok (PList [PDict acme_body])
  /\ load_json_files pd_DataFrame (Some [[[acme_file; array_file]]])
     = pd_DataFrame
         [PDict (acme_body ++ [("organization", PStr "acme")]);
          PList [PDict acme_body]]
  /\ load_json_files (frame_of_records sequences)
       (Some [[[acme_file; array_file]]])
     = Raise AttributeError
  /\ load_one dashed_array_file = Raise TypeError
  /\ load_json_files pd_DataFrame (Some [[[acme_file; dashed_array_file]]])
     = load_json_files pd_DataFrame (Some [[[acme_file]]]).
Proof.
  repeat split.
Qed.

(** X17: when every record collected is a JSON object, a file whose
    loading raises is skipped and changes nothing else: the table is the
    one the other files give, it has one row per file that loads, in
    the order the files are visited, and each row holds the record of
    its file; a missing directory and a directory where no file loads
    give the empty table. *)
Theorem parse_failures_are_skipped
    (pd_DataFrame : list pyval -> result DataFrame)
    (years1 years2 : list (list (list json_file)))
    (months1 months2 : list (list json_file))
    (files1 files2 : list json_file) (bad : json_file) (e : exn) :
  builds_frame pd_DataFrame ->
  load_one bad = Raise e ->
  let year_dirs :=
    years1 ++ (months1 ++ (files1 ++ bad :: files2) :: months2) :: years2 in
  let others :=
    years1 ++ (months1 ++ (files1 ++ files2) :: months2) :: years2 in
  forallb is_dict (all_data year_dirs) = true ->
  load_json_files pd_DataFrame (Some year_dirs)
  = load_json_files pd_DataFrame (Some others)
  /\ (exists df,
        load_json_files pd_DataFrame (Some year_dirs) = Ok df
        /\ same_columns df = true
        /\ Forall2 holds_record (flat_map loaded (files_of others)) df)
  /\ load_json_files pd_DataFrame None = Ok []
  /\ (forall dirs,
        (forall f, In f (files_of dirs) -> is_ok (load_one f) = false) ->
        load_json_files pd_DataFrame (Some dirs) = Ok []).
Proof.
  intros Hpd Hbad year_dirs others Hall.
  assert (E : all_data year_dirs = all_data others)
    by (apply (all_data_without _ _ _ _ _ _ _ _ Hbad)).
  split; [|split; [|split; [reflexivity|]]].
  - unfold load_json_files. now rewrite E.
  - destruct (load_json_files_frame pd_DataFrame year_dirs Hpd Hall)
      as (df & Hdf & Hcols & Hrows).
    exists df. split; [exact Hdf|]. split; [exact Hcols|].
    now rewrite E, all_data_loaded in Hrows.
  - intros dirs Hnone. unfold load_json_files.
    now rewrite (all_data_none dirs Hnone).
Qed.

Lemma parse_failures_are_skipped_witness :
  load_one broken_file = Raise ValueError
  /\ load_json_files (frame_of_records (fun _ => Raise ValueError))
       (Some [[[acme_file; broken_file; named_file]]])
     = load_json_files (frame_of_records (fun _ => Raise ValueError))
         (Some [[[acme_file; named_file]]])
  /\ exists df,
       load_json_files (frame_of_records (fun _ => Raise ValueError))
         (Some [[[acme_file; broken_file; named_file]]]) = Ok df
       /\ List.length df = 2%nat.
Proof.
  split; [reflexivity|].
  destruct (parse_failures_are_skipped
              (frame_of_records (fun _ => Raise ValueError))
              [] [] [] [] [acme_file] [named_file] broken_file ValueError
              (frame_of_records_builds _) eq_refl eq_refl)
    as (H & (df & Hdf & _ & Hrows) & _).
  split; [exact H|]. exists df. split; [exact Hdf|].
  now rewrite <- (Forall2_length Hrows).
Defined.

End IngestionBatch.

(** ** The sorts used as instances meet the contracts *)

Section InsertionSortFacts.

Import Pandas.

Context {A : Type} (leb : A -> A -> bool).
Hypothesis leb_total : forall a b, leb a b = false -> leb b a = true.
Hypothesis leb_trans :
  forall a b c, leb a b = true -> leb b c = true -> leb a c = true.

Lemma insert_perm x l : Permutation (x :: l) (insert leb x l).
Proof.
  induction l as [|y l IH]; simpl; [reflexivity|].
  destruct (leb x y); [reflexivity|].
  rewrite perm_swap. now apply perm_skip.
Qed.

Lemma insertion_sort_perm l : Permutation l (insertion_sort leb l).
Proof.
  induction l as [|x l IH]; simpl; [reflexivity|].
  rewrite <- insert_perm. now apply perm_skip.
Qed.

Lemma insert_sorted x l :
  StronglySorted (fun a b => leb a b = true) l ->
  StronglySorted (fun a b => leb a b = true) (insert leb x l).
Proof.
  induction l as [|y l IH]; intros Hs; simpl.
  - constructor; constructor.
  - inversion Hs as [|? ? Hl Hy]; subst.
    destruct (leb x y) eqn:E.
    + constructor; [exact Hs|]. constructor; [exact E|].
      rewrite Forall_forall in Hy |- *. intros z Hz.
      exact (leb_trans _ _ _ E (Hy z Hz)).
    + constructor; [now apply IH|].
      rewrite Forall_forall in Hy |- *. intros z Hz.
      apply (Permutation_in _ (Permutation_sym (insert_perm x l))) in Hz.
      destruct Hz as [<- | Hz]; [now apply leb_total | now apply Hy].
Qed.

Lemma insertion_sort_sorted l :
  StronglySorted (fun a b => leb a b = true) (insertion_sort leb l).
Proof.
  induction l as [|x l IH]; simpl; [constructor | now apply insert_sorted].
Qed.

End InsertionSortFacts.

Section SortInstances.

Import Ingest Pandas.

Lemma key_leb_total a b : key_leb a b = false -> key_leb b a = true.
Proof.
  destruct a as [x|], b as [y|]; simpl; try discriminate; try reflexivity.
  intros H. apply Z.leb_gt in H. apply Z.leb_le. lia.
Qed.

Lemma key_leb_trans a b c :
  key_leb a b = true -> key_leb b c = true -> key_leb a c = true.
Proof.
  destruct a as [x|], b as [y|], c as [z|]; simpl;
    try discriminate; try reflexivity.
  intros H1 H2. apply Z.leb_le in H1, H2. apply Z.leb_le. lia.
Qed.

Lemma date_leb_total a b : date_leb a b = false -> date_leb b a = true.
Proof. apply key_leb_total. Qed.

Lemma date_leb_trans a b c :
  date_leb a b = true -> date_leb b c = true -> date_leb a c = true.
Proof. apply key_leb_trans. Qed.



Lemma stable_sort_by_date_contract : sorts_by_date stable_sort_by_date.
Proof.
  intros df. split.
  - apply insertion_sort_perm.
  - exact (insertion_sort_sorted date_leb date_leb_total date_leb_trans df).
Qed.




End SortInstances.

(** ** [process_data]: coercion, frame and order *)

Section ProcessData.

Import Ingest Pandas.

Lemma lookup_set_key_same k v d : lookup k (set_key k v d) = Some v.
Proof.
  induction d as [|[k' v'] d IH]; simpl.
  - now rewrite String.eqb_refl.
  - destruct (String.eqb k k') eqn:E; simpl; rewrite E; [reflexivity|exact IH].
Qed.

Lemma lookup_set_key_other k k' v d :
  k' <> k -> lookup k' (set_key k v d) = lookup k' d.
Proof.
  intros Hne. induction d as [|[k0 v0] d IH]; simpl.
  - apply String.eqb_neq in Hne. now rewrite Hne.
  - destruct (String.eqb k k0) eqn:E; simpl.
    + apply String.eqb_eq in E. subst k0.
      apply String.eqb_neq in Hne. now rewrite Hne.
    + destruct (String.eqb k' k0); [reflexivity|exact IH].
Qed.

Lemma labels_set_key k v d :
  has_key k d = true -> map fst (set_key k v d) = map fst d.
Proof.
  unfold has_key. induction d as [|[k0 v0] d IH]; simpl; [discriminate|].
  destruct (String.eqb k k0); simpl; [reflexivity|].
  intros H. now rewrite (IH H).
Qed.

Lemma has_key_existsb k d :
  has_key k d = existsb (String.eqb k) (map fst d).
Proof.
  unfold has_key. induction d as [|[k0 v0] d IH]; simpl; [reflexivity|].
  destruct (String.eqb k k0); [reflexivity|exact IH].
Qed.

Lemma has_key_labels k r r' :
  map fst r' = map fst r -> has_key k r' = has_key k r.
Proof. intros H. now rewrite !has_key_existsb, H. Qed.

Lemma labels_eqb_eq a : forall b, labels_eqb a b = true -> a = b.
Proof.
  induction a as [|x a IH]; intros [|y b]; simpl; try discriminate;
    [reflexivity|].
  intros H. apply andb_true_iff in H as [Hx Hab].
  apply String.eqb_eq in Hx. subst y. now rewrite (IH b Hab).
Qed.

(** In a table with one set of columns every row has the columns of the
    first. *)
Lemma same_columns_has_key k df :
  same_columns df = true -> has_column k df = true ->
  Forall (fun r => has_key k r = true) df.
Proof.
  destruct df as [|row rest]; simpl; [constructor|].
  intros Hs Hk. constructor; [exact Hk|].
  rewrite Forall_forall. intros r Hr.
  rewrite (has_key_labels k row r); [exact Hk|].
  apply labels_eqb_eq. exact (forallb_In _ _ _ Hs Hr).
Qed.

Lemma set_column_datetimes k df : forall stamps,
  List.length stamps = List.length df ->
  Forall (fun r => has_key k r = true) df ->
  exists df',
    set_column k (map PDatetime stamps) df = Ok df'
    /\ Forall2 (coerced k true) df df'.
Proof.
  induction df as [|r df IH]; intros [|t stamps] Hlen Hall; simpl in *;
    try discriminate.
  - exists []. split; [reflexivity|constructor].
  - inversion Hall as [|? ? Hr Hrest]; subst.
    destruct (IH stamps) as (df' & E & F); [congruence | exact Hrest |].
    rewrite E. simpl. eexists. split; [reflexivity|].
    constructor; [|exact F].
    split; [now apply labels_set_key|].
    split; [intros k' Hk'; now apply lookup_set_key_other|].
    split; [|discriminate].
    intros _. exists t. apply lookup_set_key_same.
Qed.

Lemma Forall2_same {X} (R : X -> X -> Prop) l :
  (forall x, R x x) -> Forall2 R l l.
Proof. intros HR. induction l; constructor; auto. Qed.

Lemma coerce_column_spec to_datetime k df :
  same_columns df = true ->
  converts to_datetime k df ->
  exists df',
    coerce_column to_datetime k df = Ok df'
    /\ Forall2 (coerced k (has_column k df)) df df'.
Proof.
  intros Hs Hc. unfold coerce_column.
  destruct (has_column k df) eqn:Hk.
  - destruct (Hc Hk) as (stamps & E & Hlen). rewrite E. simpl.
    apply set_column_datetimes; [exact Hlen|].
    now apply same_columns_has_key.
  - exists df. split; [reflexivity|].
    apply Forall2_same. intros r.
    split; [reflexivity|]. split; [reflexivity|].
    split; [discriminate|reflexivity].
Qed.

Lemma coerced_length k present df df' :
  Forall2 (coerced k present) df df' -> List.length df' = List.length df.
Proof. intros Hco. symmetry. exact (Forall2_length Hco). Qed.

Lemma coerced_has_column k present df df' :
  Forall2 (coerced k present) df df' ->
  forall k', has_column k' df' = has_column k' df.
Proof.
  intros [|r r' ? ? (Hl & _) _] k'; [reflexivity|].
  simpl. now apply has_key_labels.
Qed.

Lemma coerced_column k present df df' :
  Forall2 (coerced k present) df df' ->
  forall k', k' <> k -> column k' df' = column k' df.
Proof.
  intros Hco k' Hne. unfold column.
  induction Hco as [|r r' ? ? (_ & Ho & _) _ IH]; simpl; [reflexivity|].
  now rewrite (Ho k' Hne), IH.
Qed.

Lemma coerced_same_columns k present df df' :
  Forall2 (coerced k present) df df' ->
  same_columns df = true -> same_columns df' = true.
Proof.
  intros [|r r' l l' (Hl & _) Hrest]; [reflexivity|].
  simpl. intros Hs. rewrite Hl.
  induction Hrest as [|x x' ? ? (Hx & _) _ IH]; [reflexivity|].
  simpl in *. apply andb_true_iff in Hs as [H1 H2].
  rewrite Hx, H1. simpl. now apply IH.
Qed.

Lemma coerced_twice df df1 df2 :
  Forall2 (coerced "date" (has_column "date" df)) df df1 ->
  Forall2 (coerced "download_timestamp"
             (has_column "download_timestamp" df)) df1 df2 ->
  Forall2 (coerced_row df) df df2.
Proof.
  unfold coerced_row.
  generalize (has_column "date" df) as b1.
  generalize (has_column "download_timestamp" df) as b2.
  intros b2 b1 H1. revert df2. induction H1 as [|r r1 l l1 Hr _ IH]; intros df2 H2.
  - inversion H2; subst. constructor.
  - inversion H2 as [|? r2 ? l2 Hr2 Hl2]; subst.
    constructor; [|now apply IH].
    destruct Hr as (L1 & O1 & T1 & _). destruct Hr2 as (L2 & O2 & T2 & _).
    split; [split|split].
    + congruence.
    + intros k Hd Ht. rewrite (O2 k Ht). now apply O1.
    + intros Hb. destruct (T1 Hb) as (t & Et). exists t.
      rewrite O2; [exact Et | discriminate].
    + exact T2.
Qed.

(** [process_data] on a table with one set of columns whose date
    columns convert: it returns the coerced table, sorted when there
    is a [date] column. *)
Lemma process_data_coerces to_datetime sort_values df :
  same_columns df = true ->
  converts to_datetime "date" df ->
  converts to_datetime "download_timestamp" df ->
  empty df = false ->
  exists df2,
    process_data to_datetime sort_values df
    = Ok (if has_column "date" df then sort_values df2 else df2)
    /\ Forall2 (coerced_row df) df df2.
Proof.
  intros Hs Hd Ht He. unfold process_data. rewrite He.
  destruct (coerce_column_spec to_datetime "date" df Hs Hd) as (df1 & E1 & F1).
  rewrite E1. simpl.
  assert (Ht1 : converts to_datetime "download_timestamp" df1).
  { unfold converts.
    rewrite (coerced_has_column _ _ _ _ F1), (coerced_length _ _ _ _ F1).
    rewrite (coerced_column _ _ _ _ F1) by discriminate. exact Ht. }
  destruct (coerce_column_spec to_datetime "download_timestamp" df1
              (coerced_same_columns _ _ _ _ F1 Hs) Ht1) as (df2 & E2 & F2).
  rewrite E2. simpl.
  rewrite (coerced_has_column _ _ _ _ F1) in F2.
  rewrite (coerced_has_column _ _ _ _ F2), (coerced_has_column _ _ _ _ F1).
  exists df2. split; [now destruct (has_column "date" df)|].
  exact (coerced_twice _ _ _ F1 F2).
Qed.

End ProcessData.

Section ProcessDataClaims.

Import Ingest Pandas Samples.

Lemma Forall2_right {X Y} (R : X -> Y -> Prop) (P : Y -> Prop) l l' :
  Forall2 R l l' -> (forall x y, R x y -> P y) -> Forall P l'.
Proof.
  intros H HR. induction H; constructor; eauto.
Qed.

Lemma Forall2_weaken {X Y} (R S : X -> Y -> Prop) l l' :
  Forall2 R l l' -> (forall x y, R x y -> S x y) -> Forall2 S l l'.
Proof.
  intros H HR. induction H; constructor; eauto.
Qed.

Lemma unchanged_elsewhere_refl r : unchanged_elsewhere r r.
Proof. split; [reflexivity | intros; reflexivity]. Qed.

Lemma has_date_not_empty df : has_column "date" df = true -> empty df = false.
Proof.
  destruct df as [|[|c r] rest]; simpl; try discriminate; reflexivity.
Qed.

(** What a column holds after [df[k] = values]. *)
Lemma set_column_column k df : forall values df',
  set_column k values df = Ok df' -> column k df' = values.
Proof.
  induction df as [|r df IH]; intros [|v values] df' H; simpl in H;
    try discriminate.
  - now injection H as <-.
  - apply bind_ok in H as (rest & E & H). injection H as <-.
    simpl. now rewrite lookup_set_key_same, (IH values rest E).
Qed.

(** The column a coercion writes is what [to_datetime] gave for it. *)
Lemma coerce_column_cells to_datetime k df df' :
  has_column k df = true ->
  coerce_column to_datetime k df = Ok df' ->
  exists stamps,
    to_datetime (column k df) = Ok stamps
    /\ column k df' = map PDatetime stamps.
Proof.
  intros Hk H. unfold coerce_column in H. rewrite Hk in H.
  apply bind_ok in H as (stamps & E & H).
  exists stamps. split; [exact E|].
  exact (set_column_column _ _ _ _ H).
Qed.

(** X18: on a table with a [date] column whose date columns convert,
    [process_data] writes into [date] and [download_timestamp] the
    [datetime64] values that [pd.to_datetime] gave for those columns,
    each in the row it was computed from, leaves the other cells as
    they were, and returns these rows in ascending order of [date]
    ([NaT] last), whatever order the default sort gives to records of
    the same date. *)
Theorem process_data_sorts_by_date
    (to_datetime : list pyval -> result (list (option Z)))
    (sort_values : DataFrame -> DataFrame) (df : DataFrame) :
  sorts_by_date sort_values ->
  same_columns df = true ->
  has_column "date" df = true ->
  converts to_datetime "date" df ->
  converts to_datetime "download_timestamp" df ->
  exists dates coerced_df df',
    to_datetime (column "date" df) = Ok dates
    /\ process_data to_datetime sort_values df = Ok df'
    /\ Forall2 unchanged_elsewhere df coerced_df
    /\ column "date" coerced_df = map PDatetime dates
    /\ (has_column "download_timestamp" df = true ->
        exists stamps,
          to_datetime (column "download_timestamp" df) = Ok stamps
          /\ column "download_timestamp" coerced_df = map PDatetime stamps)
    /\ Permutation coerced_df df'
    /\ StronglySorted date_le df'.
Proof.
  intros Hsort Hs Hdate Hd Ht.
  destruct (coerce_column_spec to_datetime "date" df Hs Hd)
    as (df1 & E1 & F1).
  destruct (coerce_column_cells _ _ _ _ Hdate E1) as (dates & Ed & Hcells).
  assert (Ht1 : converts to_datetime "download_timestamp" df1).
  { unfold converts.
    rewrite (coerced_has_column _ _ _ _ F1), (coerced_length _ _ _ _ F1).
    rewrite (coerced_column _ _ _ _ F1) by discriminate. exact Ht. }
  destruct (coerce_column_spec to_datetime "download_timestamp" df1
              (coerced_same_columns _ _ _ _ F1 Hs) Ht1) as (df2 & E2 & F2).
  assert (E : process_data to_datetime sort_values df
              = Ok (sort_values df2)).
  { unfold process_data.
    rewrite (has_date_not_empty df Hdate), E1. simpl. rewrite E2. simpl.
    now rewrite (coerced_has_column _ _ _ _ F2),
                (coerced_has_column _ _ _ _ F1), Hdate. }
  destruct (Hsort df2) as (Hperm & Hsorted).
  exists dates, df2, (sort_values df2).
  split; [exact Ed|]. split; [exact E|]. split.
  { rewrite (coerced_has_column _ _ _ _ F1) in F2.
    apply (Forall2_weaken _ _ _ _ (coerced_twice _ _ _ F1 F2)).
    now intros x y (H & _). }
  split.
  { rewrite (coerced_column _ _ _ _ F2) by discriminate. exact Hcells. }
  split; [|split; [exact Hperm | exact Hsorted]].
  intros Hts.
  rewrite <- (coerced_has_column _ _ _ _ F1) in Hts.
  destruct (coerce_column_cells _ _ _ _ Hts E2) as (stamps & Es & Hc).
  exists stamps. split; [|exact Hc].
  now rewrite (coerced_column _ _ _ _ F1) in Es by discriminate.
Qed.

Lemma converts_days k df : converts to_datetime_days k df.
Proof.
  intros _. eexists. split; [reflexivity|].
  unfold column. now rewrite !length_map.
Qed.

Lemma process_data_sorts_by_date_witness :
  sorts_by_date stable_sort_by_date
  /\ same_columns wide_df = true
  /\ has_column "date" wide_df = true
  /\ converts to_datetime_days "date" wide_df
  /\ converts to_datetime_days "download_timestamp" wide_df
  /\ exists df',
       process_data to_datetime_days stable_sort_by_date wide_df = Ok df'
       /\ StronglySorted date_le df'
       /\ column "date" df'
          = [PDatetime (Some 20238); PDatetime (Some 20240);
             PDatetime (Some 20240)]
       /\ column "download_timestamp" df'
          = [PDatetime (Some 20239); PDatetime (Some 20241);
             PDatetime (Some 20241)].
Proof.
  split; [exact stable_sort_by_date_contract|].
  split; [reflexivity|]. split; [reflexivity|].
  split; [apply converts_days|]. split; [apply converts_days|].
  destruct (process_data_sorts_by_date to_datetime_days stable_sort_by_date
              wide_df stable_sort_by_date_contract eq_refl eq_refl
              (converts_days _ _) (converts_days _ _))
    as (dates & c & df' & _ & E & _ & _ & _ & _ & Hsorted).
  exists df'. split; [exact E|]. split; [exact Hsorted|].
  assert (E' : process_data to_datetime_days stable_sort_by_date wide_df
               = Ok [processed_row 20238 "acme" 90;
                     processed_row 20240 "acme" 100;
                     processed_row 20240 "initech" 7]) by reflexivity.
  rewrite E' in E. injection E as <-. split; reflexivity.
Defined.

(** C10: [process_data] returns the rows of its input, each with the
    labels it had and with every cell outside [date] and
    [download_timestamp] as it was, in some order: no row and no column
    is added or dropped. *)
Theorem process_data_frame
    (to_datetime : list pyval -> result (list (option Z)))
    (sort_values : DataFrame -> DataFrame) (df : DataFrame) :
  sorts_by_date sort_values ->
  same_columns df = true ->
  converts to_datetime "date" df ->
  converts to_datetime "download_timestamp" df ->
  exists coerced_df df',
    process_data to_datetime sort_values df = Ok df'
    /\ Forall2 unchanged_elsewhere df coerced_df
    /\ Permutation coerced_df df'
    /\ List.length df' = List.length df.
Proof.
  intros Hsort Hs Hd Ht.
  destruct (empty df) eqn:He.
  - exists df, df. unfold process_data. rewrite He.
    split; [reflexivity|]. split; [|split; reflexivity].
    apply Forall2_same. exact unchanged_elsewhere_refl.
  - destruct (process_data_coerces to_datetime sort_values df Hs Hd Ht He)
      as (df2 & E & F).
    assert (F' : Forall2 unchanged_elsewhere df df2).
    { apply (Forall2_weaken _ _ _ _ F). now intros x y (H & _). }
    exists df2. eexists. split; [exact E|]. split; [exact F'|].
    destruct (has_column "date" df).
    + destruct (Hsort df2) as (Hperm & _). split; [exact Hperm|].
      rewrite <- (Permutation_length Hperm). symmetry.
      exact (Forall2_length F').
    + split; [reflexivity|]. symmetry. exact (Forall2_length F').
Qed.

Lemma process_data_frame_witness :
  sorts_by_date stable_sort_by_date
  /\ same_columns wide_df = true
  /\ converts to_datetime_days "date" wide_df
  /\ converts to_datetime_days "download_timestamp" wide_df
  /\ exists df',
       process_data to_datetime_days stable_sort_by_date wide_df = Ok df'
       /\ List.length df' = 3%nat.
Proof.
  split; [exact stable_sort_by_date_contract|]. split; [reflexivity|].
  split; [apply converts_days|]. split; [apply converts_days|].
  destruct (process_data_frame to_datetime_days stable_sort_by_date wide_df
              stable_sort_by_date_contract eq_refl
              (converts_days _ _) (converts_days _ _))
    as (c & df' & E & _ & _ & Hlen).
  exists df'. split; assumption.
Defined.

End ProcessDataClaims.

(** ** Grouped sums and the top-10 ranking *)

Section GroupBy.

Import Metrics.

Context {K V : Type} (cmp : K -> K -> comparison) (plus : V -> V -> V).
Hypothesis cmp_eq : forall a b, cmp a b = Eq -> a = b.
Hypothesis cmp_opp : forall a b, cmp b a = CompOpp (cmp a b).
Hypothesis cmp_trans :
  forall a b c, cmp a b = Lt -> cmp b c = Lt -> cmp a c = Lt.
Hypothesis plus_comm : forall x y, plus x y = plus y x.
Hypothesis plus_assoc : forall x y z, plus (plus x y) z = plus x (plus y z).


Lemma cmp_gt_lt a b : cmp a b = Gt -> cmp b a = Lt.
Proof. intros H. now rewrite (cmp_opp a b), H. Qed.




Section Totals.

Context (proj : V -> Z).
Hypothesis proj_plus : forall x y, proj (plus x y) = proj x + proj y.

(** Adding a row adds its value to the total of every set of keys that
    holds its key. *)
Lemma group_add_sum_where (p : K -> bool) k v acc :
  sum_where p proj (group_add cmp plus k v acc)
  = sum_where p proj acc + (if p k then proj v else 0).
Proof.
  induction acc as [|[k' v'] acc IH]; simpl.
  - destruct (p k); lia.
  - destruct (cmp k k') eqn:E; simpl.
    + apply cmp_eq in E. subst k'. rewrite proj_plus.
      destruct (p k); lia.
    + destruct (p k), (p k'); lia.
    + rewrite IH. destruct (p k), (p k'); lia.
Qed.

Lemma groupby_fold_sum_where {R} (p : K -> bool) (key : R -> K)
    (val : R -> V) rows : forall acc,
  sum_where p proj
    (fold_left (fun acc r => group_add cmp plus (key r) (val r) acc) rows acc)
  = sum_where p proj acc
    + sum_where p proj (map (fun r => (key r, val r)) rows).
Proof.
  induction rows as [|r rows IH]; intros acc; simpl; [lia|].
  rewrite IH, group_add_sum_where. destruct (p (key r)); lia.
Qed.

(** The groups carry the totals of the rows. *)
Lemma groupby_sum_where {R} (p : K -> bool) (key : R -> K) (val : R -> V)
    rows :
  sum_where p proj (groupby_sum cmp plus key val rows)
  = sum_where p proj (map (fun r => (key r, val r)) rows).
Proof. unfold groupby_sum. now rewrite groupby_fold_sum_where. Qed.

End Totals.

Lemma group_add_keys k v acc x :
  In x (map fst (group_add cmp plus k v acc)) ->
  x = k \/ In x (map fst acc).
Proof.
  induction acc as [|[k' v'] acc IH]; simpl.
  - intros [<- | []]. now left.
  - destruct (cmp k k'); simpl.
    + intros H. now right.
    + intros [<- | H]; [now left | now right].
    + intros [<- | H]; [right; now left|].
      destruct (IH H) as [-> | H']; [now left | right; now right].
Qed.

(** The keys of the groups ascend strictly. *)
Lemma group_add_sorted k v acc :
  StronglySorted (fun a b => cmp a b = Lt) (map fst acc) ->
  StronglySorted (fun a b => cmp a b = Lt)
    (map fst (group_add cmp plus k v acc)).
Proof.
  induction acc as [|[k' v'] acc IH]; simpl; intros Hs.
  - constructor; constructor.
  - inversion Hs as [|? ? Hrest Hk']; subst.
    destruct (cmp k k') eqn:E; simpl.
    + exact Hs.
    + constructor; [exact Hs|]. constructor; [exact E|].
      rewrite Forall_forall in Hk' |- *. intros x Hx.
      exact (cmp_trans _ _ _ E (Hk' x Hx)).
    + constructor; [now apply IH|].
      rewrite Forall_forall in Hk' |- *. intros x Hx.
      destruct (group_add_keys _ _ _ _ Hx) as [-> | Hx'];
        [now apply cmp_gt_lt | now apply Hk'].
Qed.

Lemma groupby_sum_sorted {R} (key : R -> K) (val : R -> V) rows :
  StronglySorted (fun a b => cmp a b = Lt)
    (map fst (groupby_sum cmp plus key val rows)).
Proof.
  unfold groupby_sum.
  assert (H : forall acc,
    StronglySorted (fun a b => cmp a b = Lt) (map fst acc) ->
    StronglySorted (fun a b => cmp a b = Lt)
      (map fst (fold_left
         (fun acc r => group_add cmp plus (key r) (val r) acc) rows acc))).
  { induction rows as [|r rows IH]; intros acc Hs; simpl; [exact Hs|].
    apply IH. now apply group_add_sorted. }
  apply H. constructor.
Qed.

(** With strictly ascending keys, the total over one key is the value
    of its group. *)
Lemma sum_where_sorted (proj : V -> Z) groups k v :
  StronglySorted (fun a b => cmp a b = Lt) (map fst groups) ->
  In (k, v) groups ->
  sum_where (fun k' => is_eq (cmp k k')) proj groups = proj v.
Proof.
  induction groups as [|[k' v'] groups IH]; simpl; intros Hs Hin; [easy|].
  inversion Hs as [|? ? Hrest Hk']; subst.
  assert (Hnone : forall l, Forall (fun x => cmp k x = Lt) (map fst l) ->
            sum_where (fun k' => is_eq (cmp k k')) proj l = 0).
  { induction l as [|[a b] l IHl]; simpl; intros Hf; [reflexivity|].
    inversion Hf as [|? ? Ha Hl]; subst. simpl in Ha. rewrite Ha. simpl.
    now apply IHl. }
  destruct Hin as [Heq | Hin].
  - inversion Heq; subst k' v'.
    assert (Hkk : cmp k k = Eq).
    { pose proof (cmp_opp k k) as O. destruct (cmp k k); try discriminate.
      reflexivity. }
    rewrite Hkk. simpl. rewrite (Hnone groups Hk'). lia.
  - assert (Hlt : cmp k' k = Lt).
    { rewrite Forall_forall in Hk'. apply Hk'.
      apply in_map_iff. now exists (k, v). }
    rewrite (cmp_opp k' k), Hlt. simpl. now apply IH.
Qed.






End GroupBy.

Section Ranking.

Import Metrics Pandas Samples.

Lemma string_compare_eq a b : String_as_OT.compare a b = Eq -> a = b.
Proof.
  intros H. destruct (String_as_OT.compare_spec a b); try discriminate.
  assumption.
Qed.

Lemma string_compare_opp a b :
  String_as_OT.compare b a = CompOpp (String_as_OT.compare a b).
Proof.
  pose proof String_as_OT.lt_strorder as [Hirr Htr].
  destruct (String_as_OT.compare_spec a b) as [E|L|L],
           (String_as_OT.compare_spec b a) as [E'|L'|L'];
    simpl; try reflexivity; exfalso; unfold String_as_OT.eq in *;
    subst; try (eapply Hirr; eassumption);
    eapply Hirr; eapply Htr; eassumption.
Qed.

Lemma string_compare_trans a b c :
  String_as_OT.compare a b = Lt -> String_as_OT.compare b c = Lt ->
  String_as_OT.compare a c = Lt.
Proof.
  pose proof String_as_OT.lt_strorder as [_ Htr].
  intros H1 H2. exact (Htr a b c H1 H2).
Qed.

Lemma date_language_cmp_eq a b : date_language_cmp a b = Eq -> a = b.
Proof.
  destruct a as [d1 l1], b as [d2 l2]. unfold date_language_cmp. simpl.
  destruct (Z.compare d1 d2) eqn:E; try discriminate.
  intros H. apply Z.compare_eq in E. apply string_compare_eq in H.
  now subst.
Qed.






Lemma string_compare_eqb a b :
  is_eq (String_as_OT.compare a b) = String.eqb b a.
Proof.
  destruct (String.eqb b a) eqn:E.
  - apply String.eqb_eq in E. subst b.
    pose proof (string_compare_opp a a) as O.
    now destruct (String_as_OT.compare a a).
  - destruct (String_as_OT.compare a b) eqn:C; try reflexivity.
    apply string_compare_eq in C. subst b.
    now rewrite String.eqb_refl in E.
Qed.




Lemma firstn_In {X} n : forall (l : list X) x,
  In x (firstn n l) -> In x l.
Proof.
  induction n as [|n IH]; intros [|y l] x; simpl; try tauto.
  intros [-> | H]; [now left | right; now apply IH].
Qed.






End Ranking.

(** ** Saving and summarizing: organizations and their counts *)

Section ReportFacts.

Import Ingest Pandas Frames Report.

Lemma count_first_occurrences c names :
  count_occ string_dec (first_occurrences names) c
  = if in_dec string_dec c names then 1%nat else 0%nat.
Proof.
  induction names as [|n names IH]; simpl; [reflexivity|].
  assert (Hfilter : forall l,
    n <> c ->
    count_occ string_dec (filter (fun x => negb (String.eqb n x)) l) c
    = count_occ string_dec l c).
  { intros l Hne. induction l as [|x l IHl]; simpl; [reflexivity|].
    destruct (String.eqb n x) eqn:E; simpl.
    - apply String.eqb_eq in E. subst x.
      destruct (string_dec n c); [contradiction | exact IHl].
    - destruct (string_dec x c); now rewrite IHl. }
  assert (Hgone : forall l,
    count_occ string_dec (filter (fun x => negb (String.eqb n x)) l) n = 0%nat).
  { induction l as [|x l IHl]; simpl; [reflexivity|].
    destruct (String.eqb n x) eqn:E; simpl; [exact IHl|].
    destruct (string_dec x n) as [->|_]; [|exact IHl].
    now rewrite String.eqb_refl in E. }
  destruct (string_dec n c) as [->|Hne].
  - rewrite Hgone. now destruct (in_dec string_dec c names).
  - rewrite (Hfilter _ Hne), IH.
    now destruct (in_dec string_dec c names).
Qed.

(** Summing, over the distinct names, how often each occurs gives the
    length of the list. *)
Lemma first_occurrences_total names :
  list_sum (map (fun n => count_occ string_dec names n)
                (first_occurrences names))
  = List.length names.
Proof.
  induction names as [|c names IH]; [reflexivity|].
  cbn [first_occurrences map list_sum List.length].
  assert (Hsplit : forall (l : list string) (f : string -> nat),
    list_sum (map f l)
    = (count_occ string_dec l c * f c
       + list_sum (map f (filter (fun x => negb (String.eqb c x)) l)))%nat).
  { intros l f. induction l as [|x l IHl]; simpl; [reflexivity|].
    destruct (String.eqb c x) eqn:E; simpl.
    - apply String.eqb_eq in E. subst x.
      destruct (string_dec c c) as [_|Hn]; [|contradiction].
      rewrite IHl. simpl. lia.
    - destruct (string_dec x c) as [->|_].
      + now rewrite String.eqb_refl in E.
      + rewrite IHl. lia. }
  assert (Hsame :
    map (fun n => count_occ string_dec (c :: names) n)
        (filter (fun x => negb (String.eqb c x)) (first_occurrences names))
    = map (fun n => count_occ string_dec names n)
        (filter (fun x => negb (String.eqb c x)) (first_occurrences names))).
  { apply map_ext_in. intros x Hx. apply filter_In in Hx as [_ Hx].
    apply count_occ_cons_neq. intros ->.
    now rewrite String.eqb_refl in Hx. }
  rewrite Hsame, (count_occ_cons_eq string_dec names eq_refl).
  rewrite <- IH.
  rewrite (Hsplit (first_occurrences names)
             (fun n => count_occ string_dec names n)).
  rewrite count_first_occurrences.
  unfold list_sum. cbn [fold_right].
  destruct (in_dec string_dec c names) as [Hin|Hout]; [lia|].
  rewrite (proj1 (count_occ_not_In string_dec names c) Hout). lia.
Qed.

Lemma named_cells df :
  forallb named df = true ->
  column "organization" df = map PStr (org_names df).
Proof.
  unfold column, org_names. induction df as [|row df IH]; simpl;
    [reflexivity|].
  intros H. apply andb_true_iff in H as [Hr Hdf]. rewrite (IH Hdf).
  unfold named in Hr.
  destruct (lookup "organization" row) as [[]|]; try discriminate.
  reflexivity.
Qed.

Lemma unique_strings names :
  unique (map PStr names) = Ok (map PStr (first_occurrences names)).
Proof.
  induction names as [|n names IH]; simpl; [reflexivity|].
  rewrite IH. simpl. do 2 f_equal. clear IH.
  induction (first_occurrences names) as [|x l IHl]; simpl; [reflexivity|].
  destruct (String.eqb n x); simpl; [exact IHl|]. f_equal. exact IHl.
Qed.

Lemma join_strings names : exists s, join (map PStr names) = Ok s.
Proof.
  induction names as [|n names [s IH]]; simpl; [now eexists|].
  rewrite IH. simpl. now eexists.
Qed.

Lemma org_count_named df n :
  forallb named df = true ->
  org_count (PStr n) df = Z.of_nat (count_occ string_dec (org_names df) n).
Proof.
  unfold org_count, rows_where, org_names. intros H. f_equal.
  induction df as [|row df IH]; simpl; [reflexivity|].
  simpl in H. apply andb_true_iff in H as [Hr Hdf].
  unfold named in Hr.
  specialize (IH Hdf).
  destruct (lookup "organization" row) as [[]|]; try discriminate.
  cbn [cell_equals same_cell].
  destruct (string_dec s n) as [->|Hne].
  - rewrite String.eqb_refl. cbn [List.length]. now f_equal.
  - destruct (String.eqb_spec n s) as [->|_]; [contradiction|exact IH].
Qed.

End ReportFacts.

Section ReportClaims.

Import Ingest Pandas Frames Report Samples.

Lemma first_occurrences_NoDup names : NoDup (first_occurrences names).
Proof.
  apply (NoDup_count_occ string_dec). intros x.
  rewrite count_first_occurrences.
  destruct (in_dec string_dec x names); lia.
Qed.

Lemma sum_of_counts (f : string -> nat) l :
  fold_right Z.add 0 (map (fun n => Z.of_nat (f n)) l)
  = Z.of_nat (list_sum (map f l)).
Proof.
  induction l as [|x l IH]; simpl; [reflexivity|]. rewrite IH. lia.
Qed.

(** X1: on a table whose organization cells are all strings,
    [save_reports] writes the table and lists every organization once,
    in order of first appearance, with record counts that add up to
    the number of records. *)
Theorem save_reports_counts (df : DataFrame) :
  empty df = false ->
  has_column "organization" df = true ->
  forallb named df = true ->
  snapshot (save_reports df) = Some df
  /\ exists orgs,
       listed (save_reports df) = Ok orgs
       /\ map fst orgs = map PStr (first_occurrences (org_names df))
       /\ NoDup (map fst orgs)
       /\ fold_right Z.add 0 (map snd orgs) = Z.of_nat (List.length df).
Proof.
  intros He Hc Hn. unfold save_reports. rewrite He, Hc. simpl.
  split; [reflexivity|].
  rewrite (named_cells df Hn), unique_strings. simpl.
  destruct (join_strings (first_occurrences (org_names df))) as (s & Hs).
  rewrite Hs. simpl. eexists. split; [reflexivity|].
  rewrite !map_map. simpl. split; [reflexivity|]. split.
  - apply Finite.Injective_map_NoDup; [|apply first_occurrences_NoDup].
    intros a b H. now inversion H.
  - rewrite (map_ext _ (fun n =>
               Z.of_nat (count_occ string_dec (org_names df) n))).
    + rewrite sum_of_counts, first_occurrences_total.
      unfold org_names. now rewrite length_map.
    + intros n. now apply org_count_named.
Qed.

Lemma save_reports_counts_witness :
  empty processed_df = false
  /\ has_column "organization" processed_df = true
  /\ forallb named processed_df = true
  /\ listed (save_reports processed_df)
     = Ok [(PStr "acme", 2); (PStr "initech", 1)].
Proof.
  split; [reflexivity|]. split; [reflexivity|]. split; [reflexivity|].
  destruct (save_reports_counts processed_df eq_refl eq_refl eq_refl)
    as (_ & orgs & E & _).
  reflexivity.
Defined.

Lemma unique_raises cells e : unique cells = Raise e -> e = TypeError.
Proof.
  induction cells as [|c cells IH]; simpl; [discriminate|].
  destruct (hashable c); [|now intros [=]].
  destruct (unique cells); simpl; [discriminate|].
  intros [= <-]. now apply IH.
Qed.

Lemma unique_keeps_unnamed cells :
  existsb not_a_string cells = true ->
  match unique cells with
  | Ok u => existsb not_a_string u = true
  | Raise e => e = TypeError
  end.
Proof.
  induction cells as [|c cells IH]; simpl; [discriminate|].
  intros H. destruct (hashable c) eqn:Hh; [|reflexivity].
  destruct (not_a_string c) eqn:Hc.
  - destruct (unique cells) eqn:E; simpl; [now rewrite Hc|].
    exact (unique_raises _ _ E).
  - simpl in H. specialize (IH H).
    destruct (unique cells) as [u|e]; simpl; [|exact IH].
    rewrite Hc. simpl.
    destruct c; try discriminate.
    clear -IH. induction u as [|x u IHu]; simpl in *; [discriminate|].
    destruct x; simpl in *; try reflexivity.
    destruct (String.eqb s s0); simpl; now apply IHu.
Qed.

Lemma join_unnamed cells :
  existsb not_a_string cells = true -> join cells = Raise TypeError.
Proof.
  induction cells as [|c cells IH]; simpl; [discriminate|].
  destruct c; simpl; try reflexivity.
  intros H. now rewrite (IH H).
Qed.

Lemma unnamed_cells df :
  forallb named df = false ->
  existsb not_a_string (column "organization" df) = true.
Proof.
  unfold column. induction df as [|row df IH]; simpl; [discriminate|].
  unfold named at 1.
  destruct (lookup "organization" row) as [[]|]; simpl;
    try reflexivity. exact IH.
Qed.

(** X2: a record without an organization name (a missing cell is
    [nan]) makes [save_reports] raise [TypeError] once the file is written:
    the table is saved, the listing is not printed. *)
Theorem save_reports_raises_on_unnamed (df : DataFrame) :
  empty df = false ->
  has_column "organization" df = true ->
  forallb named df = false ->
  snapshot (save_reports df) = Some df
  /\ listed (save_reports df) = Raise TypeError.
Proof.
  intros He Hc Hn. unfold save_reports. rewrite He, Hc. simpl.
  split; [reflexivity|].
  pose proof (unique_keeps_unnamed _ (unnamed_cells df Hn)) as Hu.
  destruct (unique (column "organization" df)) as [u|e]; simpl.
  - now rewrite (join_unnamed u Hu).
  - now subst e.
Qed.

Lemma save_reports_raises_on_unnamed_witness :
  empty unnamed_df = false
  /\ has_column "organization" unnamed_df = true
  /\ forallb named unnamed_df = false
  /\ listed (save_reports unnamed_df) = Raise TypeError.
Proof.
  split; [reflexivity|]. split; [reflexivity|]. split; [reflexivity|].
  exact (proj2 (save_reports_raises_on_unnamed unnamed_df
                  eq_refl eq_refl eq_refl)).
Defined.

End ReportClaims.

Section SummaryClaims.

Import Ingest Pandas Frames Report Samples.

Lemma filter_sorted {X} (R : X -> X -> Prop) (keep : X -> bool) l :
  StronglySorted R l -> StronglySorted R (filter keep l).
Proof.
  induction 1 as [|x l Hs IH Hx]; simpl; [constructor|].
  destruct (keep x); [|exact IH]. constructor; [exact IH|].
  rewrite Forall_forall in Hx |- *. intros y Hy.
  apply Hx. now apply filter_In in Hy as [Hy _].
Qed.

(** The last element of a sorted list is above all of them. *)
Lemma sorted_last {X} (R : X -> X -> Prop) rest : forall first,
  (forall x, R x x) ->
  StronglySorted R (first :: rest) ->
  In (last rest first) (first :: rest)
  /\ forall y, In y (first :: rest) -> R y (last rest first).
Proof.
  induction rest as [|x rest IH]; intros first Hrefl Hs.
  - simpl. split; [now left|]. intros y [<- | []]. apply Hrefl.
  - inversion Hs as [|? ? Hrest Hfirst]; subst.
    destruct (IH x Hrefl Hrest) as (Hin & Hle).
    assert (Hlast : last (x :: rest) first = last rest x).
    { clear. revert x. induction rest as [|z rest IHr]; intros x;
        [reflexivity|]. simpl in *. now destruct rest. }
    rewrite Hlast. split; [now right|].
    intros y [<- | Hy]; [|now apply Hle].
    rewrite Forall_forall in Hfirst. now apply Hfirst.
Qed.

Lemma rows_where_organization org df row :
  In row (rows_where "organization" (PStr org) df)
  <-> In row df /\ lookup "organization" row = Some (PStr org).
Proof.
  unfold rows_where. rewrite filter_In. split; intros [Hin H]; split;
    try exact Hin.
  - destruct (lookup "organization" row) as [c|]; [|discriminate].
    destruct c as [| | | | |[]| |]; simpl in H; try discriminate.
    apply String.eqb_eq in H. now subst.
  - rewrite H. simpl. apply String.eqb_refl.
Qed.

Lemma date_le_refl row : date_le row row.
Proof.
  unfold date_le. destruct (date_key row); simpl; [apply Z.leb_refl|].
  reflexivity.
Qed.

(** X3: on a table sorted by date, as [process_data] returns it, the
    latest active and engaged users that [print_summary] shows for an
    organization are those of a record of that organization that no
    other record of it comes after. *)
Theorem summary_shows_latest_record (df : DataFrame) (org : string) :
  StronglySorted date_le df ->
  (exists row, In row df /\ lookup "organization" row = Some (PStr org)) ->
  exists latest,
    In latest df
    /\ lookup "organization" latest = Some (PStr org)
    /\ (forall other,
          In other df -> lookup "organization" other = Some (PStr org) ->
          date_le other latest)
    /\ latest_active (summarize_org df (PStr org))
       = (if has_column "total_active_users" df
          then Some (cell "total_active_users" latest) else None)
    /\ latest_engaged (summarize_org df (PStr org))
       = (if has_column "total_engaged_users" df
          then Some (cell "total_engaged_users" latest) else None).
Proof.
  intros Hs (row & Hrow & Horg).
  pose proof (filter_sorted date_le
    (fun r => match lookup "organization" r with
              | Some c => cell_equals (PStr org) c
              | None => false
              end) df Hs) as Hsf.
  change (StronglySorted date_le (rows_where "organization" (PStr org) df))
    in Hsf.
  assert (Hin : In row (rows_where "organization" (PStr org) df)).
  { apply rows_where_organization. now split. }
  unfold summarize_org. simpl.
  destruct (rows_where "organization" (PStr org) df) as [|first rest] eqn:E;
    [destruct Hin|].
  destruct (sorted_last date_le rest first date_le_refl Hsf) as (Hl & Hmax).
  rewrite <- E in Hl. apply rows_where_organization in Hl as (Hl1 & Hl2).
  exists (last rest first).
  split; [exact Hl1|]. split; [exact Hl2|]. split.
  - intros other Ho1 Ho2. apply Hmax. rewrite <- E.
    apply rows_where_organization. now split.
  - split; reflexivity.
Qed.

Lemma summary_shows_latest_record_witness :
  StronglySorted date_le processed_df
  /\ (exists row, In row processed_df
                  /\ lookup "organization" row = Some (PStr "acme"))
  /\ latest_active (summarize_org processed_df (PStr "acme"))
     = Some (PInt 100).
Proof.
  assert (Hs : StronglySorted date_le processed_df).
  { repeat constructor. }
  assert (He : exists row, In row processed_df
                 /\ lookup "organization" row = Some (PStr "acme")).
  { eexists. split; [left; reflexivity | reflexivity]. }
  split; [exact Hs|]. split; [exact He|].
  destruct (summary_shows_latest_record processed_df "acme" Hs He)
    as (latest & _ & _ & _ & Ha & _).
  reflexivity.
Defined.

End SummaryClaims.

(** ** The tables of the dashboard *)

Section DashboardFacts.

Import Ingest Frames Dashboard Extract.

Lemma for_each_Forall {A B} (body : A -> result (list B)) (P : B -> Prop) xs :
  (forall x rows, In x xs -> body x = Ok rows -> Forall P rows) ->
  forall out, for_each body xs = Ok out -> Forall P out.
Proof.
  induction xs as [|x xs IH]; simpl; intros Hb out H.
  - injection H as <-. constructor.
  - apply bind_ok in H as (rows & Hx & H).
    apply bind_ok in H as (more & Hxs & H). injection H as <-.
    apply Forall_app. split.
    + apply (Hb x); [now left | exact Hx].
    + apply IH; [|exact Hxs]. intros y r Hy. apply Hb. now right.
Qed.

(** Selecting records before the loop, or the rows each record gave
    after it, comes to the same when a row is selected with its
    record. *)
Lemma for_each_filter {A B} (body : A -> result (list B))
    (p : A -> bool) (q : B -> bool) xs :
  (forall x rows, In x xs -> body x = Ok rows ->
                  Forall (fun r => q r = p x) rows) ->
  forall out,
    for_each body xs = Ok out ->
    for_each body (filter p xs) = Ok (filter q out).
Proof.
  induction xs as [|x xs IH]; simpl; intros Hb out H.
  - injection H as <-. reflexivity.
  - apply bind_ok in H as (rows & Hx & H).
    apply bind_ok in H as (more & Hxs & H). injection H as <-.
    assert (IH' : for_each body (filter p xs) = Ok (filter q more)).
    { apply IH; [|exact Hxs]. intros y r Hy. apply Hb. now right. }
    pose proof (Hb x rows (or_introl eq_refl) Hx) as Hrows.
    rewrite filter_app.
    destruct (p x) eqn:Hp; simpl.
    + rewrite Hx, IH'. simpl.
      replace (filter q rows) with rows; [reflexivity|].
      clear -Hrows. induction Hrows as [|r rows Hr _ IHr]; simpl;
        [reflexivity|]. rewrite Hr. now f_equal.
    + rewrite IH'.
      replace (filter q rows) with (@nil B); [reflexivity|].
      clear -Hrows. induction Hrows as [|r rows Hr _ IHr]; simpl;
        [reflexivity|]. now rewrite Hr.
Qed.

Lemma row_get_ok row k v : row_get row k = Ok v -> lookup k row = Some v.
Proof.
  unfold row_get. destruct (lookup k row); [now intros [= ->] | discriminate].
Qed.

(** Every language row carries the date and the organization of the
    record it was read from. *)
Lemma completions_rows_fields date org completions rows :
  completions_rows date org completions = Ok rows ->
  Forall (fun r => lm_date r = date /\ lm_organization r = org) rows.
Proof.
  unfold completions_rows. intros H.
  apply bind_ok in H as ([] & _ & H); [|injection H as <-; constructor].
  apply bind_ok in H as (editors & _ & H).
  apply bind_ok in H as (es & _ & H).
  revert rows H. apply for_each_Forall. intros editor rows _ H.
  unfold editor_language_rows in H.
  apply bind_ok in H as (editor_name & _ & H).
  apply bind_ok in H as ([] & _ & H); [|injection H as <-; constructor].
  apply bind_ok in H as (models & _ & H).
  apply bind_ok in H as (ms & _ & H).
  revert rows H. apply for_each_Forall. intros model rows _ H.
  unfold model_language_rows in H.
  apply bind_ok in H as ([] & _ & H); [|injection H as <-; constructor].
  apply bind_ok in H as (languages & _ & H).
  apply bind_ok in H as (langs & _ & H).
  revert rows H. apply for_each_Forall. intros lang rows _ H.
  unfold language_row in H.
  repeat (apply bind_ok in H as (? & _ & H)).
  injection H as <-. repeat constructor.
Qed.

Lemma language_rows_of_record_fields row rows :
  language_rows_of_record row = Ok rows ->
  Forall (fun r => lookup "date" row = Some (lm_date r)
                   /\ lookup "organization" row = Some (lm_organization r))
         rows.
Proof.
  unfold language_rows_of_record. intros H.
  apply bind_ok in H as (date & Hd & H).
  apply bind_ok in H as (org & Ho & H).
  apply row_get_ok in Hd, Ho.
  assert (Hfields :
    Forall (fun r => lm_date r = date /\ lm_organization r = org) rows).
  { destruct (has_key "copilot_ide_code_completions" row);
      [|injection H as <-; constructor].
    apply bind_ok in H as (completions & _ & H).
    apply bind_ok in H as ([] & _ & H); [|injection H as <-; constructor].
    now apply completions_rows_fields in H. }
  eapply Forall_impl; [|exact Hfields].
  intros r [-> ->]. now split.
Qed.

Lemma ide_chat_rows_fields date org chat rows :
  ide_chat_rows date org chat = Ok rows ->
  Forall (fun r => cm_date r = date /\ cm_organization r = org) rows.
Proof.
  unfold ide_chat_rows. intros H.
  apply bind_ok in H as ([] & _ & H); [|injection H as <-; constructor].
  apply bind_ok in H as (editors & _ & H).
  apply bind_ok in H as (es & _ & H).
  revert rows H. apply for_each_Forall. intros editor rows _ H.
  unfold editor_chat_rows in H.
  apply bind_ok in H as (editor_name & _ & H).
  apply bind_ok in H as ([] & _ & H); [|injection H as <-; constructor].
  apply bind_ok in H as (models & _ & H).
  apply bind_ok in H as (ms & _ & H).
  revert rows H. apply for_each_Forall. intros model rows _ H.
  unfold ide_chat_row in H.
  repeat (apply bind_ok in H as (? & _ & H)).
  injection H as <-. repeat constructor.
Qed.

Lemma chat_rows_of_record_fields row rows :
  chat_rows_of_record row = Ok rows ->
  Forall (fun r => lookup "date" row = Some (cm_date r)
                   /\ lookup "organization" row = Some (cm_organization r))
         rows.
Proof.
  unfold chat_rows_of_record. intros H.
  apply bind_ok in H as (date & Hd & H).
  apply bind_ok in H as (org & Ho & H).
  apply row_get_ok in Hd, Ho.
  apply bind_ok in H as (ide & Hi & H).
  apply bind_ok in H as (dotcom & Hc & H). injection H as <-.
  assert (Hfields :
    Forall (fun r => cm_date r = date /\ cm_organization r = org)
           (ide ++ dotcom)).
  { apply Forall_app. split.
    - destruct (has_key "copilot_ide_chat" row);
        [|injection Hi as <-; constructor].
      apply bind_ok in Hi as (chat & _ & Hi).
      apply bind_ok in Hi as ([] & _ & Hi); [|injection Hi as <-; constructor].
      now apply ide_chat_rows_fields in Hi.
    - destruct (has_key "copilot_dotcom_chat" row);
        [|injection Hc as <-; constructor].
      apply bind_ok in Hc as (dotcom_chat & _ & Hc).
      apply bind_ok in Hc as ([] & _ & Hc); [|injection Hc as <-; constructor].
      unfold dotcom_chat_rows in Hc.
      repeat (apply bind_ok in Hc as (? & _ & Hc)).
      injection Hc as <-. repeat constructor. }
  eapply Forall_impl; [|exact Hfields].
  intros r [-> ->]. now split.
Qed.

End DashboardFacts.

Section DashboardClaims.

Import Ingest Frames Dashboard Extract Samples.

Lemma cell_lookup k row v : lookup k row = Some v -> cell k row = v.
Proof. unfold cell. now intros ->. Qed.

Lemma language_rows_by_date start_date end_date df rows :
  extract_language_metrics df = Ok rows ->
  extract_language_metrics
    (filter (fun row => in_date_range start_date end_date (cell "date" row))
            df)
  = Ok (filter (fun r => in_date_range start_date end_date (lm_date r)) rows).
Proof.
  apply for_each_filter. intros row rs _ H.
  apply language_rows_of_record_fields in H.
  eapply Forall_impl; [|exact H]. intros r [Hd _]. simpl.
  now rewrite (cell_lookup _ _ _ Hd).
Qed.

Lemma chat_rows_by_date start_date end_date df rows :
  extract_chat_metrics df = Ok rows ->
  extract_chat_metrics
    (filter (fun row => in_date_range start_date end_date (cell "date" row))
            df)
  = Ok (filter (fun r => in_date_range start_date end_date (cm_date r)) rows).
Proof.
  apply for_each_filter. intros row rs _ H.
  apply chat_rows_of_record_fields in H.
  eapply Forall_impl; [|exact H]. intros r [Hd _]. simpl.
  now rewrite (cell_lookup _ _ _ Hd).
Qed.

Lemma language_rows_by_organization org df rows :
  extract_language_metrics df = Ok rows ->
  extract_language_metrics (rows_where "organization" org df)
  = Ok (filter (fun r => cell_equals org (lm_organization r)) rows).
Proof.
  apply for_each_filter. intros row rs _ H.
  apply language_rows_of_record_fields in H.
  eapply Forall_impl; [|exact H]. intros r [_ Ho]. simpl. now rewrite Ho.
Qed.

Lemma chat_rows_by_organization org df rows :
  extract_chat_metrics df = Ok rows ->
  extract_chat_metrics (rows_where "organization" org df)
  = Ok (filter (fun r => cell_equals org (cm_organization r)) rows).
Proof.
  apply for_each_filter. intros row rs _ H.
  apply chat_rows_of_record_fields in H.
  eapply Forall_impl; [|exact H]. intros r [_ Ho]. simpl. now rewrite Ho.
Qed.

Lemma filter_date_range_extracted date_range t t' :
  extract_language_metrics (wide t) = Ok (records (lang_df t)) ->
  extract_chat_metrics (wide t) = Ok (records (chat_df t)) ->
  filter_date_range date_range t = Ok t' ->
  extract_language_metrics (wide t') = Ok (records (lang_df t'))
  /\ extract_chat_metrics (wide t') = Ok (records (chat_df t')).
Proof.
  intros Hl Hc H. unfold filter_date_range in H.
  destruct date_range as [|start_date [|end_date [|]]];
    try (injection H as <-; now split).
  apply bind_ok in H as (lang & Hlang & H).
  apply bind_ok in H as (chat & Hchat & H). injection H as <-. simpl.
  unfold select_dates in Hlang, Hchat.
  destruct (has_columns (lang_df t)); [|discriminate].
  destruct (forallb _ (records (lang_df t))); [|discriminate].
  destruct (has_columns (chat_df t)); [|discriminate].
  destruct (forallb _ (records (chat_df t))); [|discriminate].
  injection Hlang as <-. injection Hchat as <-. simpl. split.
  - now apply language_rows_by_date.
  - now apply chat_rows_by_date.
Qed.

Lemma filter_organization_extracted selectbox t t' :
  extract_language_metrics (wide t) = Ok (records (lang_df t)) ->
  extract_chat_metrics (wide t) = Ok (records (chat_df t)) ->
  filter_organization selectbox t = Ok t' ->
  extract_language_metrics (wide t') = Ok (records (lang_df t'))
  /\ extract_chat_metrics (wide t') = Ok (records (chat_df t')).
Proof.
  intros Hl Hc H. unfold filter_organization in H.
  destruct (has_column "organization" (wide t));
    [|injection H as <-; now split].
  apply bind_ok in H as (orgs & _ & H).
  destruct (1 <? Z.of_nat (List.length orgs));
    [|injection H as <-; now split].
  apply bind_ok in H as (lang & Hlang & H).
  apply bind_ok in H as (chat & Hchat & H). injection H as <-. simpl.
  unfold select_organization in Hlang, Hchat.
  destruct (has_columns (lang_df t)); [|discriminate].
  destruct (has_columns (chat_df t)); [|discriminate].
  injection Hlang as <-. injection Hchat as <-. simpl. split.
  - now apply language_rows_by_organization.
  - now apply chat_rows_by_organization.
Qed.

(** X4: whatever the date range and the organization chosen in the
    sidebar, the language and chat tables that [main] hands to the
    sections are the ones extraction gives on the filtered wide table:
    filtering the long tables agrees with filtering the records. *)
Theorem main_tables_extracted
    (date_input : option Z -> option Z -> result (list Z))
    (selectbox : list pyval -> pyval) (df : DataFrame) (t : tables) :
  main_tables date_input selectbox (Some df) = Ok (Some t) ->
  extract_language_metrics (wide t) = Ok (records (lang_df t))
  /\ extract_chat_metrics (wide t) = Ok (records (chat_df t)).
Proof.
  unfold main_tables. destruct (empty df); [discriminate|]. intros H.
  apply bind_ok in H as (language_data & Hl & H).
  apply bind_ok in H as (chat_data & Hc & H).
  apply bind_ok in H as (dates & _ & H).
  apply bind_ok in H as (date_range & _ & H).
  apply bind_ok in H as (t1 & H1 & H).
  apply bind_ok in H as (t2 & H2 & H). injection H as <-.
  apply filter_date_range_extracted in H1 as (Hl1 & Hc1);
    [|exact Hl|exact Hc].
  now apply filter_organization_extracted in H2.
Qed.

Lemma main_tables_extracted_witness :
  exists t,
    main_tables (picked_range 20238 20240) first_option (Some usage_df)
    = Ok (Some t)
    /\ wide t = [usage_row 20238 "acme"; usage_row 20240 "acme"]
    /\ List.length (records (lang_df t)) = 2%nat
    /\ extract_chat_metrics (wide t) = Ok (records (chat_df t)).
Proof.
  eexists. split; [reflexivity|]. split; [reflexivity|].
  split; [reflexivity|].
  exact (proj2 (main_tables_extracted (picked_range 20238 20240)
                  first_option usage_df _ eq_refl)).
Defined.

Lemma language_rows_dates df rows :
  extract_language_metrics df = Ok rows ->
  Forall (fun r => exists row, In row df /\ cell "date" row = lm_date r) rows.
Proof.
  apply for_each_Forall. intros row rs Hin H.
  apply language_rows_of_record_fields in H.
  eapply Forall_impl; [|exact H]. intros r [Hd _]. exists row.
  split; [exact Hin | now apply cell_lookup].
Qed.

(** X5: when no record yields a language row, or none yields a chat
    row, and the date input returns a range of two dates, [main] raises
    [KeyError]: the table built from no rows has no [date] column to
    filter on. *)
Theorem main_raises_on_empty_long_table
    (date_input : option Z -> option Z -> result (list Z))
    (selectbox : list pyval -> pyval) (df : DataFrame)
    (language_data : list LanguageMetricRow) (chat_data : list ChatMetricRow)
    (dates : list (option Z)) (start_date end_date : Z) :
  empty df = false ->
  extract_language_metrics df = Ok language_data ->
  extract_chat_metrics df = Ok chat_data ->
  date_column df = Ok dates ->
  date_input (column_min dates) (column_max dates)
  = Ok [start_date; end_date] ->
  language_data = [] \/ chat_data = [] ->
  main_tables date_input selectbox (Some df) = Raise KeyError.
Proof.
  intros He Hl Hc Hd Hr Hnone. unfold main_tables.
  rewrite He, Hl, Hc. simpl. rewrite Hd. simpl. rewrite Hr. simpl.
  unfold filter_date_range. simpl.
  destruct language_data as [|r language_data]; [reflexivity|].
  destruct Hnone as [Hno | ->]; [discriminate|].
  unfold select_dates at 1. cbn [pd_DataFrame has_columns records].
  assert (Hdt : forallb (fun r => is_datetime (lm_date r))
                        (r :: language_data) = true).
  { apply forallb_forall. intros x Hx.
    pose proof (language_rows_dates _ _ Hl) as Hrows.
    rewrite Forall_forall in Hrows.
    destruct (Hrows x Hx) as (row & Hin & <-).
    unfold date_column in Hd.
    destruct (has_column "date" df); [|discriminate].
    destruct (forallb (fun row => is_datetime (cell "date" row)) df) eqn:Hall;
      [|discriminate].
    rewrite forallb_forall in Hall. now apply Hall. }
  rewrite Hdt. reflexivity.
Qed.

Lemma main_raises_on_empty_long_table_witness :
  empty processed_df = false
  /\ extract_language_metrics processed_df = Ok []
  /\ main_tables (picked_range 20238 20240) first_option
       (Some processed_df)
     = Raise KeyError.
Proof.
  split; [reflexivity|]. split; [reflexivity|].
  apply (main_raises_on_empty_long_table (picked_range 20238 20240)
           first_option processed_df [] []
           [Some 20238; Some 20240; Some 20240] 20238 20240);
    try reflexivity.
  now left.
Defined.

End DashboardClaims.

(** ** Windows side by side *)

Section WindowComposition.

Import Metrics Samples.

(** Rows from [a] on are those from [b] on together with those in
    [[a, b - 1]]. *)
Lemma split_window (col : LangRow -> Z) a b l :
  a <= b ->
  col_sum col (filter (fun x => a <=? date x) l)
  = col_sum col (filter (fun x => b <=? date x) l)
    + col_sum col (filter (fun x => (a <=? date x) && (date x <=? b - 1)) l).
Proof.
  intros Hab. unfold col_sum.
  induction l as [|x l IH]; simpl; [reflexivity|].
  destruct (Z.leb_spec a (date x)), (Z.leb_spec b (date x)),
    (Z.leb_spec (date x) (b - 1)); simpl; lia.
Qed.

Lemma period_filter_days period compare_previous r rest days :
  days_of period = Some days ->
  period_filter period compare_previous (r :: rest)
  = Some (filter (fun x => max_date r rest - (days - 1) <=? date x)
                 (r :: rest),
          if compare_previous then
            filter (fun x =>
                      (max_date r rest - (days - 1) - days <=? date x)
                      && (date x <=? max_date r rest - (days - 1) - 1))
                   (r :: rest)
          else []).
Proof. intros E. unfold period_filter. now rewrite E. Qed.

Lemma Some_pair {X Y} (a c : X) (b d : Y) :
  Some (a, b) = Some (c, d) -> a = c /\ b = d.
Proof. intros [= -> ->]. now split. Qed.

(** X6: the window of "Last 7 days" and the previous period it is
    compared with make up the window of "Last 14 days": a row is in
    the fortnight exactly when it is in one of the two, and every
    column total of the fortnight is the sum of the two totals. *)
Theorem week_and_previous_make_fortnight (compare_previous : bool)
    (lang_df week previous fortnight before : list LangRow) :
  period_filter Last_7_days true lang_df = Some (week, previous) ->
  period_filter Last_14_days compare_previous lang_df
  = Some (fortnight, before) ->
  (forall r, In r fortnight <-> In r week \/ In r previous)
  /\ (forall col,
        col_sum col fortnight = col_sum col week + col_sum col previous).
Proof.
  destruct lang_df as [|r rest]; [discriminate|].
  rewrite (period_filter_days Last_7_days true r rest 7 eq_refl).
  rewrite (period_filter_days Last_14_days compare_previous r rest 14
             eq_refl).
  set (M := max_date r rest). set (df := r :: rest).
  intros H7 H14.
  apply Some_pair in H7 as [<- <-]. apply Some_pair in H14 as [<- _].
  split.
  - intros x. rewrite !filter_In, andb_true_iff, !Z.leb_le.
    split.
    + intros [Hin H].
      destruct (Z.le_gt_cases (M - (7 - 1)) (date x)) as [Hc | Hc];
        [left | right]; (split; [exact Hin | lia]).
    + intros [[Hin H] | [Hin H]]; (split; [exact Hin | lia]).
  - intros col.
    rewrite (split_window col (M - (14 - 1)) (M - (7 - 1)) df) by lia.
    f_equal. f_equal. apply filter_ext. intros x.
    replace (M - (7 - 1) - 7) with (M - (14 - 1)) by lia.
    reflexivity.
Qed.

Lemma week_and_previous_make_fortnight_witness :
  exists week previous fortnight,
    period_filter Last_7_days true sample_lang_df = Some (week, previous)
    /\ period_filter Last_14_days false sample_lang_df
       = Some (fortnight, [])
    /\ List.length week = 3%nat /\ List.length previous = 1%nat
    /\ col_sum total_engaged_users fortnight
       = col_sum total_engaged_users week
         + col_sum total_engaged_users previous.
Proof.
  do 3 eexists. split; [reflexivity|]. split; [reflexivity|].
  split; [reflexivity|]. split; [reflexivity|].
  exact (proj2 (week_and_previous_make_fortnight false sample_lang_df
                  _ _ _ _ eq_refl eq_refl) total_engaged_users).
Defined.

End WindowComposition.

(** ** Chat events and GitHub.com entries *)

Section AttemptFacts.

Import Attempt.

Lemma lift_then {B A C} (a : A) (k : A -> appending B C) :
  and_then (lift (Ok a)) k = k a.
Proof. unfold and_then, lift. now destruct (k a). Qed.

Lemma lift_then_raise {B A C} (e : exn) (k : A -> appending B C) :
  and_then (lift (Raise e)) k = ([], Raise e).
Proof. reflexivity. Qed.

Lemma lift_then_ok {B A C} (m : result A) (k : A -> appending B C) out c :
  and_then (lift m) k = (out, Ok c) ->
  exists a, m = Ok a /\ k a = (out, Ok c).
Proof.
  destruct m as [a|e]; [|discriminate].
  rewrite lift_then. intros H. now exists a.
Qed.

Lemma and_then_ok {B A C} (m : appending B A) (k : A -> appending B C) out c :
  and_then m k = (out, Ok c) ->
  exists o1 a o2, m = (o1, Ok a) /\ k a = (o2, Ok c) /\ out = o1 ++ o2.
Proof.
  destruct m as [o1 [a|e]]; simpl; [|discriminate].
  destruct (k a) as [o2 r] eqn:E. intros [= <- ->].
  now exists o1, a, o2.
Qed.

(** A loop under [try] and a loop that lets exceptions through give
    the same rows when every pass of both completes with the same
    rows. *)
Lemma for_in_agrees {A B C} (f : A -> appending B unit)
    (g : A -> result (list C)) (conv : B -> C) xs :
  (forall x evs rows,
     In x xs -> f x = (evs, Ok tt) -> g x = Ok rows -> map conv evs = rows) ->
  forall evs rows,
    for_in f xs = (evs, Ok tt) -> for_each g xs = Ok rows ->
    map conv evs = rows.
Proof.
  induction xs as [|x xs IH]; simpl; intros Hx evs rows Hf Hg.
  - injection Hf as <-. now injection Hg as <-.
  - apply and_then_ok in Hf as (o1 & [] & o2 & H1 & H2 & ->).
    apply bind_ok in Hg as (r1 & G1 & Hg).
    apply bind_ok in Hg as (r2 & G2 & Hg). injection Hg as <-.
    rewrite map_app. f_equal.
    + apply (Hx x); [now left | exact H1 | exact G1].
    + apply IH; [|exact H2|exact G2]. intros y e r Hy. apply Hx. now right.
Qed.

(** The passes before the first one that raises are the ones that
    count. *)
Lemma for_in_stops {A B} (f : A -> appending B unit) good bad rest
    kept last e :
  for_in f good = (kept, Ok tt) ->
  f bad = (last, Raise e) ->
  for_in f (good ++ bad :: rest) = (kept ++ last, Raise e).
Proof.
  revert kept. induction good as [|x good IH]; simpl; intros kept Hg Hb.
  - injection Hg as <-. now rewrite Hb.
  - apply and_then_ok in Hg as (o1 & [] & o2 & H1 & H2 & ->).
    rewrite H1. simpl. rewrite (IH o2 H2 Hb). now rewrite app_assoc.
Qed.

Lemma for_in_try_app {A B} (f : A -> appending B unit) xs ys :
  for_in_try f (xs ++ ys) = for_in_try f xs ++ for_in_try f ys.
Proof. unfold for_in_try. now rewrite map_app, concat_app. Qed.

End AttemptFacts.

Section InteractionFacts.

Import Attempt Shape Extract Interactions.

Lemma nothing_to_iterate v n :
  len v = Ok n -> (0 <? n) = false -> iter v = Ok [].
Proof.
  destruct v as [| | | |s| |l|d]; simpl; try discriminate;
    intros [= <-] H; apply Z.ltb_ge in H.
  - destruct s; [reflexivity | simpl in H; lia].
  - destruct l; [reflexivity | simpl in H; lia].
  - destruct d; [reflexivity | simpl in H; lia].
Qed.

Lemma model_event_agrees row date org editor editor_name model evs rows :
  row_get row "date" = Ok date ->
  row_get row "organization" = Ok org ->
  get editor "name" (PStr "unknown") = Ok editor_name ->
  (event <~ lift (chat_event row editor model) ;; append event)
  = (evs, Ok tt) ->
  ide_chat_row date org editor_name model = Ok rows ->
  map as_chat_row evs = rows.
Proof.
  intros Hd Ho Hn Hf Hg.
  apply lift_then_ok in Hf as (event & He & Hf). injection Hf as <-.
  unfold chat_event in He. rewrite Hd, Ho in He. simpl in He.
  apply bind_ok in He as (name & Hname & He).
  apply bind_ok in He as (model_name & _ & He).
  apply bind_ok in He as (copy_events & Hc & He).
  apply bind_ok in He as (insertion_events & Hi & He).
  apply bind_ok in He as (total_chats & Ht & He).
  apply bind_ok in He as (engaged_users & Hu & He). injection He as <-.
  unfold ide_chat_row in Hg. rewrite Hu, Ht, Hc, Hi in Hg. simpl in Hg.
  injection Hg as <-. unfold as_chat_row. simpl. do 2 f_equal.
  destruct editor; try discriminate. simpl in Hname, Hn.
  destruct (lookup "name" d); [|discriminate]. congruence.
Qed.

Lemma editor_events_agree row date org editor evs rows :
  row_get row "date" = Ok date ->
  row_get row "organization" = Ok org ->
  editor_events row editor = (evs, Ok tt) ->
  editor_chat_rows date org editor = Ok rows ->
  map as_chat_row evs = rows.
Proof.
  intros Hd Ho Hf Hg. unfold editor_events in Hf.
  apply lift_then_ok in Hf as (some_models & Hs & Hf).
  unfold editor_chat_rows in Hg.
  apply bind_ok in Hg as (editor_name & Hn & Hg).
  apply bind_ok in Hg as (has_models & Hm & Hg).
  unfold has_some_models in Hs. rewrite Hm in Hs. simpl in Hs.
  destruct has_models.
  - apply bind_ok in Hs as (models & Hmodels & Hs).
    apply bind_ok in Hs as (n & Hlen & Hs). injection Hs as <-.
    rewrite Hmodels in Hg. simpl in Hg.
    apply bind_ok in Hg as (ms & Hms & Hg).
    destruct (0 <? n) eqn:Hpos.
    + rewrite Hmodels, lift_then, Hms, lift_then in Hf.
      revert evs rows Hf Hg. apply for_in_agrees.
      intros model evs rows _. now apply model_event_agrees.
    + injection Hf as <-.
      rewrite (nothing_to_iterate _ _ Hlen Hpos) in Hms.
      injection Hms as <-. simpl in Hg. now injection Hg as <-.
  - injection Hs as <-. injection Hf as <-. now injection Hg as <-.
Qed.

Lemma ide_chat_block_agrees row date org chat evs rows :
  row_get row "date" = Ok date ->
  row_get row "organization" = Ok org ->
  (has_editors <~ lift (contains "editors" chat) ;;
   if (has_editors : bool) then
     editors <~ lift (getitem chat "editors") ;;
     es <~ lift (iter editors) ;;
     for_in (editor_events row) es
   else done) = (evs, Ok tt) ->
  ide_chat_rows date org chat = Ok rows ->
  map as_chat_row evs = rows.
Proof.
  intros Hd Ho Hf Hg. unfold ide_chat_rows in Hg.
  apply lift_then_ok in Hf as (has_editors & Hc & Hf).
  apply bind_ok in Hg as (has_editors' & Hc' & Hg).
  rewrite Hc in Hc'. injection Hc' as <-. destruct has_editors.
  - apply lift_then_ok in Hf as (editors & He & Hf).
    apply lift_then_ok in Hf as (es & Hes & Hf).
    apply bind_ok in Hg as (editors' & He' & Hg).
    rewrite He in He'. injection He' as <-.
    apply bind_ok in Hg as (es' & Hes' & Hg).
    rewrite Hes in Hes'. injection Hes' as <-.
    revert evs rows Hf Hg. apply for_in_agrees.
    intros editor evs rows _. now apply editor_events_agree.
  - injection Hf as <-. now injection Hg as <-.
Qed.

(** A chat cell that is no dict gives no IDE chat row, unless
    extraction raises on it. *)
Lemma ide_chat_rows_not_dict date org chat rows :
  is_dict chat = false ->
  ide_chat_rows date org chat = Ok rows -> rows = [].
Proof.
  intros Hn. unfold ide_chat_rows.
  destruct chat as [| | | |s| |l|d]; simpl; try discriminate.
  - destruct (is_substring "editors" s); simpl; [discriminate|].
    now intros [= <-].
  - destruct (existsb (is_str "editors") l); simpl; [discriminate|].
    now intros [= <-].
Qed.

Lemma ide_chat_rows_feature date org chat rows :
  ide_chat_rows date org chat = Ok rows ->
  Forall (fun r => is_ide_chat r = true) rows.
Proof.
  unfold ide_chat_rows. intros H.
  apply bind_ok in H as ([] & _ & H); [|injection H as <-; constructor].
  apply bind_ok in H as (editors & _ & H).
  apply bind_ok in H as (es & _ & H).
  revert rows H. apply for_each_Forall. intros editor rows _ H.
  unfold editor_chat_rows in H.
  apply bind_ok in H as (editor_name & _ & H).
  apply bind_ok in H as ([] & _ & H); [|injection H as <-; constructor].
  apply bind_ok in H as (models & _ & H).
  apply bind_ok in H as (ms & _ & H).
  revert rows H. apply for_each_Forall. intros model rows _ H.
  unfold ide_chat_row in H.
  repeat (apply bind_ok in H as (? & _ & H)).
  injection H as <-. repeat constructor.
Qed.

Lemma dotcom_chat_rows_feature date org dotcom_chat rows :
  dotcom_chat_rows date org dotcom_chat = Ok rows ->
  Forall (fun r => is_ide_chat r = false) rows.
Proof.
  unfold dotcom_chat_rows. intros H.
  repeat (apply bind_ok in H as (? & _ & H)).
  injection H as <-. repeat constructor.
Qed.

Lemma filter_all {X} (p : X -> bool) l :
  Forall (fun x => p x = true) l -> filter p l = l.
Proof.
  induction 1 as [|x l Hx _ IH]; simpl; [reflexivity|].
  now rewrite Hx, IH.
Qed.

Lemma filter_none {X} (p : X -> bool) l :
  Forall (fun x => p x = false) l -> filter p l = [].
Proof.
  induction 1 as [|x l Hx _ IH]; simpl; [reflexivity|]. now rewrite Hx.
Qed.

Lemma row_events_agree row evs rows :
  row_events row = (evs, Ok tt) ->
  chat_rows_of_record row = Ok rows ->
  map as_chat_row evs = filter is_ide_chat rows.
Proof.
  intros Hf Hg. unfold chat_rows_of_record in Hg.
  apply bind_ok in Hg as (date & Hd & Hg).
  apply bind_ok in Hg as (org & Ho & Hg).
  apply bind_ok in Hg as (ide & Hi & Hg).
  apply bind_ok in Hg as (dotcom & Hc & Hg). injection Hg as <-.
  assert (Hdot : Forall (fun r => is_ide_chat r = false) dotcom).
  { destruct (has_key "copilot_dotcom_chat" row);
      [|injection Hc as <-; constructor].
    apply bind_ok in Hc as (dotcom_chat & _ & Hc).
    apply bind_ok in Hc as ([] & _ & Hc); [|injection Hc as <-; constructor].
    now apply dotcom_chat_rows_feature in Hc. }
  unfold row_events in Hf.
  apply lift_then_ok in Hf as (ide_chat & Hcell & Hf).
  pose proof (row_get_ok _ _ _ Hcell) as Hl.
  unfold has_key in Hi. rewrite Hl, Hcell in Hi. simpl in Hi.
  rewrite filter_app, (filter_none _ _ Hdot), app_nil_r.
  apply bind_ok in Hi as ([] & Ht & Hi).
  - rewrite (filter_all _ _ (ide_chat_rows_feature _ _ _ _ Hi)).
    destruct (is_dict ide_chat) eqn:Hdict.
    + now apply (ide_chat_block_agrees row date org ide_chat).
    + injection Hf as <-.
      now rewrite (ide_chat_rows_not_dict _ _ _ _ Hdict Hi).
  - injection Hi as <-. simpl.
    destruct ide_chat as [| | | | | | |d]; simpl in Hf;
      try (now injection Hf as <-).
    destruct d; [|discriminate]. simpl in Hf. now injection Hf as <-.
Qed.

End InteractionFacts.

Section InteractionClaims.

Import Attempt Shape Extract Interactions Samples.

(** X7: when the [try] block of every record completes, the events
    that [render_chat_interactions] collects are the IDE chat rows of
    [extract_chat_metrics], in the same order and with the same date,
    organization, editor and counts. *)
Theorem chat_events_match_chat_table (df : DataFrame)
    (rows : list ChatMetricRow) :
  Forall (fun row => snd (row_events row) = Ok tt) df ->
  extract_chat_metrics df = Ok rows ->
  map as_chat_row (chat_events df) = filter is_ide_chat rows.
Proof.
  unfold chat_events, for_in_try, extract_chat_metrics.
  intros Hall. revert rows.
  induction Hall as [|row df Hrow _ IH]; simpl; intros rows H.
  - now injection H as <-.
  - apply bind_ok in H as (r1 & H1 & H).
    apply bind_ok in H as (r2 & H2 & H). injection H as <-.
    rewrite map_app, filter_app, (IH r2 H2). f_equal.
    apply (row_events_agree row); [|exact H1].
    destruct (row_events row) as [evs r]. simpl in Hrow. now subst r.
Qed.

Lemma chat_events_match_chat_table_witness :
  Forall (fun row => snd (row_events row) = Ok tt) usage_df
  /\ exists rows,
       extract_chat_metrics usage_df = Ok rows
       /\ List.length rows = 6%nat
       /\ List.length (chat_events usage_df) = 3%nat
       /\ map as_chat_row (chat_events usage_df) = filter is_ide_chat rows.
Proof.
  assert (Hall : Forall (fun row => snd (row_events row) = Ok tt) usage_df).
  { repeat constructor. }
  split; [exact Hall|]. eexists. split; [reflexivity|].
  split; [reflexivity|]. split; [reflexivity|].
  exact (chat_events_match_chat_table usage_df _ Hall eq_refl).
Defined.

Lemma model_events_kept row editor good kept :
  Forall2 (fun model event => chat_event row editor model = Ok event)
          good kept ->
  for_in (fun model =>
            event <~ lift (chat_event row editor model) ;; append event)
         good
  = (kept, Ok tt).
Proof.
  induction 1 as [|model event good kept Hm _ IH]; cbn [for_in];
    [reflexivity|].
  rewrite Hm, lift_then, IH. reflexivity.
Qed.

(** X8: a model on which building the event raises (it has no name,
    say) ends the [try] block of its record: the events of the editors
    and models before it stay in the list, those of the models and
    editors after it are dropped, and the other records are read as
    before. *)
Theorem failing_model_drops_rest_of_record (row : Series)
    (chat e : list (string * pyval)) (before later good rest : list pyval)
    (bad : pyval) (kept0 kept : list ChatEvent) (err : exn) :
  lookup "copilot_ide_chat" row = Some (PDict chat) ->
  lookup "editors" chat = Some (PList (before ++ PDict e :: later)) ->
  for_in (editor_events row) before = (kept0, Ok tt) ->
  lookup "models" e = Some (PList (good ++ bad :: rest)) ->
  Forall2 (fun model event => chat_event row (PDict e) model = Ok event)
          good kept ->
  chat_event row (PDict e) bad = Raise err ->
  row_events row = (kept0 ++ kept, Raise err)
  /\ forall df1 df2,
       chat_events (df1 ++ row :: df2)
       = chat_events df1 ++ (kept0 ++ kept) ++ chat_events df2.
Proof.
  intros Hcell Heds Hbefore Hmodels Hgood Hbad.
  assert (Hed : editor_events row (PDict e) = (kept, Raise err)).
  { assert (Hget : getitem (PDict e) "models"
                   = Ok (PList (good ++ bad :: rest))).
    { simpl. now rewrite Hmodels. }
    assert (Hsome : has_some_models (PDict e) = Ok true).
    { unfold has_some_models. rewrite Hget. simpl.
      unfold has_key. rewrite Hmodels. simpl. f_equal.
      apply Z.ltb_lt. rewrite length_app. simpl. lia. }
    unfold editor_events. rewrite Hsome, lift_then, Hget, lift_then.
    change (iter (PList (good ++ bad :: rest)))
      with (Ok (good ++ bad :: rest)).
    rewrite lift_then.
    rewrite (for_in_stops _ good bad rest kept [] err
               (model_events_kept row (PDict e) good kept Hgood)).
    - now rewrite app_nil_r.
    - now rewrite Hbad. }
  assert (Hrow : row_events row = (kept0 ++ kept, Raise err)).
  { assert (Hget : getitem (PDict chat) "editors"
                   = Ok (PList (before ++ PDict e :: later))).
    { simpl. now rewrite Heds. }
    assert (Hhas : contains "editors" (PDict chat) = Ok true).
    { simpl. unfold has_key. now rewrite Heds. }
    unfold row_events, row_get. rewrite Hcell, lift_then.
    change (is_dict (PDict chat)) with true. cbv iota.
    rewrite Hhas, lift_then, Hget, lift_then.
    change (iter (PList (before ++ PDict e :: later)))
      with (Ok (before ++ PDict e :: later)).
    rewrite lift_then.
    exact (for_in_stops _ before (PDict e) later kept0 kept err
             Hbefore Hed). }
  split; [exact Hrow|]. intros df1 df2. unfold chat_events.
  rewrite for_in_try_app. f_equal. unfold for_in_try. simpl.
  now rewrite Hrow.
Qed.

Lemma failing_model_drops_rest_of_record_witness :
  exists first,
    chat_events [nameless_model_row; usage_row 20240 "acme"]
    = first :: chat_events [usage_row 20240 "acme"]
    /\ ce_total_chats first = PInt 6
    /\ snd (row_events nameless_model_row) = Raise KeyError.
Proof.
  eexists. split; [reflexivity|]. split; [reflexivity|].
  refine (f_equal snd
    (proj1 (failing_model_drops_rest_of_record nameless_model_row
              _ _ [] _ [_] _ _ [] [_] KeyError
              eq_refl eq_refl eq_refl eq_refl _ eq_refl))).
  repeat constructor.
Defined.

(** X9: without a [copilot_dotcom_chat] cell the [try] block of a
    record raises before it reaches the pull requests, so a table
    without that column shows no GitHub.com usage at all, whatever its
    [copilot_dotcom_pull_requests] column holds. *)
Theorem dotcom_usage_needs_chat_column (df : DataFrame) :
  Forall (fun row => has_key "copilot_dotcom_chat" row = false) df ->
  dotcom_data df = []
  /\ Forall (fun row => dotcom_row_entries row = ([], Raise KeyError)) df.
Proof.
  unfold dotcom_data, for_in_try.
  induction 1 as [|row df Hrow _ [IH1 IH2]]; simpl; [now split|].
  assert (Hnone : dotcom_row_entries row = ([], Raise KeyError)).
  { unfold dotcom_row_entries, web_chat_entries, row_get.
    unfold has_key in Hrow.
    now destruct (lookup "copilot_dotcom_chat" row). }
  rewrite Hnone, IH1. split; [reflexivity|]. now constructor.
Qed.

Lemma dotcom_usage_needs_chat_column_witness :
  Forall (fun row => has_key "copilot_dotcom_chat" row = false)
         pull_requests_only_df
  /\ Forall (fun row => is_ok (snd (pull_request_entries row)) = true
                        /\ List.length (fst (pull_request_entries row))
                           = 1%nat)
            pull_requests_only_df
  /\ dotcom_data pull_requests_only_df = [].
Proof.
  assert (H : Forall (fun row => has_key "copilot_dotcom_chat" row = false)
                     pull_requests_only_df).
  { repeat constructor. }
  split; [exact H|]. split; [repeat constructor|].
  exact (proj1 (dotcom_usage_needs_chat_column pull_requests_only_df H)).
Defined.

End InteractionClaims.

(** ** The overview *)

Section OverviewFacts.

Import Ingest Frames Dashboard Overview.

(** Folding [max] or [min] over a date column from a date on: the
    result is that date or one of the column, and bounds both. *)
Lemma fold_pick_some (choose : Z -> Z -> Z) (le : Z -> Z -> Prop) dates :
  (forall x y, choose x y = x \/ choose x y = y) ->
  (forall x y, le x (choose x y) /\ le y (choose x y)) ->
  (forall x y z, le x y -> le y z -> le x z) ->
  forall a, exists m,
    fold_left (pick choose) dates (Some a) = Some m
    /\ le a m
    /\ (m = a \/ In (Some m) dates)
    /\ forall d, In (Some d) dates -> le d m.
Proof.
  intros Hsel Hle Htrans.
  assert (Hrefl : forall x, le x x).
  { intros x. destruct (Hsel x x) as [E | E];
      pose proof (proj1 (Hle x x)) as H; now rewrite E in H. }
  induction dates as [|[d|] dates IH]; simpl; intros a.
  - exists a. repeat split; [apply Hrefl | now left | intros d []].
  - destruct (IH (choose a d)) as (m & Hm & Ham & Hin & Hall).
    destruct (Hle a d) as [Ha Hd].
    exists m. split; [exact Hm|]. split; [now apply (Htrans _ _ _ Ha)|].
    split.
    + destruct Hin as [-> | Hin]; [|now right; right].
      destruct (Hsel a d) as [-> | ->]; [now left | now right; left].
    + intros x [[= <-] | Hx]; [now apply (Htrans _ _ _ Hd) | now apply Hall].
  - destruct (IH a) as (m & Hm & Ham & Hin & Hall).
    exists m. split; [exact Hm|]. split; [exact Ham|]. split.
    + destruct Hin as [-> | Hin]; [now left | now right; right].
    + intros x [[=] | Hx]. now apply Hall.
Qed.

Lemma fold_pick (choose : Z -> Z -> Z) (le : Z -> Z -> Prop) dates :
  (forall x y, choose x y = x \/ choose x y = y) ->
  (forall x y, le x (choose x y) /\ le y (choose x y)) ->
  (forall x y z, le x y -> le y z -> le x z) ->
  (fold_left (pick choose) dates None = None
   /\ forall x, In x dates -> x = None)
  \/ exists m,
       fold_left (pick choose) dates None = Some m
       /\ In (Some m) dates
       /\ forall d, In (Some d) dates -> le d m.
Proof.
  intros Hsel Hle Htrans.
  induction dates as [|[d|] dates IH]; simpl.
  - left. split; [reflexivity | intros x []].
  - right.
    destruct (fold_pick_some choose le dates Hsel Hle Htrans d)
      as (m & Hm & Hdm & Hin & Hall).
    exists m. split; [exact Hm|]. split.
    + destruct Hin as [-> | Hin]; [now left | now right].
    + intros x [[= <-] | Hx]; [exact Hdm | now apply Hall].
  - destruct IH as [[Hn Hall] | (m & Hm & Hin & Hall)].
    + left. split; [exact Hn|]. intros x [<- | Hx]; [reflexivity|].
      now apply Hall.
    + right. exists m. split; [exact Hm|]. split; [now right|].
      intros x [[=] | Hx]. now apply Hall.
Qed.

Lemma column_max_spec dates :
  (column_max dates = None /\ forall x, In x dates -> x = None)
  \/ exists m,
       column_max dates = Some m
       /\ In (Some m) dates
       /\ forall d, In (Some d) dates -> d <= m.
Proof.
  apply (fold_pick Z.max Z.le); intros; lia.
Qed.

Lemma column_min_spec dates :
  (column_min dates = None /\ forall x, In x dates -> x = None)
  \/ exists m,
       column_min dates = Some m
       /\ In (Some m) dates
       /\ forall d, In (Some d) dates -> m <= d.
Proof.
  apply (fold_pick Z.min (fun x y => y <= x)); intros; lia.
Qed.

(** The first element a filter keeps, with what comes before it. *)
Lemma filter_first {X} (p : X -> bool) l first rest :
  filter p l = first :: rest ->
  exists before after,
    l = before ++ first :: after
    /\ p first = true
    /\ forall x, In x before -> p x = false.
Proof.
  induction l as [|x l IH]; simpl; [discriminate|].
  destruct (p x) eqn:Hp.
  - intros [= -> <-]. exists [], l. split; [reflexivity|].
    split; [exact Hp | intros y []].
  - intros H. destruct (IH H) as (before & after & -> & Hf & Hb).
    exists (x :: before), after. split; [reflexivity|].
    split; [exact Hf|]. intros y [<- | Hy]; [exact Hp | now apply Hb].
Qed.

(** On a [datetime64] cell, equality with a date is equality of the
    cells. *)
Lemma date_cell_equals m row :
  is_datetime (cell "date" row) = true ->
  (match lookup "date" row with
   | Some c => cell_equals (PDatetime (Some m)) c
   | None => false
   end = true
   <-> cell "date" row = PDatetime (Some m)).
Proof.
  unfold cell. destruct (lookup "date" row) as [c|]; [|discriminate].
  destruct c as [| | | | |[t|]| |]; try discriminate; intros _; simpl.
  - rewrite Z.eqb_eq. split; [now intros -> | now intros [= ->]].
  - split; discriminate.
Qed.

Lemma date_column_cells df dates :
  date_column df = Ok dates ->
  dates = map (fun row => stamp (cell "date" row)) df
  /\ forall row, In row df -> is_datetime (cell "date" row) = true.
Proof.
  unfold date_column. destruct (has_column "date" df); [|discriminate].
  destruct (forallb (fun row => is_datetime (cell "date" row)) df) eqn:H;
    [|discriminate].
  intros [= <-]. split; [reflexivity|]. now apply forallb_forall.
Qed.

Lemma stamp_cell v d :
  is_datetime v = true -> (stamp v = Some d <-> v = PDatetime (Some d)).
Proof.
  destruct v; try discriminate. intros _. simpl.
  split; [now intros -> | now intros [= ->]].
Qed.

End OverviewFacts.

Section OverviewClaims.

Import Ingest Frames Dashboard Overview Samples.

(** X10: on a table with a dated record, the record [render_overview]
    takes its figures from is the first one, in table order, that
    carries the latest date; no record has a later date.  When every
    date is [NaT] the lookup of that record raises [IndexError]. *)
Theorem overview_reads_first_latest_record (df : DataFrame)
    (dates : list (option Z)) :
  date_column df = Ok dates ->
  ((exists d, In (Some d) dates) ->
   exists before latest after d,
     df = before ++ latest :: after
     /\ latest_data df = Ok latest
     /\ cell "date" latest = PDatetime (Some d)
     /\ (forall row d', In row df ->
           cell "date" row = PDatetime (Some d') -> d' <= d)
     /\ (forall row, In row before ->
           cell "date" row <> PDatetime (Some d)))
  /\ ((forall x, In x dates -> x = None) ->
      latest_data df = Raise IndexError).
Proof.
  intros Hd. destruct (date_column_cells df dates Hd) as (Hdates & Htyped).
  unfold latest_data. rewrite Hd. simpl. split.
  - intros (d0 & Hd0).
    destruct (column_max_spec dates) as [[_ Hnone] | (m & Hm & Hin & Hmax)];
      [now specialize (Hnone _ Hd0)|].
    rewrite Hm.
    assert (Hsome : exists row, In row df
                                /\ cell "date" row = PDatetime (Some m)).
    { rewrite Hdates in Hin. apply in_map_iff in Hin as (row & Hs & Hrow).
      exists row. split; [exact Hrow|].
      now apply stamp_cell; [apply Htyped|]. }
    destruct Hsome as (row & Hrow & Hcell).
    destruct (rows_where "date" (PDatetime (Some m)) df)
      as [|first rest] eqn:Hf; unfold rows_where in Hf.
    + exfalso.
      assert (Hin' : In row (rows_where "date" (PDatetime (Some m)) df)).
      { apply filter_In. split; [exact Hrow|].
        now apply date_cell_equals; [apply Htyped|]. }
      unfold rows_where in Hin'. rewrite Hf in Hin'. destruct Hin'.
    + destruct (filter_first _ _ _ _ Hf)
        as (before & after & Hdf & Hfirst & Hbefore).
      assert (Hin_first : In first df).
      { rewrite Hdf. apply in_or_app. right. now left. }
      exists before, first, after, m.
      split; [exact Hdf|]. split; [reflexivity|]. split.
      * now apply date_cell_equals; [apply Htyped|].
      * split.
        -- intros r d' Hr Hc. apply Hmax. rewrite Hdates.
           apply in_map_iff. exists r. split; [|exact Hr].
           now rewrite Hc.
        -- intros r Hr Hc.
           assert (Hr' : In r df).
           { rewrite Hdf. apply in_or_app. now left. }
           apply (date_cell_equals m r (Htyped r Hr')) in Hc.
           rewrite (Hbefore r Hr) in Hc. discriminate.
  - intros Hnone.
    destruct (column_max_spec dates) as [[Hm _] | (m & _ & Hin & _)];
      [|now specialize (Hnone _ Hin)].
    rewrite Hm. unfold rows_where.
    rewrite filter_none; [reflexivity|].
    apply Forall_forall. intros row _.
    destruct (lookup "date" row) as [c|]; [|reflexivity].
    now destruct c as [| | | | |[]| |].
Qed.

Lemma overview_reads_first_latest_record_witness :
  exists latest,
    latest_data processed_df = Ok latest
    /\ latest = processed_row 20240 "acme" 100
    /\ cell "date" latest = PDatetime (Some 20240).
Proof.
  destruct (proj1 (overview_reads_first_latest_record processed_df
                     [Some 20238; Some 20240; Some 20240] eq_refl))
    as (before & latest & after & d & _ & Hl & _).
  { exists 20238. now left. }
  exists (processed_row 20240 "acme" 100).
  split; [reflexivity|]. split; reflexivity.
Defined.

(** X11: on a date column with a date, the coverage shown by
    [render_overview] and the one shown by [render_data_insights] are
    the same number of days, and every date of the column falls within
    that many days from the earliest one. *)
Theorem date_range_covers_every_record (dates : list (option Z)) :
  (exists d, In (Some d) dates) ->
  exists earliest n,
    column_min dates = Some earliest
    /\ overview_date_range dates = Some n
    /\ insights_date_range dates = Some n
    /\ forall d, In (Some d) dates -> earliest <= d < earliest + n.
Proof.
  intros (d0 & Hd0).
  destruct (column_min_spec dates) as [[_ Hnone] | (lo & Hlo & Hloin & Hmin)];
    [now specialize (Hnone _ Hd0)|].
  destruct (column_max_spec dates) as [[_ Hnone] | (hi & Hhi & Hhiin & Hmax)];
    [now specialize (Hnone _ Hd0)|].
  exists lo, (hi - lo + 1). split; [exact Hlo|].
  assert (Hspan : span_days dates = Some (hi - lo + 1)).
  { unfold span_days. now rewrite Hhi, Hlo. }
  split; [|split; [exact Hspan|]].
  - unfold overview_date_range.
    destruct (1 <? Z.of_nat (List.length dates)) eqn:Hlen; [exact Hspan|].
    apply Z.ltb_ge in Hlen.
    destruct dates as [|x [|y dates]]; [destruct Hd0| |simpl in Hlen; lia].
    destruct Hloin as [-> | []]. destruct Hhiin as [[= ->] | []].
    f_equal. lia.
  - intros d Hd. specialize (Hmin d Hd). specialize (Hmax d Hd). lia.
Qed.

Lemma date_range_covers_every_record_witness :
  overview_date_range [Some 20238; None; Some 20240] = Some 3
  /\ insights_date_range [Some 20238; None; Some 20240] = Some 3.
Proof.
  destruct (date_range_covers_every_record [Some 20238; None; Some 20240])
    as (lo & n & _ & H1 & H2 & _).
  { exists 20238. now left. }
  split; reflexivity.
Defined.

End OverviewClaims.

(** ** Rates by language and by editor *)

Section RateFacts.

Import Metrics Rates.

(** The value of a group is the total over the rows of its key. *)
Lemma group_value {R V} (plus : V -> V -> V) (proj : V -> Z)
    (key : R -> string) (val : R -> V) rows k v :
  (forall x y, proj (plus x y) = proj x + proj y) ->
  In (k, v) (groupby_sum String_as_OT.compare plus key val rows) ->
  proj v
  = fold_right Z.add 0
      (map (fun r => proj (val r))
           (filter (fun r => String.eqb (key r) k) rows)).
Proof.
  intros Hp Hin.
  rewrite <- (sum_where_sorted String_as_OT.compare string_compare_opp
                proj _ k v
                (groupby_sum_sorted _ _ string_compare_opp
                   string_compare_trans _ _ _) Hin).
  rewrite (groupby_sum_where String_as_OT.compare plus string_compare_eq
             proj Hp).
  clear Hin. induction rows as [|r rows IH]; simpl; [reflexivity|].
  rewrite string_compare_eqb.
  destruct (String.eqb (key r) k); simpl; now rewrite IH.
Qed.

Lemma acceptance_rate_of_sums rows :
  calculate_acceptance_rate rows
  = group_rate (col_sum total_code_acceptances rows,
                col_sum total_code_suggestions rows).
Proof. now destruct rows. Qed.

(** The sums of a language over [lang_summary] are its sums over the
    rows. *)
Lemma summary_totals (proj : Z * Z * Z -> Z) (col : LangRow -> Z) lang rows :
  (forall x y, proj (plus3 x y) = proj x + proj y) ->
  (forall r, proj (total_engaged_users r, total_code_acceptances r,
                   total_code_suggestions r) = col r) ->
  fold_right Z.add 0
    (map (fun s => proj (snd s))
         (filter (fun s : (Z * string) * (Z * Z * Z) =>
                    String.eqb (snd (fst s)) lang)
                 (lang_summary rows)))
  = col_sum col (rows_of_language lang rows).
Proof.
  intros Hp Hcol.
  transitivity
    (sum_where (fun k : Z * string => String.eqb (snd k) lang) proj
               (lang_summary rows)).
  { induction (lang_summary rows) as [|s l IH]; simpl; [reflexivity|].
    destruct (String.eqb (snd (fst s)) lang); simpl; now rewrite IH. }
  unfold lang_summary.
  rewrite (groupby_sum_where date_language_cmp plus3 date_language_cmp_eq
             proj Hp).
  unfold rows_of_language, col_sum.
  induction rows as [|r rows IH]; simpl; [reflexivity|].
  destruct (String.eqb (language r) lang); simpl; rewrite IH;
    [now rewrite Hcol | reflexivity].
Qed.

Lemma plus2_fst x y : fst (Rates.plus2 x y) = fst x + fst y.
Proof. reflexivity. Qed.

Lemma plus2_snd x y : snd (Rates.plus2 x y) = snd x + snd y.
Proof. reflexivity. Qed.

End RateFacts.

Section RateClaims.

Import Metrics Rates Samples.

(** X12: every rate in the chart of acceptance rates by language is
    what [calculate_acceptance_rate] gives on the rows of that language
    in the selected period, however [sort_values] orders the
    languages. *)
Theorem lang_rates_are_acceptance_rates
    (sort_values : list (string * Q) -> list (string * Q))
    (filtered_lang_df : list LangRow) (lang : string) (rate : Q) :
  (forall s, Permutation s (sort_values s)) ->
  In (lang, rate) (lang_rates sort_values filtered_lang_df) ->
  rate = calculate_acceptance_rate (rows_of_language lang filtered_lang_df).
Proof.
  intros Hperm Hin. unfold lang_rates in Hin.
  apply firstn_In in Hin.
  apply (Permutation_in _ (Permutation_sym (Hperm _))) in Hin.
  unfold rates_by_language in Hin.
  apply in_map_iff in Hin as ([k [a s]] & Heq & Hg).
  cbn [fst snd] in Heq. injection Heq as -> <-.
  assert (Ha : a = col_sum total_code_acceptances
                     (rows_of_language lang filtered_lang_df)).
  { rewrite <- (summary_totals (fun v => snd (fst v))
                  total_code_acceptances lang filtered_lang_df).
    - exact (group_value plus2 fst _ _ _ _ _ plus2_fst Hg).
    - now intros [[] ?] [[] ?].
    - reflexivity. }
  assert (Hs : s = col_sum total_code_suggestions
                     (rows_of_language lang filtered_lang_df)).
  { rewrite <- (summary_totals (fun v => snd v)
                  total_code_suggestions lang filtered_lang_df).
    - exact (group_value plus2 snd _ _ _ _ _ plus2_snd Hg).
    - now intros [[] ?] [[] ?].
    - reflexivity. }
  rewrite acceptance_rate_of_sums, <- Ha, <- Hs. reflexivity.
Qed.

Lemma lang_rates_are_acceptance_rates_witness :
  (forall s, Permutation s (sort_rates_descending s))
  /\ In ("python", (inject_Z 10 / inject_Z 19 * 100)%Q)
        (lang_rates sort_rates_descending sample_lang_df)
  /\ (inject_Z 10 / inject_Z 19 * 100)%Q
     = calculate_acceptance_rate (rows_of_language "python" sample_lang_df).
Proof.
  assert (Hperm : forall s, Permutation s (sort_rates_descending s)).
  { intros s. apply insertion_sort_perm. }
  assert (Hin : In ("python", (inject_Z 10 / inject_Z 19 * 100)%Q)
                   (lang_rates sort_rates_descending sample_lang_df)).
  { vm_compute. left. reflexivity. }
  split; [exact Hperm|]. split; [exact Hin|].
  exact (lang_rates_are_acceptance_rates sort_rates_descending
           sample_lang_df "python" _ Hperm Hin).
Defined.





End RateClaims.

(** ** A run of [main.py] *)

Section RunClaims.

Import Ingest Pandas Frames Report Samples.

Lemma coerced_row_named df r r' :
  coerced_row df r r' ->
  lookup "organization" r' = lookup "organization" r.
Proof. intros [[_ H] _]. now apply H. Qed.

Lemma coerced_org_names df df2 :
  Forall2 (coerced_row df) df df2 ->
  org_names df2 = org_names df /\ forallb named df2 = forallb named df.
Proof.
  generalize df at 1. intros d H.
  induction H as [|r r' l l' Hr _ [IH1 IH2]]; simpl; [now split|].
  unfold named at 1 3. rewrite (coerced_row_named _ _ _ Hr), IH1, IH2.
  now split.
Qed.

Lemma named_perm df df' :
  Permutation df df' -> forallb named df = true -> forallb named df' = true.
Proof.
  intros Hp H. apply forallb_forall. intros r Hr.
  rewrite forallb_forall in H. apply H.
  exact (Permutation_in _ (Permutation_sym Hp) Hr).
Qed.

Lemma named_has_column df :
  df <> [] -> forallb named df = true ->
  has_column "organization" df = true /\ empty df = false.
Proof.
  destruct df as [|r df]; [contradiction|]. intros _ H. simpl in H.
  apply andb_true_iff in H as [H _]. unfold named in H.
  unfold has_column, has_key, empty.
  destruct r as [|[k v] r]; [discriminate|].
  split; [|reflexivity].
  now destruct (lookup "organization" ((k, v) :: r)).
Qed.

(** The listing of [save_reports] on a table whose organization cells
    are strings. *)
Lemma listing_of_named df :
  empty df = false ->
  has_column "organization" df = true ->
  forallb named df = true ->
  listed (save_reports df)
  = Ok (map (fun n => (PStr n,
                       Z.of_nat (count_occ string_dec (org_names df) n)))
            (first_occurrences (org_names df))).
Proof.
  intros He Hc Hn. unfold save_reports. rewrite He, Hc. simpl.
  rewrite (named_cells df Hn), unique_strings. simpl.
  destruct (join_strings (first_occurrences (org_names df))) as (s & Hs).
  rewrite Hs. simpl. rewrite map_map. f_equal.
  apply map_ext. intros n. f_equal. now apply org_count_named.
Qed.

Lemma summaries_of_named df :
  empty df = false ->
  has_column "organization" df = true ->
  forallb named df = true ->
  exists sums,
    print_summary df = Ok sums
    /\ map (fun s => (org_name s, org_records s)) sums
       = map (fun n => (PStr n,
                        Z.of_nat (count_occ string_dec (org_names df) n)))
             (first_occurrences (org_names df)).
Proof.
  intros He Hc Hn. unfold print_summary, organization_summaries.
  rewrite He, Hc, (named_cells df Hn), unique_strings. simpl.
  destruct (join_strings (first_occurrences (org_names df))) as (s & Hs).
  rewrite Hs. simpl. eexists. split; [reflexivity|].
  rewrite !map_map. apply map_ext. intros n. simpl. f_equal.
  exact (org_count_named df n Hn).
Qed.

Lemma first_occurrences_In names n :
  In n (first_occurrences names) <-> In n names.
Proof.
  rewrite (count_occ_In string_dec), count_first_occurrences.
  destruct (in_dec string_dec n names); split; intros H;
    try assumption; try lia; contradiction.
Qed.

(** X14: on a loaded table whose organization cells are all strings
    and whose date columns convert, a run of [main] writes the
    processed table, and both the listing of [save_reports] and the
    summary of [print_summary] name every organization of the loaded
    table exactly once, each with the number of records it has in the
    loaded table: processing changes no count. *)
Theorem main_reports_every_organization
    (to_datetime : list pyval -> result (list (option Z)))
    (sort_values : DataFrame -> DataFrame) (df : DataFrame) :
  sorts_by_date sort_values ->
  same_columns df = true ->
  converts to_datetime "date" df ->
  converts to_datetime "download_timestamp" df ->
  empty df = false ->
  forallb named df = true ->
  exists df' orgs sums,
    process_data to_datetime sort_values df = Ok df'
    /\ main to_datetime sort_values df
       = Some (mkRun (Some df') (Ok (orgs, sums)))
    /\ NoDup (map fst orgs)
    /\ (forall n, In n (org_names df) <-> In (PStr n) (map fst orgs))
    /\ (forall n c,
          In (PStr n, c) orgs ->
          c = Z.of_nat (count_occ string_dec (org_names df) n))
    /\ map (fun s => (org_name s, org_records s)) sums = orgs.
Proof.
  intros Hsort Hs Hd Ht He Hn.
  destruct (process_data_coerces to_datetime sort_values df Hs Hd Ht He)
    as (df2 & E & F).
  destruct (coerced_org_names df df2 F) as (Hnames & Hnamed).
  set (df' := if has_column "date" df then sort_values df2 else df2) in *.
  assert (Hperm : Permutation df2 df').
  { subst df'. destruct (has_column "date" df); [|reflexivity].
    exact (proj1 (Hsort df2)). }
  assert (Hn' : forallb named df' = true).
  { apply (named_perm _ _ Hperm). now rewrite Hnamed. }
  assert (Hne : df' <> []).
  { intros E'. rewrite E' in Hperm. apply Permutation_sym in Hperm.
    apply Permutation_nil in Hperm. subst df2.
    inversion F; subst. discriminate. }
  destruct (named_has_column df' Hne Hn') as (Hc' & He').
  destruct (summaries_of_named df' He' Hc' Hn') as (sums & Hsums & Hmap).
  assert (Hcount : forall n,
    count_occ string_dec (org_names df') n
    = count_occ string_dec (org_names df) n).
  { intros n. rewrite <- Hnames. symmetry.
    apply (Permutation_count_occ string_dec).
    unfold org_names. now apply Permutation_map. }
  exists df'. eexists. exists sums. split; [exact E|]. split.
  { unfold main. rewrite He, E.
    rewrite (listing_of_named df' He' Hc' Hn'). simpl. rewrite Hsums.
    simpl. unfold save_reports. rewrite He'. reflexivity. }
  rewrite map_map. simpl. split; [|split; [|split]].
  - apply Finite.Injective_map_NoDup; [|apply first_occurrences_NoDup].
    intros a b H. now inversion H.
  - intros n. rewrite in_map_iff. split.
    + intros H. exists n. split; [reflexivity|].
      apply first_occurrences_In.
      apply (count_occ_In string_dec). rewrite Hcount.
      now apply (count_occ_In string_dec).
    + intros (m & [= ->] & H).
      apply (proj1 (first_occurrences_In _ _)) in H.
      apply (count_occ_In string_dec). rewrite <- Hcount.
      now apply (count_occ_In string_dec).
  - intros n c H. apply in_map_iff in H as (m & [= -> <-] & _).
    now rewrite Hcount.
  - exact Hmap.
Qed.

Lemma main_reports_every_organization_witness :
  exists df' sums,
    main to_datetime_days stable_sort_by_date wide_df
    = Some (mkRun (Some df')
              (Ok ([(PStr "acme", 2); (PStr "initech", 1)], sums)))
    /\ List.length df' = 3%nat.
Proof.
  destruct (main_reports_every_organization to_datetime_days
              stable_sort_by_date wide_df stable_sort_by_date_contract
              eq_refl (converts_days _ _) (converts_days _ _)
              eq_refl eq_refl)
    as (df' & orgs & sums & _ & Hmain & _).
  do 2 eexists. split; reflexivity.
Defined.

End RunClaims.

(** ** File names *)

Section FileNames.

Import Ingest Samples.

Lemma rfind_dot_json base :
  rfind_dot (base ++ ".json")%string = Some (String.length base).
Proof.
  induction base as [|c base IH]; [reflexivity|].
  cbn [String.append rfind_dot String.length]. now rewrite IH.
Qed.

Lemma length_json base :
  String.length (base ++ ".json")%string = (String.length base + 5)%nat.
Proof.
  induction base as [|c base IH]; [reflexivity|].
  cbn [String.append String.length]. now rewrite IH.
Qed.

Lemma substring_json base :
  String.substring 0 (String.length base) (base ++ ".json")%string = base.
Proof.
  induction base as [|c base IH]; [reflexivity|].
  cbn [String.append String.length String.substring]. now rewrite IH.
Qed.

(** The stem of a [.json] file is its name without the extension. *)
Lemma stem_json base :
  base <> EmptyString -> stem (base ++ ".json")%string = base.
Proof.
  intros Hne. unfold stem. rewrite rfind_dot_json, length_json.
  destruct base as [|c base]; [contradiction|].
  cbn [String.length].
  replace (Nat.ltb 0 (S (String.length base))) with true by reflexivity.
  replace (Nat.ltb (S (String.length base))
             (S (String.length base) + 5 - 1)) with true.
  - exact (substring_json (String c base)).
  - symmetry. apply Nat.ltb_lt. lia.
Qed.

(** X15: a file named [<pre>-<org>.json], where [<pre>] has no dash,
    whose JSON object has no [organization] key is loaded with
    [organization] set to [<org>], dashes and dots in [<org>]
    included; the other keys stay as they are. *)
Theorem organization_of_json_file (f : json_file) (pre org : string)
    (d : list (string * pyval)) :
  file_name f = ((pre ++ String "-" org) ++ ".json")%string ->
  has_dash pre = false ->
  content f = Some (PDict d) ->
  has_key "organization" d = false ->
  stem (file_name f) = (pre ++ String "-" org)%string
  /\ load_one f = Ok (PDict (d ++ [("organization", PStr org)])).
Proof.
  intros Hname Hpre Hc Hk.
  assert (Hstem : stem (file_name f) = (pre ++ String "-" org)%string).
  { rewrite Hname. apply stem_json. now destruct pre. }
  split; [exact Hstem|].
  unfold load_one. rewrite Hc. simpl. rewrite Hk. simpl.
  rewrite Hstem, has_dash_app, (split_dash_once_app _ _ Hpre). simpl.
  now rewrite (set_key_fresh _ _ _ Hk).
Qed.

Lemma organization_of_json_file_witness :
  load_one (mkFile "2025-06-15-acme.v2.json" (Some (PDict acme_body)))
  = Ok (PDict (acme_body ++ [("organization", PStr "06-15-acme.v2")])).
Proof.
  exact (proj2 (organization_of_json_file
                  (mkFile "2025-06-15-acme.v2.json" (Some (PDict acme_body)))
                  "2025" "06-15-acme.v2" acme_body
                  eq_refl eq_refl eq_refl eq_refl)).
Defined.

End FileNames.

(** ** When the tables of the dashboard are built *)

Section DashboardSuccess.

Import Ingest Pandas Shape Frames Dashboard Extract Samples.

Lemma chat_rows_dates df rows :
  extract_chat_metrics df = Ok rows ->
  Forall (fun r => exists row, In row df /\ cell "date" row = cm_date r) rows.
Proof.
  apply for_each_Forall. intros row rs Hin H.
  apply chat_rows_of_record_fields in H.
  eapply Forall_impl; [|exact H]. intros r [Hd _]. exists row.
  split; [exact Hin | now apply cell_lookup].
Qed.

Lemma unique_hashable cells :
  forallb hashable cells = true -> exists u, unique cells = Ok u.
Proof.
  induction cells as [|c cells IH]; simpl; [now eexists|].
  intros H. apply andb_true_iff in H as [Hc Hcells].
  destruct (IH Hcells) as (u & ->). rewrite Hc. simpl. now eexists.
Qed.

Lemma column_filter_hashable k (keep : Series -> bool) df :
  forallb hashable (column k df) = true ->
  forallb hashable (column k (filter keep df)) = true.
Proof.
  unfold column. induction df as [|row df IH]; simpl; [reflexivity|].
  intros H. apply andb_true_iff in H as [Hr Hdf].
  destruct (keep row); simpl; [rewrite Hr|]; now apply IH.
Qed.

Lemma select_dates_typed {R} (date : R -> pyval) start_date end_date rows :
  rows <> [] ->
  forallb (fun r => is_datetime (date r)) rows = true ->
  exists t,
    select_dates date start_date end_date (pd_DataFrame rows) = Ok t
    /\ has_columns t = true.
Proof.
  intros Hne Ht. unfold select_dates.
  destruct rows as [|r rows]; [contradiction|].
  cbn [pd_DataFrame has_columns records]. rewrite Ht.
  now eexists.
Qed.

Lemma filter_organization_succeeds selectbox t :
  has_columns (lang_df t) = true ->
  has_columns (chat_df t) = true ->
  forallb hashable (column "organization" (wide t)) = true ->
  exists t', filter_organization selectbox t = Ok t'.
Proof.
  intros Hl Hc Hh. unfold filter_organization.
  destruct (has_column "organization" (wide t)); [|now eexists].
  destruct (unique_hashable _ Hh) as (orgs & ->). simpl.
  destruct (1 <? Z.of_nat (List.length orgs)); [|now eexists].
  unfold select_organization. rewrite Hl, Hc. simpl. now eexists.
Qed.

Lemma main_tables_from_rows
    (date_input : option Z -> option Z -> result (list Z))
    (selectbox : list pyval -> pyval) (df : DataFrame)
    (language_data : list LanguageMetricRow) (chat_data : list ChatMetricRow)
    (dates : list (option Z)) (date_range : list Z) :
  empty df = false ->
  extract_language_metrics df = Ok language_data ->
  language_data <> [] ->
  extract_chat_metrics df = Ok chat_data ->
  chat_data <> [] ->
  date_column df = Ok dates ->
  date_input (column_min dates) (column_max dates) = Ok date_range ->
  forallb hashable (column "organization" df) = true ->
  exists t, main_tables date_input selectbox (Some df) = Ok (Some t).
Proof.
  intros He Hl Hln Hc Hcn Hd Hr Hh. unfold main_tables.
  rewrite He, Hl, Hc. simpl. rewrite Hd. simpl. rewrite Hr. simpl.
  assert (Htyped : forall row, In row df ->
                     is_datetime (cell "date" row) = true).
  { unfold date_column in Hd.
    destruct (has_column "date" df); [|discriminate].
    destruct (forallb (fun row => is_datetime (cell "date" row)) df) eqn:Hall;
      [|discriminate].
    now apply forallb_forall. }
  assert (Hlt : forallb (fun r => is_datetime (lm_date r)) language_data
                = true).
  { apply forallb_forall. intros r Hr'.
    pose proof (language_rows_dates _ _ Hl) as Hrows.
    rewrite Forall_forall in Hrows.
    destruct (Hrows r Hr') as (row & Hin & <-). now apply Htyped. }
  assert (Hct : forallb (fun r => is_datetime (cm_date r)) chat_data = true).
  { apply forallb_forall. intros r Hr'.
    pose proof (chat_rows_dates _ _ Hc) as Hrows.
    rewrite Forall_forall in Hrows.
    destruct (Hrows r Hr') as (row & Hin & <-). now apply Htyped. }
  assert (Hdate : exists t1,
    filter_date_range date_range
      (mkTables df (pd_DataFrame language_data) (pd_DataFrame chat_data))
    = Ok t1
    /\ has_columns (lang_df t1) = true
    /\ has_columns (chat_df t1) = true
    /\ forallb hashable (column "organization" (wide t1)) = true).
  { assert (Hsame : exists t1,
      Ok (mkTables df (pd_DataFrame language_data) (pd_DataFrame chat_data))
      = Ok t1
      /\ has_columns (lang_df t1) = true
      /\ has_columns (chat_df t1) = true
      /\ forallb hashable (column "organization" (wide t1)) = true).
    { eexists. split; [reflexivity|]. simpl.
      destruct language_data; [contradiction|].
      destruct chat_data; [contradiction|]. now repeat split. }
    unfold filter_date_range.
    destruct date_range as [|start_date [|end_date [|]]]; try exact Hsame.
    cbn [wide lang_df chat_df].
    destruct (select_dates_typed lm_date start_date end_date language_data
                Hln Hlt) as (lang & -> & Hlang).
    destruct (select_dates_typed cm_date start_date end_date chat_data
                Hcn Hct) as (chat & -> & Hchat).
    simpl. eexists. split; [reflexivity|]. simpl.
    split; [exact Hlang|]. split; [exact Hchat|].
    now apply column_filter_hashable. }
  destruct Hdate as (t1 & -> & H1 & H2 & H3). simpl.
  destruct (filter_organization_succeeds selectbox t1 H1 H2 H3) as (t2 & ->).
  simpl. now eexists.
Qed.

(** X16: when every record of the snapshot is well shaped (a feature
    cell null or a dict, lists of dicts under [editors], [models] and
    [languages], a dotcom [models] that is absent, null or an array of
    one model), some record lists a language and some record a chat
    model or a web chat, the [date] column is [datetime64] and the
    organization cells can be hashed, [main] extracts both long tables
    and builds the three tables without raising, whatever range the
    date input returns and whatever organization is selected. *)
Theorem main_tables_are_built
    (date_input : option Z -> option Z -> result (list Z))
    (selectbox : list pyval -> pyval) (df : DataFrame)
    (dates : list (option Z)) (date_range : list Z) :
  same_columns df = true ->
  forallb language_record_ok df = true ->
  forallb chat_record_ok df = true ->
  (0 < list_sum (map count_language_record df))%nat ->
  (0 < list_sum (map count_chat_record df))%nat ->
  date_column df = Ok dates ->
  date_input (column_min dates) (column_max dates) = Ok date_range ->
  forallb hashable (column "organization" df) = true ->
  exists t, main_tables date_input selectbox (Some df) = Ok (Some t).
Proof.
  intros _ HL HC Hlang Hchat Hd Hr Hh.
  assert (Hl : exists rows,
    extract_language_metrics df = Ok rows
    /\ List.length rows = list_sum (map count_language_record df)).
  { apply for_each_count. intros row Hrow.
    apply language_rows_of_record_ok. exact (forallb_In _ _ _ HL Hrow). }
  assert (Hc : exists rows,
    extract_chat_metrics df = Ok rows
    /\ List.length rows = list_sum (map count_chat_record df)).
  { apply for_each_count. intros row Hrow.
    apply chat_rows_of_record_ok. exact (forallb_In _ _ _ HC Hrow). }
  destruct Hl as (language_data & Hl & Hln).
  destruct Hc as (chat_data & Hc & Hcn).
  apply (main_tables_from_rows date_input selectbox df language_data
           chat_data dates date_range); try assumption.
  - unfold date_column in Hd.
    destruct (has_column "date" df) eqn:E; [|discriminate].
    destruct df as [|[|c r] rest]; simpl in *; try discriminate; reflexivity.
  - intros ->. simpl in Hln. lia.
  - intros ->. simpl in Hcn. lia.
Qed.

Lemma main_tables_are_built_witness :
  exists t,
    main_tables (picked_range 20240 20240) first_option (Some usage_df)
    = Ok (Some t)
    /\ wide t = [usage_row 20240 "acme"].
Proof.
  destruct (main_tables_are_built (picked_range 20240 20240) first_option
              usage_df [Some 20238; Some 20240; Some 20240] [20240; 20240]
              eq_refl eq_refl eq_refl ltac:(vm_compute; lia)
              ltac:(vm_compute; lia) eq_refl eq_refl eq_refl)
    as (t & Ht).
  eexists. split; reflexivity.
Defined.

End DashboardSuccess.
